(** * Google Workspace agent: intent routing and bounded conversation history

    A shallow embedding of [src/google_workspace_agent/llm_client.py]
    (ConversationContext, GroqLLMClient.generate_response) and of
    [src/google_workspace_agent/integration.py] (WorkspaceIntegration),
    with the properties of the routing layer stated and proved over it.

    The methods of the five service clients that the agent calls, with
    [BaseServiceClient.handle_api_error], are embedded over the Google API
    client library ([Platform]), and the agent is run on them
    ([platform_runtime]).

    Python values are an inductive type, mutable objects are threaded
    through an explicit state, and an exception is one of the two outcomes
    of a computation.  The hosted model, the five Google clients and the
    Python built-ins [json.loads], [json.dumps] and [str] are the members
    of one interface, [Runtime]; every theorem of the first part holds for
    all of its instances. *)

From Stdlib Require Import ZArith List String Ascii Bool Lia DecimalString.
Import ListNotations.

Local Open Scope string_scope.
Local Open Scope Z_scope.
Local Open Scope list_scope.
Local Set Warnings "-register-all".

(* ================================================================== *)
(** ** Python values, exceptions and outcomes *)

(** The values that [json.loads] can build and that the handlers pass
    around.  A [dict] is an association list in insertion order with string
    keys; a float is kept by its [repr]. *)
Inductive pyval : Type :=
| PNone
| PBool (b : bool)
| PInt (n : Z)
| PFloat (repr : string)
| PStr (s : string)
| PList (items : list pyval)
| PDict (entries : list (string * pyval)).

(** An exception: its class name and [str(e)]. *)
Inductive exn : Type := Exn (cls : string) (text : string).

Definition exn_str (e : exn) : string := let 'Exn _ t := e in t.

Definition AttributeError (t : string) : exn := Exn "AttributeError" t.
Definition TypeError (t : string) : exn := Exn "TypeError" t.
Definition IndexError (t : string) : exn := Exn "IndexError" t.
(** [str(KeyError(k))] is [repr(k)]; for a key without quotes or escapes
    that is the key between single quotes. *)
Definition KeyError (k : string) : exn := Exn "KeyError" ("'" ++ k ++ "'").
Definition JSONDecodeError (t : string) : exn := Exn "JSONDecodeError" t.
(** Raised by CPython at a call that would exceed the interpreter's stack
    bound; a subclass of [Exception]. *)
Definition RecursionError : exn :=
  Exn "RecursionError" "maximum recursion depth exceeded".

Inductive outcome (A : Type) : Type :=
| Return (a : A)
| Raise (e : exn).
Arguments Return {A} a.
Arguments Raise {A} e.

(** [type(v).__name__] *)
Definition type_name (v : pyval) : string :=
  match v with
  | PNone => "NoneType"
  | PBool _ => "bool"
  | PInt _ => "int"
  | PFloat _ => "float"
  | PStr _ => "str"
  | PList _ => "list"
  | PDict _ => "dict"
  end.

Fixpoint dict_lookup (d : list (string * pyval)) (k : string) : option pyval :=
  match d with
  | [] => None
  | (k', v) :: rest => if String.eqb k' k then Some v else dict_lookup rest k
  end.

(** [d[k] = v] on a dict: the value is replaced in place when the key is
    present, the entry is added at the end otherwise. *)
Fixpoint dict_set (d : list (string * pyval)) (k : string) (v : pyval)
  : list (string * pyval) :=
  match d with
  | [] => [(k, v)]
  | (k', v') :: rest =>
      if String.eqb k' k then (k', v) :: rest else (k', v') :: dict_set rest k v
  end.

Definition no_attribute (v : pyval) (attr : string) : exn :=
  AttributeError ("'" ++ type_name v ++ "' object has no attribute '" ++ attr ++ "'").

(** [v.get(k, default)]: only a dict has the method. *)
Definition py_get (v : pyval) (k : string) (default : pyval) : outcome pyval :=
  match v with
  | PDict d =>
      Return (match dict_lookup d k with Some x => x | None => default end)
  | _ => Raise (no_attribute v "get")
  end.

(** [v.items()] *)
Definition py_items (v : pyval) : outcome (list (string * pyval)) :=
  match v with
  | PDict d => Return d
  | _ => Raise (no_attribute v "items")
  end.

(** [v[k]] for a string key [k] (the messages are those of CPython 3.11). *)
Definition py_getitem (v : pyval) (k : string) : outcome pyval :=
  match v with
  | PDict d =>
      match dict_lookup d k with
      | Some x => Return x
      | None => Raise (KeyError k)
      end
  | PList _ => Raise (TypeError "list indices must be integers or slices, not str")
  | PStr _ => Raise (TypeError "string indices must be integers, not 'str'")
  | _ => Raise (TypeError ("'" ++ type_name v ++ "' object is not subscriptable"))
  end.

(** [v == s] for a string literal [s] *)
Definition py_eq_str (v : pyval) (s : string) : bool :=
  match v with
  | PStr t => String.eqb t s
  | _ => false
  end.

(** [l[start:]] *)
Definition slice_from {A : Type} (start : Z) (l : list A) : list A :=
  let len := Z.of_nat (List.length l) in
  let i := if start <? 0 then Z.max (len + start) 0 else Z.min start len in
  skipn (Z.to_nat i) l.

(** The last [n] elements of [l], in their order. *)
Definition last_n {A : Type} (n : nat) (l : list A) : list A :=
  skipn (List.length l - n) l.

Definition is_dict (v : pyval) : bool :=
  match v with
  | PDict _ => true
  | _ => false
  end.

(** No key occurs twice, as in the keys of a dict. *)
Fixpoint distinct (keys : list string) : bool :=
  match keys with
  | [] => true
  | k :: rest => (negb (existsb (String.eqb k) rest) && distinct rest)%bool
  end.


(* ================================================================== *)
(** ** llm_client.py: ConversationContext *)

Record message : Type := Message { role : string; content : string }.

Record ConversationContext : Type := Context {
  messages : list message;
  max_context_length : Z
}.

(** [ConversationContext(max_context_length=n)] *)
Definition new_context (n : Z) : ConversationContext :=
  {| messages := []; max_context_length := n |}.

(** [ConversationContext.add_message] *)
Definition add_message (r c : string) (ctx : ConversationContext)
  : ConversationContext :=
  let appended := messages ctx ++ [Message r c] in
  if Z.of_nat (List.length appended) >? max_context_length ctx
  then {| messages := slice_from (- max_context_length ctx) appended;
          max_context_length := max_context_length ctx |}
  else {| messages := appended;
          max_context_length := max_context_length ctx |}.

(** [ConversationContext.clear] *)
Definition clear (ctx : ConversationContext) : ConversationContext :=
  {| messages := []; max_context_length := max_context_length ctx |}.

(** A run of [add_message] calls, one per message of [ms], in order. *)
Definition add_messages (ms : list message) (ctx : ConversationContext)
  : ConversationContext :=
  fold_left (fun c m => add_message (role m) (content m) c) ms ctx.

(* ================================================================== *)
(** ** The collaborators *)

(** The operations of the five service clients that the handlers call. *)
Inductive client_op : Type :=
| GmailCreateItem | GmailListItems
| CalendarCreateItem | CalendarListItems
| DriveUploadFile | DriveListItems
| SheetsCreateItem | SheetsReadValues
| DocsCreateItem | DocsAppendText.

(** What [json.loads] does with a document: a value, a
    [JSONDecodeError] with the given text, or an exception of another
    class raised from inside the decoder: the C scanner enters one
    recursive call per array or object it opens and raises
    [RecursionError] on a text nested deeper than the stack admits. *)
Inductive loaded : Type :=
| Parsed (v : pyval)
| Malformed (text : string)
| Crashed (e : exn).

(** Everything the two modules call and do not define.  [World] is the
    state of the outside (the model, the Google services);
    [chat_completions_create] is [client.chat.completions.create] and
    returns the [message.content] of each choice; [client_call op kwargs]
    is the call of a client method with keyword arguments. *)
Class Runtime : Type := {
  World : Type;
  chat_completions_create :
    list message -> World -> outcome (list string) * World;
  client_call :
    client_op -> list (string * pyval) -> World -> outcome pyval * World;
  json_loads : string -> loaded;
  json_dumps : pyval -> string;
  py_str : pyval -> string
}.

Definition newline : string := String (ascii_of_nat 10) EmptyString.

Section Agent.

Context {R : Runtime}.

(** The mutable objects: the outside, the client's conversation context
    and the lines written through [logger.error]. *)
Record state : Type := State {
  world : World;
  context : ConversationContext;
  log : list string
}.

(** *** Computations: state passing with exceptions *)

Definition M (A : Type) : Type := state -> outcome A * state.

Definition ret {A : Type} (a : A) : M A := fun st => (Return a, st).

Definition raise {A : Type} (e : exn) : M A := fun st => (Raise e, st).

Definition lift {A : Type} (o : outcome A) : M A := fun st => (o, st).

Definition bind {A B : Type} (m : M A) (k : A -> M B) : M B :=
  fun st =>
    match m st with
    | (Return a, st') => k a st'
    | (Raise e, st') => (Raise e, st')
    end.

(** [try: body / except Exception as e: handler e] *)
Definition try_except {A : Type} (body : M A) (handler : exn -> M A) : M A :=
  fun st =>
    match body st with
    | (Return a, st') => (Return a, st')
    | (Raise e, st') => handler e st'
    end.

Notation "x <- m ;; k" := (bind m (fun x => k))
  (at level 61, m at next level, right associativity).
Notation "m ;; k" := (bind m (fun _ => k))
  (at level 61, right associativity).

Definition logger_error (line : string) : M unit :=
  fun st =>
    (Return tt,
     {| world := world st; context := context st; log := log st ++ [line] |}).

Definition get_context : M ConversationContext :=
  fun st => (Return (context st), st).

Definition update_context (f : ConversationContext -> ConversationContext)
  : M unit :=
  fun st =>
    (Return tt,
     {| world := world st; context := f (context st); log := log st |}).

Definition create (msgs : list message) : M (list string) :=
  fun st =>
    let (r, w) := chat_completions_create msgs (world st) in
    (r, {| world := w; context := context st; log := log st |}).

Definition call (op : client_op) (kwargs : list (string * pyval)) : M pyval :=
  fun st =>
    let (r, w) := client_call op kwargs (world st) in
    (r, {| world := w; context := context st; log := log st |}).

(** *** llm_client.py: GroqLLMClient.generate_response *)

(** The message sequence sent to the model: the system message when it is
    given and not empty, the stored history, the prompt as a user turn. *)
Definition outgoing (prompt : string) (system_message : option string)
  (ctx : ConversationContext) : list message :=
  (match system_message with
   | Some s => if String.eqb s "" then [] else [Message "system" s]
   | None => []
   end)
  ++ messages ctx ++ [Message "user" prompt].

Definition generate_response (prompt : string) (system_message : option string)
  : M string :=
  ctx <- get_context ;;
  try_except
    (choices <- create (outgoing prompt system_message ctx) ;;
     generated_text <-
       lift (match choices with
             | c :: _ => Return c
             | [] => Raise (IndexError "list index out of range")
             end) ;;
     update_context (add_message "user" prompt) ;;
     update_context (add_message "assistant" generated_text) ;;
     ret generated_text)
    (fun e =>
       logger_error ("LLM generation error: " ++ exn_str e) ;;
       raise e).

(** [GroqLLMClient.reset_context] *)
Definition reset_context : M unit := update_context clear.

(** *** integration.py: WorkspaceIntegration *)

Definition system_prompt : string :=
  newline ++
  "        You are an intent extraction assistant for a Google Workspace agent." ++ newline ++
  "        Extract the following from a user request:" ++ newline ++
  "        - Target service (email, calendar, drive, sheets, docs, or multi)" ++ newline ++
  "        - Specific action (create, read, update, delete, etc.)" ++ newline ++
  "        - Relevant parameters" ++ newline ++
  "        " ++ newline ++
  "        Return a JSON with these details." ++ newline ++
  "        ".

Definition _extract_intent (request : string) : M pyval :=
  response <- generate_response request (Some system_prompt) ;;
  match json_loads response with
  | Parsed v => ret v
  | Malformed _ =>
      ret (PDict [("service", PStr "multi");
                  ("action", PStr "interpret");
                  ("details", PStr request)])
  | Crashed e => raise e
  end.

Definition _handle_email_request (intent : pyval) : M pyval :=
  action <- lift (py_get intent "action" (PStr "")) ;;
  details <- lift (py_get intent "details" (PDict [])) ;;
  if py_eq_str action "send" then
    to <- lift (py_get details "to" (PStr "")) ;;
    subject <- lift (py_get details "subject" (PStr "")) ;;
    body <- lift (py_get details "body" (PStr "")) ;;
    result <- call GmailCreateItem
                [("to", to); ("subject", subject); ("body", body)] ;;
    ret (PDict [("status", PStr "success"); ("result", result)])
  else if py_eq_str action "read" then
    max_results <- lift (py_get details "max_results" (PInt 10)) ;;
    query <- lift (py_get details "query" PNone) ;;
    result <- call GmailListItems
                [("max_results", max_results); ("query", query)] ;;
    ret (PDict [("status", PStr "success"); ("result", result)])
  else ret PNone.

Definition _handle_calendar_request (intent : pyval) : M pyval :=
  action <- lift (py_get intent "action" (PStr "")) ;;
  details <- lift (py_get intent "details" (PDict [])) ;;
  if py_eq_str action "create" then
    summary <- lift (py_get details "summary" (PStr "")) ;;
    start_time <- lift (py_get details "start_time" PNone) ;;
    end_time <- lift (py_get details "end_time" PNone) ;;
    description <- lift (py_get details "description" PNone) ;;
    attendees <- lift (py_get details "attendees" PNone) ;;
    result <- call CalendarCreateItem
                [("summary", summary); ("start_time", start_time);
                 ("end_time", end_time); ("description", description);
                 ("attendees", attendees)] ;;
    ret (PDict [("status", PStr "success"); ("result", result)])
  else if py_eq_str action "list" then
    max_results <- lift (py_get details "max_results" (PInt 10)) ;;
    time_min <- lift (py_get details "time_min" PNone) ;;
    time_max <- lift (py_get details "time_max" PNone) ;;
    result <- call CalendarListItems
                [("max_results", max_results); ("time_min", time_min);
                 ("time_max", time_max)] ;;
    ret (PDict [("status", PStr "success"); ("result", result)])
  else ret PNone.

Definition _handle_drive_request (intent : pyval) : M pyval :=
  action <- lift (py_get intent "action" (PStr "")) ;;
  details <- lift (py_get intent "details" (PDict [])) ;;
  if py_eq_str action "upload" then
    local_path <- lift (py_get details "local_path" (PStr "")) ;;
    name <- lift (py_get details "name" PNone) ;;
    parent_id <- lift (py_get details "parent_id" PNone) ;;
    result <- call DriveUploadFile
                [("local_path", local_path); ("name", name);
                 ("parent_id", parent_id)] ;;
    ret (PDict [("status", PStr "success"); ("result", result)])
  else if py_eq_str action "list" then
    max_results <- lift (py_get details "max_results" (PInt 10)) ;;
    query <- lift (py_get details "query" PNone) ;;
    result <- call DriveListItems
                [("max_results", max_results); ("query", query)] ;;
    ret (PDict [("status", PStr "success"); ("result", result)])
  else ret PNone.

Definition _handle_sheets_request (intent : pyval) : M pyval :=
  action <- lift (py_get intent "action" (PStr "")) ;;
  details <- lift (py_get intent "details" (PDict [])) ;;
  if py_eq_str action "create" then
    title <- lift (py_get details "title" (PStr "")) ;;
    sheets <- lift (py_get details "sheets" PNone) ;;
    result <- call SheetsCreateItem [("title", title); ("sheets", sheets)] ;;
    ret (PDict [("status", PStr "success"); ("result", result)])
  else if py_eq_str action "read" then
    spreadsheet_id <- lift (py_get details "spreadsheet_id" (PStr "")) ;;
    range_name <- lift (py_get details "range_name" (PStr "")) ;;
    result <- call SheetsReadValues
                [("spreadsheet_id", spreadsheet_id);
                 ("range_name", range_name)] ;;
    ret (PDict [("status", PStr "success"); ("result", result)])
  else ret PNone.

Definition _handle_docs_request (intent : pyval) : M pyval :=
  action <- lift (py_get intent "action" (PStr "")) ;;
  details <- lift (py_get intent "details" (PDict [])) ;;
  if py_eq_str action "create" then
    title <- lift (py_get details "title" (PStr "")) ;;
    content <- lift (py_get details "content" PNone) ;;
    result <- call DocsCreateItem [("title", title); ("content", content)] ;;
    ret (PDict [("status", PStr "success"); ("result", result)])
  else if py_eq_str action "append" then
    document_id <- lift (py_get details "document_id" (PStr "")) ;;
    text <- lift (py_get details "text" (PStr "")) ;;
    result <- call DocsAppendText
                [("document_id", document_id); ("text", text)] ;;
    ret (PDict [("status", PStr "success"); ("result", result)])
  else ret PNone.

Definition breakdown_prompt (details : pyval) : string :=
  newline ++
  "        Break down this multi-service request into specific actions:" ++ newline ++
  "        " ++ py_str details ++ newline ++
  "        " ++ newline ++
  "        Provide a JSON with a list of actions for each service." ++ newline ++
  "        ".

(** [json.loads] where a failure is an exception like any other. *)
Definition loads (doc : string) : outcome pyval :=
  match json_loads doc with
  | Parsed v => Return v
  | Malformed t => Raise (JSONDecodeError t)
  | Crashed e => Raise e
  end.

(** The [for service, service_actions in actions.items()] loop of
    [_handle_multi_service_request]; [results] is the dict being filled and
    [self_process] is the call [self.process_natural_language_request]. *)
Fixpoint execute_actions (self_process : string -> M pyval)
  (items : list (string * pyval)) (results : list (string * pyval))
  : M (list (string * pyval)) :=
  match items with
  | [] => ret results
  | (service, service_actions) :: rest =>
      action <- lift (py_get service_actions "action" PNone) ;;
      details <- lift (py_get service_actions "details" (PDict [])) ;;
      let service_intent :=
        PDict [("service", PStr service);
               ("action", action);
               ("details", details)] in
      r <- self_process (json_dumps service_intent) ;;
      execute_actions self_process rest (dict_set results service r)
  end.

Definition _handle_multi_service_request (self_process : string -> M pyval)
  (intent : pyval) : M pyval :=
  details <- lift (py_get intent "details" (PStr "")) ;;
  breakdown <- generate_response (breakdown_prompt details)
                 (Some "You are a workflow decomposition assistant.") ;;
  try_except
    (actions <- lift (loads breakdown) ;;
     items <- lift (py_items actions) ;;
     results <- execute_actions self_process items [] ;;
     ret (PDict [("status", PStr "success"); ("results", PDict results)]))
    (fun e =>
       ret (PDict [("status", PStr "error");
                   ("message",
                    PStr ("Multi-service request processing failed: "
                          ++ exn_str e))])).

(** The [if]/[elif] chain of [process_natural_language_request]: every
    test evaluates [intent['service']] again, as the source does. *)
Definition route (self_process : string -> M pyval) (intent : pyval)
  : M pyval :=
  s <- lift (py_getitem intent "service") ;;
  if py_eq_str s "email" then _handle_email_request intent else
  s <- lift (py_getitem intent "service") ;;
  if py_eq_str s "calendar" then _handle_calendar_request intent else
  s <- lift (py_getitem intent "service") ;;
  if py_eq_str s "drive" then _handle_drive_request intent else
  s <- lift (py_getitem intent "service") ;;
  if py_eq_str s "sheets" then _handle_sheets_request intent else
  s <- lift (py_getitem intent "service") ;;
  if py_eq_str s "docs" then _handle_docs_request intent else
  s <- lift (py_getitem intent "service") ;;
  if py_eq_str s "multi"
  then _handle_multi_service_request self_process intent else
  s <- lift (py_getitem intent "service") ;;
  ret (PDict [("status", PStr "error");
              ("message", PStr ("Unsupported service: " ++ py_str s))]).

(** The body of [process_natural_language_request], with the method's own
    name bound to [self_process]. *)
Definition process_request (self_process : string -> M pyval)
  (request : string) : M pyval :=
  try_except
    (intent <- _extract_intent request ;;
     route self_process intent)
    (fun e =>
       logger_error ("Error processing request: " ++ exn_str e) ;;
       ret (PDict [("status", PStr "error");
                   ("message", PStr (exn_str e))])).

(** [WorkspaceIntegration.process_natural_language_request].  The method
    calls itself through [_handle_multi_service_request], as deep as the
    model's answers lead it; [depth] is the number of nested calls the
    interpreter's stack still admits, and the call that exceeds it raises
    [RecursionError] where it is made. *)
Fixpoint process_natural_language_request (depth : nat) (request : string)
  : M pyval :=
  process_request
    (match depth with
     | O => fun _ => raise RecursionError
     | S d => process_natural_language_request d
     end)
    request.

(** [self.process_natural_language_request] as seen from a frame with
    [depth] nested calls left. *)
Definition nested_call (depth : nat) : string -> M pyval :=
  match depth with
  | O => fun _ => raise RecursionError
  | S d => process_natural_language_request d
  end.

(** *** The handlers at a glance

    For each service name tested by [route]: its handler and, for each
    action the handler knows, the client operation called and the fields
    of [details] passed to it, each with the default used when the field is
    absent.  The table is checked against the handlers below. *)
Definition handlers
  : list (string * (pyval -> M pyval)
          * list (string * client_op * list (string * pyval))) :=
  [ ("email", _handle_email_request,
     [ ("send", GmailCreateItem,
        [("to", PStr ""); ("subject", PStr ""); ("body", PStr "")]);
       ("read", GmailListItems,
        [("max_results", PInt 10); ("query", PNone)]) ]);
    ("calendar", _handle_calendar_request,
     [ ("create", CalendarCreateItem,
        [("summary", PStr ""); ("start_time", PNone); ("end_time", PNone);
         ("description", PNone); ("attendees", PNone)]);
       ("list", CalendarListItems,
        [("max_results", PInt 10); ("time_min", PNone); ("time_max", PNone)]) ]);
    ("drive", _handle_drive_request,
     [ ("upload", DriveUploadFile,
        [("local_path", PStr ""); ("name", PNone); ("parent_id", PNone)]);
       ("list", DriveListItems,
        [("max_results", PInt 10); ("query", PNone)]) ]);
    ("sheets", _handle_sheets_request,
     [ ("create", SheetsCreateItem,
        [("title", PStr ""); ("sheets", PNone)]);
       ("read", SheetsReadValues,
        [("spreadsheet_id", PStr ""); ("range_name", PStr "")]) ]);
    ("docs", _handle_docs_request,
     [ ("create", DocsCreateItem,
        [("title", PStr ""); ("content", PNone)]);
       ("append", DocsAppendText,
        [("document_id", PStr ""); ("text", PStr "")]) ]) ].

(** The keyword arguments built from the dict [details]. *)
Definition kwargs_of (fields : list (string * pyval))
  (details : list (string * pyval)) : list (string * pyval) :=
  map (fun f : string * pyval =>
         (fst f,
          match dict_lookup details (fst f) with
          | Some x => x
          | None => snd f
          end))
      fields.

(** The handler that [route] runs for each service name it tests. *)
Definition dispatch_table (self_process : string -> M pyval)
  : list (string * (pyval -> M pyval)) :=
  map (fun entry => (fst (fst entry), snd (fst entry))) handlers
  ++ [("multi", _handle_multi_service_request self_process)].

(** The intent built in the loop for one entry of the decomposition. *)
Definition service_intent (service : string) (service_actions : pyval)
  : pyval :=
  PDict [("service", PStr service);
         ("action",
          match service_actions with
          | PDict d =>
              match dict_lookup d "action" with Some x => x | None => PNone end
          | _ => PNone
          end);
         ("details",
          match service_actions with
          | PDict d =>
              match dict_lookup d "details" with Some x => x | None => PDict [] end
          | _ => PDict []
          end)].

(** A completed fan-out: [fanned_out call items st results st'] when
    the entries of [items] were handled one after the other from state
    [st], each by one returning [call] on the JSON text of its intent, and
    left the sub-results [results], in the same order, and the state
    [st']. *)
Inductive fanned_out (call : string -> M pyval)
  : list (string * pyval) -> state -> list (string * pyval) -> state -> Prop :=
| fanned_out_nil (st : state) : fanned_out call [] st [] st
| fanned_out_cons (service : string) (service_actions : pyval)
    (rest : list (string * pyval)) (st st1 st2 : state) (r : pyval)
    (results : list (string * pyval)) :
    call (json_dumps (service_intent service service_actions)) st
    = (Return r, st1) ->
    fanned_out call rest st1 results st2 ->
    fanned_out call ((service, service_actions) :: rest) st
      ((service, r) :: results) st2.

(** *** The fan-out as the specification words it

    "constructs a fresh Intent and re-invokes the Service Router": the
    constructed intent goes to [route] itself, inside the router's
    catch-all, with no request text and no extraction in between.  This
    is the loop that the specification and the repository's
    [test_handle_multi_service_request] describe; it is compared with
    [execute_actions] below. *)
Definition route_guarded (self_process : string -> M pyval) (intent : pyval)
  : M pyval :=
  try_except (route self_process intent)
    (fun e =>
       logger_error ("Error processing request: " ++ exn_str e) ;;
       ret (PDict [("status", PStr "error");
                   ("message", PStr (exn_str e))])).

Fixpoint execute_actions_direct (self_process : string -> M pyval)
  (items : list (string * pyval)) (results : list (string * pyval))
  : M (list (string * pyval)) :=
  match items with
  | [] => ret results
  | (service, service_actions) :: rest =>
      action <- lift (py_get service_actions "action" PNone) ;;
      details <- lift (py_get service_actions "details" (PDict [])) ;;
      r <- route_guarded self_process
             (PDict [("service", PStr service);
                     ("action", action);
                     ("details", details)]) ;;
      execute_actions_direct self_process rest (dict_set results service r)
  end.

End Agent.

(* ================================================================== *)
(** ** The rest of the two modules *)

(** [s[:stop]] on a string *)
Definition str_prefix (stop : Z) (s : string) : string :=
  let len := Z.of_nat (String.length s) in
  let j := if stop <? 0 then Z.max (len + stop) 0 else Z.min stop len in
  String.substring 0 (Z.to_nat j) s.

(** The process a completion provider is created in: its environment
    variables, the Groq library and the logging module.  [Groq k] is
    [Groq(api_key=k)] and [logging_basicConfig level format] is
    [logging.basicConfig(level=level, format=format)]; either can raise,
    and either can change the process. *)
Class Host : Type := {
  Process : Type;
  Handle : Type;
  os_getenv : string -> Process -> option string;
  Groq : string -> Process -> outcome Handle * Process;
  logging_basicConfig : string -> string -> Process -> outcome unit * Process
}.

Section Creation.

Context {H : Host}.

(** What [GroqLLMClient.__init__] leaves in the object, the logger
    apart. *)
Record groq_client : Type := GroqClient {
  api_key : string;
  client_handle : Handle;
  model_name : string;
  client_context : ConversationContext
}.

(** [os.getenv(name, default)] *)
Definition os_getenv_or (name default : string) (p : Process) : string :=
  match os_getenv name p with
  | Some value => value
  | None => default
  end.

(** [api_key or os.getenv('GROQ_API_KEY')]: an empty string is falsy. *)
Definition key_or_environment (key : option string) (p : Process)
  : option string :=
  match key with
  | Some k => if String.eqb k "" then os_getenv "GROQ_API_KEY" p else Some k
  | None => os_getenv "GROQ_API_KEY" p
  end.

Definition log_format : string :=
  "%(asctime)s - %(name)s - %(levelname)s - %(message)s".

(** [GroqLLMClient.__init__], statement by statement: the key, the check
    of the key, the Groq handle, the model and the context, the
    configuration of logging with the level read from the environment
    once the handle exists.  Nothing is caught: what the library calls
    raise leaves the constructor, and no object results. *)
Definition groq_client_init (key : option string) (model : string)
  (p : Process) : outcome groq_client * Process :=
  match key_or_environment key p with
  | Some k =>
      if String.eqb k ""
      then (Raise (Exn "ValueError"
                     "Groq API key is required. Set GROQ_API_KEY env var."),
            p)
      else
        match Groq k p with
        | (Return handle, p1) =>
            match logging_basicConfig
                    (os_getenv_or "LOG_LEVEL" "INFO" p1) log_format p1 with
            | (Return _, p2) =>
                (Return {| api_key := k; client_handle := handle;
                           model_name := model;
                           client_context := new_context 10 |},
                 p2)
            | (Raise e, p2) => (Raise e, p2)
            end
        | (Raise e, p1) => (Raise e, p1)
        end
  | None =>
      (Raise (Exn "ValueError"
                "Groq API key is required. Set GROQ_API_KEY env var."),
       p)
  end.

End Creation.

Section Summaries.

Context {R : Runtime}.

(** [GroqLLMClient.summarize_text] *)
Definition summarize_text (text : string) (max_length : Z) : M string :=
  let system_message :=
    ("Summarize the following text concisely in under "
     ++ py_str (PInt max_length) ++ " characters:")%string in
  bind (generate_response text (Some system_message))
       (fun summary => ret (str_prefix max_length summary)).

(** *** Properties of state changes

    [keeps rel m]: every run of [m] takes a state to one related to it by
    [rel]. *)
Definition keeps {A : Type} (rel : state -> state -> Prop) (m : M A) : Prop :=
  forall (st st' : state) (o : outcome A), m st = (o, st') -> rel st st'.

(** The conversation context and the log are the same. *)
Definition same_context_and_log (st st' : state) : Prop :=
  context st' = context st /\ log st' = log st.

(** The history bound is the same and, when it is positive, a history
    within the bound stays within it. *)
Definition history_stays_bounded (st st' : state) : Prop :=
  max_context_length (context st') = max_context_length (context st)
  /\ (0 < max_context_length (context st) ->
      Z.of_nat (List.length (messages (context st)))
      <= max_context_length (context st) ->
      Z.of_nat (List.length (messages (context st')))
      <= max_context_length (context st')).

(** The four shapes of what the entry point returns. *)
Inductive result_shape : pyval -> Prop :=
| shape_none : result_shape PNone
| shape_success (v : pyval) :
    result_shape (PDict [("status", PStr "success"); ("result", v)])
| shape_bundle (results : list (string * pyval)) :
    result_shape (PDict [("status", PStr "success");
                         ("results", PDict results)])
| shape_error (message : string) :
    result_shape (PDict [("status", PStr "error");
                         ("message", PStr message)]).

End Summaries.

(* ================================================================== *)
(** ** The service clients

    [service_client.py] and the methods of the five clients that the
    handlers call, over the Google API client library.  A request is the
    chain [service.resource().method(...)] with its keyword parameters;
    [execute] is its [.execute()]. *)

(** [bool(v)] *)
Definition py_truthy (v : pyval) : bool :=
  match v with
  | PNone => false
  | PBool b => b
  | PInt n => negb (n =? 0)
  | PFloat r => negb (String.eqb r "0.0" || String.eqb r "-0.0")
  | PStr s => negb (String.eqb s "")
  | PList l => match l with [] => false | _ :: _ => true end
  | PDict d => match d with [] => false | _ :: _ => true end
  end.

Fixpoint characters (s : string) : list pyval :=
  match s with
  | EmptyString => []
  | String c rest => PStr (String c EmptyString) :: characters rest
  end.

(** The elements that [for x in v] goes through. *)
Definition py_iter (v : pyval) : outcome (list pyval) :=
  match v with
  | PList l => Return l
  | PStr s => Return (characters s)
  | PDict d => Return (map (fun kv => PStr (fst kv)) d)
  | _ => Raise (TypeError ("'" ++ type_name v ++ "' object is not iterable"))
  end.

(** [v[-1]] *)
Definition py_last (v : pyval) : outcome pyval :=
  match v with
  | PList [] => Raise (IndexError "list index out of range")
  | PList (x :: l) => Return (last l x)
  | PStr EmptyString => Raise (IndexError "string index out of range")
  | PStr (String c s) => Return (last (characters s) (PStr (String c EmptyString)))
  | PDict _ => Raise (Exn "KeyError" "-1")
  | _ => Raise (TypeError ("'" ++ type_name v ++ "' object is not subscriptable"))
  end.

Record api_request : Type := ApiRequest {
  api : string;
  operation : string;
  parameters : list (string * pyval)
}.

(** A [googleapiclient.errors.HttpError]: [resp.status], [resp.reason],
    the attribute [error_details] ([None] when the error has none) and
    [str(error)]. *)
Record http_error : Type := HttpError {
  status : Z;
  reason : string;
  error_details : pyval;
  http_text : string
}.

(** What is raised in a client: an [HttpError] or any other exception. *)
Inductive failure : Type :=
| Http (h : http_error)
| Other (e : exn).

Inductive answer (A : Type) : Type :=
| Done (a : A)
| Failed (f : failure).
Arguments Done {A} a.
Arguments Failed {A} f.

Definition failure_exn (f : failure) : exn :=
  match f with
  | Http h => Exn "HttpError" (http_text h)
  | Other e => e
  end.

Inductive log_line : Type :=
| LogError (text : string)
| LogWarning (text : string).

(** What the clients and the agent stand on.  [Outside] is the state of
    everything remote; [execute] runs one API request;
    [today_after h] is [(datetime.now() + timedelta(hours=h)).date().isoformat()];
    [encode_email to subject body html_body] is the [MIMEText] message
    with its headers (and the attached HTML part when one is given),
    serialised and base64-encoded; [media_file_upload local_path mimetype]
    is [MediaFileUpload(local_path, resumable=True, mimetype=mimetype)]. *)
Class Platform : Type := {
  Outside : Type;
  completions : list message -> Outside -> outcome (list string) * Outside;
  execute : api_request -> Outside -> answer pyval * Outside;
  today_after : Z -> Outside -> string;
  encode_email : pyval -> pyval -> pyval -> option pyval -> outcome pyval;
  media_file_upload : pyval -> pyval -> Outside -> outcome pyval * Outside;
  platform_loads : string -> loaded;
  platform_dumps : pyval -> string;
  platform_str : pyval -> string
}.

Section Clients.

Context {P : Platform}.

(** The outside and the lines written by the clients' loggers. *)
Record client_state : Type := ClientState {
  outside : Outside;
  client_log : list log_line
}.

Definition Client (A : Type) : Type := client_state -> answer A * client_state.

Definition done {A : Type} (a : A) : Client A := fun st => (Done a, st).

Definition fail {A : Type} (f : failure) : Client A := fun st => (Failed f, st).

Definition of_outcome {A : Type} (o : outcome A) : Client A :=
  fun st =>
    match o with
    | Return a => (Done a, st)
    | Raise e => (Failed (Other e), st)
    end.

Definition andthen {A B : Type} (m : Client A) (k : A -> Client B) : Client B :=
  fun st =>
    match m st with
    | (Done a, st') => k a st'
    | (Failed f, st') => (Failed f, st')
    end.

(** [try: body / except HttpError as error: handler error] *)
Definition except_http {A : Type} (body : Client A)
  (handler : http_error -> Client A) : Client A :=
  fun st =>
    match body st with
    | (Failed (Http h), st') => handler h st'
    | r => r
    end.

(** [try: body / except Exception: handler] *)
Definition except_any {A : Type} (body : Client A) (handler : Client A)
  : Client A :=
  fun st =>
    match body st with
    | (Failed _, st') => handler st'
    | r => r
    end.

Notation "x <~ m ;; k" := (andthen m (fun x => k))
  (at level 61, m at next level, right associativity).
Notation "m ;;; k" := (andthen m (fun _ => k))
  (at level 61, right associativity).

Definition write_log (line : log_line) : Client unit :=
  fun st =>
    (Done tt,
     {| outside := outside st; client_log := client_log st ++ [line] |}).

Definition run (request : api_request) : Client pyval :=
  fun st =>
    let (r, o) := execute request (outside st) in
    (r, {| outside := o; client_log := client_log st |}).

Definition date_after (hours : Z) : Client string :=
  fun st => (Done (today_after hours (outside st)), st).

Definition open_media (local_path mimetype : pyval) : Client pyval :=
  fun st =>
    let (r, o) := media_file_upload local_path mimetype (outside st) in
    (match r with Return v => Done v | Raise e => Failed (Other e) end,
     {| outside := o; client_log := client_log st |}).

(** [BaseServiceClient.handle_api_error]: the bare [raise] raises the
    error being handled again. *)
Definition handle_api_error {A : Type} (error : http_error) : Client A :=
  let details :=
    PDict [("status", PInt (status error));
           ("reason", PStr (reason error));
           ("error_details", error_details error)] in
  write_log (LogError ("Google API Error: " ++ platform_str details)) ;;;
  (if status error =? 403
   then write_log (LogWarning "Permission denied. Check OAuth scopes.")
   else if status error =? 404
   then write_log (LogWarning "Resource not found.")
   else done tt) ;;;
  fail (Http error).

(** [d[k] = v] when [condition] is truthy *)
Definition set_if (condition : pyval) (k : string) (v : pyval)
  (d : list (string * pyval)) : list (string * pyval) :=
  if py_truthy condition then dict_set d k v else d.

(** [GmailClient.list_items] *)
Definition gmail_list_items (max_results label_ids query : pyval)
  : Client pyval :=
  except_http
    (let list_params :=
       [("userId", PStr "me"); ("maxResults", max_results)] in
     let list_params := set_if label_ids "labelIds" label_ids list_params in
     let list_params := set_if query "q" query list_params in
     results <~ run (ApiRequest "gmail" "users.messages.list" list_params) ;;
     of_outcome (py_get results "messages" (PList [])))
    handle_api_error.

(** [GmailClient.create_item] *)
Definition gmail_create_item (to subject body html_body : pyval)
  : Client pyval :=
  except_http
    (raw_message <~
       of_outcome
         (encode_email to subject body
            (if py_truthy html_body then Some html_body else None)) ;;
     run (ApiRequest "gmail" "users.messages.send"
            [("userId", PStr "me");
             ("body", PDict [("raw", raw_message)])]))
    handle_api_error.

(** [CalendarClient.list_items] *)
Definition calendar_list_items (max_results time_min time_max single_events
  : pyval) : Client pyval :=
  except_http
    (let list_params :=
       [("calendarId", PStr "primary");
        ("maxResults", max_results);
        ("singleEvents", single_events)] in
     let list_params := set_if time_min "timeMin" time_min list_params in
     let list_params := set_if time_max "timeMax" time_max list_params in
     results <~ run (ApiRequest "calendar" "events.list" list_params) ;;
     of_outcome (py_get results "items" (PList [])))
    handle_api_error.

(** [CalendarClient.create_item] *)
Definition calendar_create_item (summary start_time end_time description
  attendees : pyval) : Client pyval :=
  except_http
    (start <~ (if py_truthy start_time
               then done (PDict [("dateTime", start_time)])
               else today <~ date_after 0 ;;
                    done (PDict [("date", PStr today)])) ;;
     finish <~ (if py_truthy end_time
                then done (PDict [("dateTime", end_time)])
                else today <~ date_after 1 ;;
                     done (PDict [("date", PStr today)])) ;;
     let event_data :=
       [("summary", summary); ("start", start); ("end", finish)] in
     let event_data := set_if description "description" description event_data in
     event_data <~
       (if py_truthy attendees
        then emails <~ of_outcome (py_iter attendees) ;;
             done (dict_set event_data "attendees"
                     (PList (map (fun email => PDict [("email", email)])
                                 emails)))
        else done event_data) ;;
     run (ApiRequest "calendar" "events.insert"
            [("calendarId", PStr "primary"); ("body", PDict event_data)]))
    handle_api_error.

(** [DriveClient.list_items] *)
Definition drive_list_items (max_results query order_by : pyval)
  : Client pyval :=
  except_http
    (let list_params :=
       [("pageSize", max_results);
        ("orderBy", order_by);
        ("fields",
         PStr "files(id, name, mimeType, modifiedTime, owners, size)")] in
     let list_params := set_if query "q" query list_params in
     results <~ run (ApiRequest "drive" "files.list" list_params) ;;
     of_outcome (py_get results "files" (PList [])))
    handle_api_error.

(** [DriveClient.upload_file].  The module does not import [os]: the
    right operand of [name or os.path.basename(local_path)], evaluated
    when [name] is falsy, raises [NameError]. *)
Definition drive_upload_file (local_path name mime_type parent_id : pyval)
  : Client pyval :=
  except_http
    (name_value <~
       (if py_truthy name then done name
        else fail (Other (Exn "NameError" "name 'os' is not defined"))) ;;
     let file_metadata := [("name", name_value)] in
     let file_metadata :=
       set_if parent_id "parents" (PList [parent_id]) file_metadata in
     media <~ open_media local_path mime_type ;;
     run (ApiRequest "drive" "files.create"
            [("body", PDict file_metadata);
             ("media_body", media);
             ("fields", PStr "id, name, mimeType, webViewLink")]))
    handle_api_error.

(** [SheetsClient.create_item] *)
Definition sheets_create_item (title sheets : pyval) : Client pyval :=
  except_http
    (let spreadsheet_body :=
       [("properties", PDict [("title", title)])] in
     spreadsheet_body <~
       (if py_truthy sheets
        then configurations <~ of_outcome (py_iter sheets) ;;
             done (dict_set spreadsheet_body "sheets"
                     (PList (map (fun sheet => PDict [("properties", sheet)])
                                 configurations)))
        else done spreadsheet_body) ;;
     run (ApiRequest "sheets" "spreadsheets.create"
            [("body", PDict spreadsheet_body)]))
    handle_api_error.

(** [SheetsClient.read_values] *)
Definition sheets_read_values (spreadsheet_id range_name : pyval)
  : Client pyval :=
  except_http
    (result <~ run (ApiRequest "sheets" "spreadsheets.values.get"
                      [("spreadsheetId", spreadsheet_id);
                       ("range", range_name)]) ;;
     of_outcome (py_get result "values" (PList [])))
    handle_api_error.

(** [DocsClient.get_item] *)
Definition docs_get_item (document_id : pyval) : Client pyval :=
  except_http
    (run (ApiRequest "docs" "documents.get" [("documentId", document_id)]))
    handle_api_error.

(** The [for item in content] loop of [DocsClient.create_item]. *)
Fixpoint insert_requests (content : list pyval) (requests : list pyval)
  : outcome (list pyval) :=
  match content with
  | [] => Return requests
  | item :: rest =>
      match py_get item "text" (PStr "") with
      | Return text =>
          insert_requests rest
            (requests
             ++ [PDict [("insertText",
                         PDict [("location", PDict [("index", PInt 1)]);
                                ("text", text)])]])
      | Raise e => Raise e
      end
  end.

(** [DocsClient.create_item] *)
Definition docs_create_item (title content : pyval) : Client pyval :=
  except_http
    (let document_body := [("title", title)] in
     document <~ run (ApiRequest "docs" "documents.create"
                        [("body", PDict document_body)]) ;;
     (if py_truthy content
      then items <~ of_outcome (py_iter content) ;;
           requests <~ of_outcome (insert_requests items []) ;;
           document_id <~ of_outcome (py_getitem document "documentId") ;;
           run (ApiRequest "docs" "documents.batchUpdate"
                  [("documentId", document_id);
                   ("body", PDict [("requests", PList requests)])]) ;;;
           done tt
      else done tt) ;;;
     done document)
    handle_api_error.

(** [DocsClient._get_document_length] *)
Definition _get_document_length (document_id : pyval) : Client pyval :=
  except_any
    (document <~ docs_get_item document_id ;;
     body <~ of_outcome (py_get document "body" (PDict [])) ;;
     content <~ of_outcome (py_get body "content" (PList [])) ;;
     element <~ of_outcome (py_last content) ;;
     of_outcome (py_get element "endIndex" (PInt 1)))
    (done (PInt 1)).

(** [DocsClient.append_text] *)
Definition docs_append_text (document_id text index : pyval) : Client pyval :=
  except_http
    (position <~ (if py_truthy index then done index
                  else _get_document_length document_id) ;;
     let request :=
       PDict [("insertText",
               PDict [("location", PDict [("index", position)]);
                      ("text", text)])] in
     run (ApiRequest "docs" "documents.batchUpdate"
            [("documentId", document_id);
             ("body", PDict [("requests", PList [request])])]))
    handle_api_error.

(** *** The clients as the agent calls them

    [WorkspaceIntegration.__init__] holds one client per service; a
    handler calls a method with keyword arguments, and the parameters it
    leaves out take the defaults of the method's signature. *)

Definition argument (kwargs : list (string * pyval)) (method name : string)
  (default : option pyval) : Client pyval :=
  match dict_lookup kwargs name, default with
  | Some v, _ => done v
  | None, Some d => done d
  | None, None =>
      fail (Other (TypeError
                     (method ++ "() missing 1 required positional argument: '"
                      ++ name ++ "'")))
  end.

Definition client_method (op : client_op) (kwargs : list (string * pyval))
  : Client pyval :=
  match op with
  | GmailCreateItem =>
      to <~ argument kwargs "GmailClient.create_item" "to" None ;;
      subject <~ argument kwargs "GmailClient.create_item" "subject" None ;;
      body <~ argument kwargs "GmailClient.create_item" "body" None ;;
      html_body <~ argument kwargs "GmailClient.create_item" "html_body"
                     (Some PNone) ;;
      gmail_create_item to subject body html_body
  | GmailListItems =>
      max_results <~ argument kwargs "GmailClient.list_items" "max_results"
                       (Some (PInt 10)) ;;
      label_ids <~ argument kwargs "GmailClient.list_items" "label_ids"
                     (Some PNone) ;;
      query <~ argument kwargs "GmailClient.list_items" "query" (Some PNone) ;;
      gmail_list_items max_results label_ids query
  | CalendarCreateItem =>
      summary <~ argument kwargs "CalendarClient.create_item" "summary" None ;;
      start_time <~ argument kwargs "CalendarClient.create_item" "start_time"
                      (Some PNone) ;;
      end_time <~ argument kwargs "CalendarClient.create_item" "end_time"
                    (Some PNone) ;;
      description <~ argument kwargs "CalendarClient.create_item" "description"
                       (Some PNone) ;;
      attendees <~ argument kwargs "CalendarClient.create_item" "attendees"
                     (Some PNone) ;;
      calendar_create_item summary start_time end_time description attendees
  | CalendarListItems =>
      max_results <~ argument kwargs "CalendarClient.list_items" "max_results"
                       (Some (PInt 10)) ;;
      time_min <~ argument kwargs "CalendarClient.list_items" "time_min"
                    (Some PNone) ;;
      time_max <~ argument kwargs "CalendarClient.list_items" "time_max"
                    (Some PNone) ;;
      single_events <~ argument kwargs "CalendarClient.list_items"
                         "single_events" (Some (PBool true)) ;;
      calendar_list_items max_results time_min time_max single_events
  | DriveUploadFile =>
      local_path <~ argument kwargs "DriveClient.upload_file" "local_path" None ;;
      name <~ argument kwargs "DriveClient.upload_file" "name" (Some PNone) ;;
      mime_type <~ argument kwargs "DriveClient.upload_file" "mime_type"
                     (Some PNone) ;;
      parent_id <~ argument kwargs "DriveClient.upload_file" "parent_id"
                     (Some PNone) ;;
      drive_upload_file local_path name mime_type parent_id
  | DriveListItems =>
      max_results <~ argument kwargs "DriveClient.list_items" "max_results"
                       (Some (PInt 10)) ;;
      query <~ argument kwargs "DriveClient.list_items" "query" (Some PNone) ;;
      order_by <~ argument kwargs "DriveClient.list_items" "order_by"
                    (Some (PStr "modifiedTime desc")) ;;
      drive_list_items max_results query order_by
  | SheetsCreateItem =>
      title <~ argument kwargs "SheetsClient.create_item" "title" None ;;
      sheets <~ argument kwargs "SheetsClient.create_item" "sheets"
                  (Some PNone) ;;
      sheets_create_item title sheets
  | SheetsReadValues =>
      spreadsheet_id <~ argument kwargs "SheetsClient.read_values"
                          "spreadsheet_id" None ;;
      range_name <~ argument kwargs "SheetsClient.read_values" "range_name"
                      None ;;
      sheets_read_values spreadsheet_id range_name
  | DocsCreateItem =>
      title <~ argument kwargs "DocsClient.create_item" "title" None ;;
      content <~ argument kwargs "DocsClient.create_item" "content"
                   (Some PNone) ;;
      docs_create_item title content
  | DocsAppendText =>
      document_id <~ argument kwargs "DocsClient.append_text" "document_id"
                       None ;;
      text <~ argument kwargs "DocsClient.append_text" "text" None ;;
      index <~ argument kwargs "DocsClient.append_text" "index" (Some PNone) ;;
      docs_append_text document_id text index
  end.

(** The agent on the platform: the model and the built-ins of the
    platform, and the clients above as its capability clients. *)
Definition platform_runtime : Runtime :=
  {| World := client_state;
     chat_completions_create :=
       fun msgs w =>
         let (r, o) := completions msgs (outside w) in
         (r, {| outside := o; client_log := client_log w |});
     client_call :=
       fun op kwargs w =>
         let (a, w') := client_method op kwargs w in
         (match a with
          | Done v => Return v
          | Failed f => Raise (failure_exn f)
          end, w');
     json_loads := platform_loads;
     json_dumps := platform_dumps;
     py_str := platform_str |}.

(** What [_get_document_length] reads off a document: the [endIndex] of
    the last element of [body.content], 1 when any step of the way is
    missing or of another kind. *)
Definition end_index_of (document : pyval) : pyval :=
  match py_get document "body" (PDict []) with
  | Return (PDict body) =>
      match dict_lookup body "content" with
      | Some (PList (x :: l)) =>
          match last l x with
          | PDict element =>
              match dict_lookup element "endIndex" with
              | Some end_index => end_index
              | None => PInt 1
              end
          | _ => PInt 1
          end
      | _ => PInt 1
      end
  | _ => PInt 1
  end.

(** The request that inserts [text] at [index]. *)
Definition insert_text (index text : pyval) : pyval :=
  PDict [("insertText",
          PDict [("location", PDict [("index", index)]);
                 ("text", text)])].

(** The lines that [handle_api_error] writes for an error. *)
Definition error_lines (error : http_error) : list log_line :=
  LogError ("Google API Error: "
            ++ platform_str
                 (PDict [("status", PInt (status error));
                         ("reason", PStr (reason error));
                         ("error_details", error_details error)]))
  :: (if status error =? 403
      then [LogWarning "Permission denied. Check OAuth scopes."]
      else if status error =? 404
      then [LogWarning "Resource not found."]
      else []).

End Clients.

(* ================================================================== *)
(** ** A runtime to run the agent on

    A scripted model, clients with fixed answers, and the three built-ins
    on strings over the first 256 code points.  The reader covers the
    documents used below: objects, arrays, strings without escapes,
    integers and the three literals. *)

Module Scenario.

Definition dquote : ascii := ascii_of_nat 34.
Definition backslash : ascii := ascii_of_nat 92.
Definition squote : ascii := ascii_of_nat 39.

Definition chr (c : ascii) : string := String c EmptyString.

Definition hex_digit (n : nat) : ascii :=
  match n with
  | 0 => "0" | 1 => "1" | 2 => "2" | 3 => "3" | 4 => "4" | 5 => "5"
  | 6 => "6" | 7 => "7" | 8 => "8" | 9 => "9" | 10 => "a" | 11 => "b"
  | 12 => "c" | 13 => "d" | 14 => "e" | _ => "f"
  end%char%nat.

Definition hex2 (c : ascii) : string :=
  let n := nat_of_ascii c in
  String (hex_digit (Nat.div n 16)) (chr (hex_digit (Nat.modulo n 16))).

Definition decimal (n : Z) : string :=
  DecimalString.NilZero.string_of_int (Z.to_int n).

(** *** json.dumps (default arguments: ASCII output, [", "] and [": "]) *)

Definition json_char (c : ascii) : string :=
  let n := nat_of_ascii c in
  if Ascii.eqb c dquote then String backslash (chr dquote)
  else if Ascii.eqb c backslash then String backslash (chr backslash)
  else if Nat.eqb n 10 then String backslash "n"
  else if Nat.eqb n 13 then String backslash "r"
  else if Nat.eqb n 9 then String backslash "t"
  else if Nat.eqb n 8 then String backslash "b"
  else if Nat.eqb n 12 then String backslash "f"
  else if (Nat.ltb n 32 || Nat.leb 127 n)%bool
       then String backslash ("u00" ++ hex2 c)
  else chr c.

Fixpoint json_chars (s : string) : string :=
  match s with
  | EmptyString => EmptyString
  | String c rest => (json_char c ++ json_chars rest)%string
  end.

Definition json_string (s : string) : string :=
  String dquote (json_chars s ++ chr dquote).

Definition json_float (r : string) : string :=
  if String.eqb r "inf" then "Infinity"
  else if String.eqb r "-inf" then "-Infinity"
  else if String.eqb r "nan" then "NaN"
  else r.

Fixpoint dumps (v : pyval) : string :=
  match v with
  | PNone => "null"
  | PBool true => "true"
  | PBool false => "false"
  | PInt n => decimal n
  | PFloat r => json_float r
  | PStr s => json_string s
  | PList l =>
      "[" ++
      (fix elements (l : list pyval) : string :=
         match l with
         | [] => EmptyString
         | x :: nil => dumps x
         | x :: rest => dumps x ++ ", " ++ elements rest
         end) l
      ++ "]"
  | PDict d =>
      "{" ++
      (fix members (d : list (string * pyval)) : string :=
         match d with
         | [] => EmptyString
         | (k, x) :: nil => json_string k ++ ": " ++ dumps x
         | (k, x) :: rest => json_string k ++ ": " ++ dumps x ++ ", " ++ members rest
         end) d
      ++ "}"
  end%string.

(** *** str and repr *)

Fixpoint occurs (c : ascii) (s : string) : bool :=
  match s with
  | EmptyString => false
  | String c' rest => (Ascii.eqb c c' || occurs c rest)%bool
  end.

Definition repr_char (quote c : ascii) : string :=
  let n := nat_of_ascii c in
  if (Ascii.eqb c backslash || Ascii.eqb c quote)%bool
  then String backslash (chr c)
  else if Nat.eqb n 9 then String backslash "t"
  else if Nat.eqb n 10 then String backslash "n"
  else if Nat.eqb n 13 then String backslash "r"
  else if (Nat.ltb n 32 || Nat.eqb n 127
           || (Nat.leb 128 n && Nat.leb n 160) || Nat.eqb n 173)%bool
       then String backslash ("x" ++ hex2 c)
  else chr c.

Fixpoint repr_chars (quote : ascii) (s : string) : string :=
  match s with
  | EmptyString => EmptyString
  | String c rest => (repr_char quote c ++ repr_chars quote rest)%string
  end.

(** [repr] of a string: double quotes when it holds a single quote and no
    double quote, single quotes otherwise. *)
Definition repr_string (s : string) : string :=
  let quote :=
    if (occurs squote s && negb (occurs dquote s))%bool then dquote else squote in
  String quote (repr_chars quote s ++ chr quote).

Fixpoint repr (v : pyval) : string :=
  match v with
  | PNone => "None"
  | PBool true => "True"
  | PBool false => "False"
  | PInt n => decimal n
  | PFloat r => r
  | PStr s => repr_string s
  | PList l =>
      "[" ++
      (fix elements (l : list pyval) : string :=
         match l with
         | [] => EmptyString
         | x :: nil => repr x
         | x :: rest => repr x ++ ", " ++ elements rest
         end) l
      ++ "]"
  | PDict d =>
      "{" ++
      (fix members (d : list (string * pyval)) : string :=
         match d with
         | [] => EmptyString
         | (k, x) :: nil => repr_string k ++ ": " ++ repr x
         | (k, x) :: rest => repr_string k ++ ": " ++ repr x ++ ", " ++ members rest
         end) d
      ++ "}"
  end%string.

Definition str (v : pyval) : string :=
  match v with
  | PStr s => s
  | _ => repr v
  end.

(** *** A reader for json.loads *)

Definition is_space (c : ascii) : bool :=
  let n := nat_of_ascii c in
  (Nat.eqb n 32 || Nat.eqb n 9 || Nat.eqb n 10 || Nat.eqb n 13)%bool.

Fixpoint skip_spaces (s : string) : string :=
  match s with
  | String c rest => if is_space c then skip_spaces rest else s
  | EmptyString => s
  end.

(** The characters up to the closing quote; escapes and control characters
    are outside the fragment. *)
Fixpoint read_chars (s : string) : option (string * string) :=
  match s with
  | EmptyString => None
  | String c rest =>
      if Ascii.eqb c dquote then Some (EmptyString, rest)
      else if (Ascii.eqb c backslash || Nat.ltb (nat_of_ascii c) 32)%bool
           then None
      else match read_chars rest with
           | Some (t, r) => Some (String c t, r)
           | None => None
           end
  end.

Definition digit (c : ascii) : option Z :=
  let n := nat_of_ascii c in
  if (Nat.leb 48 n && Nat.leb n 57)%bool
  then Some (Z.of_nat (n - 48)) else None.

Fixpoint read_digits (s : string) (acc : Z) : Z * string :=
  match s with
  | String c rest =>
      match digit c with
      | Some d => read_digits rest (10 * acc + d)
      | None => (acc, s)
      end
  | EmptyString => (acc, s)
  end.

(** An integer literal: no leading zero, no fraction, no exponent. *)
Definition read_natural (s : string) : option (Z * string) :=
  match s with
  | String c rest =>
      match digit c with
      | Some d =>
          let (n, r) := read_digits rest d in
          match r with
          | String c' _ =>
              if (Ascii.eqb c' "." || Ascii.eqb c' "e" || Ascii.eqb c' "E")%bool
              then None else
              if (Z.eqb d 0 && negb (String.eqb rest r))%bool
              then None else Some (n, r)
          | EmptyString =>
              if (Z.eqb d 0 && negb (String.eqb rest r))%bool
              then None else Some (n, r)
          end
      | None => None
      end
  | EmptyString => None
  end.

Fixpoint strip_prefix (p s : string) : option string :=
  match p, s with
  | EmptyString, _ => Some s
  | String a p', String b s' => if Ascii.eqb a b then strip_prefix p' s' else None
  | String _ _, EmptyString => None
  end.

(** What reading a value off the front of a text gives: the value and
    the rest of the text, nothing readable, or one level of nesting too
    many, in an array or in an object. *)
Inductive reading : Type :=
| Read (v : pyval) (rest : string)
| Unreadable
| TooDeep (kind : string).

(** [sys.getrecursionlimit()] by default.  The frames in use when
    [json.loads] is called only lower the room that is left. *)
Definition recursion_limit : nat := 1000.

(** [room] is the number of nested arrays and objects that can still be
    opened. *)
Fixpoint read_value (fuel room : nat) (s : string) {struct fuel} : reading :=
  match fuel with
  | O => Unreadable
  | S f =>
      match skip_spaces s with
      | EmptyString => Unreadable
      | String c rest as s' =>
          if Ascii.eqb c "{" then
            match room with
            | O => TooDeep "object"
            | S room' =>
                match skip_spaces rest with
                | String "}" r => Read (PDict []) r
                | r => read_members f room' r []
                end
            end
          else if Ascii.eqb c "[" then
            match room with
            | O => TooDeep "array"
            | S room' =>
                match skip_spaces rest with
                | String "]" r => Read (PList []) r
                | r => read_elements f room' r []
                end
            end
          else if Ascii.eqb c dquote then
            match read_chars rest with
            | Some (t, r) => Read (PStr t) r
            | None => Unreadable
            end
          else if Ascii.eqb c "-" then
            match read_natural rest with
            | Some (n, r) => Read (PInt (- n)) r
            | None => Unreadable
            end
          else
            match strip_prefix "null" s', strip_prefix "true" s',
                  strip_prefix "false" s' with
            | Some r, _, _ => Read PNone r
            | _, Some r, _ => Read (PBool true) r
            | _, _, Some r => Read (PBool false) r
            | _, _, _ =>
                match read_natural s' with
                | Some (n, r) => Read (PInt n) r
                | None => Unreadable
                end
            end
      end
  end

with read_elements (fuel room : nat) (s : string) (acc : list pyval)
  {struct fuel} : reading :=
  match fuel with
  | O => Unreadable
  | S f =>
      match read_value f room s with
      | Read v r =>
          match skip_spaces r with
          | String "," r' => read_elements f room r' (acc ++ [v])
          | String "]" r' => Read (PList (acc ++ [v])) r'
          | _ => Unreadable
          end
      | Unreadable => Unreadable
      | TooDeep kind => TooDeep kind
      end
  end

with read_members (fuel room : nat) (s : string)
  (acc : list (string * pyval)) {struct fuel} : reading :=
  match fuel with
  | O => Unreadable
  | S f =>
      match skip_spaces s with
      | String c rest =>
          if Ascii.eqb c dquote then
            match read_chars rest with
            | Some (k, r) =>
                match skip_spaces r with
                | String ":" r1 =>
                    match read_value f room r1 with
                    | Read v r2 =>
                        match skip_spaces r2 with
                        | String "," r3 =>
                            read_members f room r3 (dict_set acc k v)
                        | String "}" r3 => Read (PDict (dict_set acc k v)) r3
                        | _ => Unreadable
                        end
                    | Unreadable => Unreadable
                    | TooDeep kind => TooDeep kind
                    end
                | _ => Unreadable
                end
            | None => Unreadable
            end
          else Unreadable
      | EmptyString => Unreadable
      end
  end.

(** [json.loads] on the fragment.  The text of the decoding error is the
    one CPython gives for a document that does not begin with a JSON
    value; for the other malformed documents it is abridged.  A document
    that opens more than [recursion_limit] nested arrays or objects
    overflows the stack whatever the depth it is read at. *)
Definition read_json (doc : string) : loaded :=
  match read_value (2 * String.length doc + 2) recursion_limit doc with
  | Read v rest =>
      match skip_spaces rest with
      | EmptyString => Parsed v
      | _ => Malformed "Extra data"
      end
  | Unreadable => Malformed "Expecting value: line 1 column 1 (char 0)"
  | TooDeep kind =>
      Crashed
        (Exn "RecursionError"
           ("maximum recursion depth exceeded while decoding a JSON "
            ++ kind ++ " from a unicode string"))
  end.

(** *** The outside *)

(** What the model does with one request. *)
Inductive reply : Type :=
| Say (text : string)      (* one choice with this content *)
| Echo                     (* one choice repeating the last message sent *)
| Fail (e : exn)           (* the call raises *)
| NoChoice.                (* a response with an empty list of choices *)

(** The model answers from [script], one reply per call, and with
    [otherwise] once the script is used up; a client method answers
    [answers op].  [received] and [calls] record what was asked. *)
Record outside : Type := {
  script : list reply;
  otherwise : reply;
  answers : client_op -> outcome pyval;
  received : list (list message);
  calls : list (client_op * list (string * pyval))
}.

Definition chat (msgs : list message) (w : outside)
  : outcome (list string) * outside :=
  let r := match script w with x :: _ => x | [] => otherwise w end in
  let w' := {| script := tl (script w);
               otherwise := otherwise w;
               answers := answers w;
               received := received w ++ [msgs];
               calls := calls w |} in
  match r with
  | Say text => (Return [text], w')
  | Echo => (Return [content (last msgs (Message "" ""))], w')
  | Fail e => (Raise e, w')
  | NoChoice => (Return [], w')
  end.

Definition client (op : client_op) (kwargs : list (string * pyval)) (w : outside)
  : outcome pyval * outside :=
  (answers w op,
   {| script := script w;
      otherwise := otherwise w;
      answers := answers w;
      received := received w;
      calls := calls w ++ [(op, kwargs)] |}).

Definition runtime : Runtime :=
  {| World := outside;
     chat_completions_create := chat;
     client_call := client;
     json_loads := read_json;
     json_dumps := dumps;
     py_str := str |}.

(** A fresh agent in front of the outside [w], with history bound [n]. *)
Definition fresh (w : outside) (n : Z) : @state runtime :=
  @State runtime w (new_context n) [].

(** [text * n] *)
Fixpoint times (text : string) (n : nat) : string :=
  match n with
  | O => EmptyString
  | S n' => (text ++ times text n')%string
  end.

Definition outside_with (script : list reply) (otherwise : reply)
  (answers : client_op -> outcome pyval) : outside :=
  {| script := script; otherwise := otherwise; answers := answers;
     received := []; calls := [] |}.

(** *** The data of tests/test_integration.py *)

Definition email_details : pyval :=
  PDict [("to", PStr "test@example.com");
         ("subject", PStr "Test Subject");
         ("body", PStr "Test Body")].

Definition email_intent : pyval :=
  PDict [("service", PStr "email");
         ("action", PStr "send");
         ("details", email_details)].

Definition calendar_details : pyval :=
  PDict [("summary", PStr "Team Meeting");
         ("start_time", PStr "2025-03-15T10:00:00Z");
         ("end_time", PStr "2025-03-15T11:00:00Z")].

(** The decomposition of [test_handle_multi_service_request]. *)
Definition decomposition : pyval :=
  PDict [("email",
          PDict [("action", PStr "send"); ("details", email_details)]);
         ("calendar",
          PDict [("action", PStr "create"); ("details", calendar_details)])].

Definition multi_intent : pyval :=
  PDict [("service", PStr "multi");
         ("details", PStr "Send an email and create a calendar event")].

(** The mocked clients of the tests. *)
Definition mock_answers (op : client_op) : outcome pyval :=
  match op with
  | GmailCreateItem => Return (PDict [("id", PStr "sent_email_id")])
  | CalendarCreateItem => Return (PDict [("id", PStr "created_event_id")])
  | _ => Return (PList [])
  end.

(** The same clients with a calendar service that fails. *)
Definition calendar_down (op : client_op) : outcome pyval :=
  match op with
  | CalendarCreateItem => Raise (Exn "Exception" "API Error")
  | _ => mock_answers op
  end.

(** The same clients with a mail service that fails. *)
Definition gmail_down (op : client_op) : outcome pyval :=
  match op with
  | GmailCreateItem => Raise (Exn "Exception" "API Error")
  | _ => mock_answers op
  end.

(** An agent, history bound 10, in front of a model that always gives the
    same answer. *)
Definition answering (text : string) : @state runtime :=
  fresh (outside_with [] (Say text) mock_answers) 10.

(** An agent, history bound 10, in front of a model that follows [script]
    and then repeats what it is sent. *)
Definition scripted (script : list reply) : @state runtime :=
  fresh (outside_with script Echo mock_answers) 10.

End Scenario.

(** *** A process to create the completion provider in

    Environment variables, a Groq library that hands out a handle for any
    key, and the root logger as [logging.basicConfig] of CPython treats
    it. *)

Module Machine.

Record machine : Type := {
  environ : list (string * string);
  root_handlers : list string;   (* the format of each handler of the root logger *)
  root_level : Z;
  created : list string          (* the keys of the Groq handles made so far *)
}.

Definition getenv (name : string) (m : machine) : option string :=
  option_map snd (find (fun entry => String.eqb (fst entry) name) (environ m)).

(** [logging._nameToLevel] *)
Definition _nameToLevel : list (string * Z) :=
  [("CRITICAL", 50); ("FATAL", 50); ("ERROR", 40); ("WARN", 30);
   ("WARNING", 30); ("INFO", 20); ("DEBUG", 10); ("NOTSET", 0)].

(** [logging.basicConfig(level=level, format=format)] for a level given
    as a string: nothing at all when the root logger has a handler;
    otherwise a stream handler with the format is added, and then the
    level is set, which raises on a name that [_nameToLevel] does not
    hold. *)
Definition basicConfig (level format : string) (m : machine)
  : outcome unit * machine :=
  match root_handlers m with
  | [] =>
      match find (fun entry => String.eqb (fst entry) level) _nameToLevel with
      | Some (_, n) =>
          (Return tt,
           {| environ := environ m; root_handlers := [format];
              root_level := n; created := created m |})
      | None =>
          (Raise (Exn "ValueError"
                    ("Unknown level: " ++ Scenario.repr_string level)),
           {| environ := environ m; root_handlers := [format];
              root_level := root_level m; created := created m |})
      end
  | _ :: _ => (Return tt, m)
  end.

(** [Groq(api_key=k)]: the handle is the number of the client. *)
Definition new_handle (k : string) (m : machine) : outcome nat * machine :=
  (Return (List.length (created m)),
   {| environ := environ m; root_handlers := root_handlers m;
      root_level := root_level m; created := created m ++ [k] |}).

Definition host : Host :=
  {| Process := machine;
     Handle := nat;
     os_getenv := getenv;
     Groq := new_handle;
     logging_basicConfig := basicConfig |}.

(** A process that starts with these variables: no handler on the root
    logger, whose level is WARNING. *)
Definition started (variables : list (string * string)) : machine :=
  {| environ := variables; root_handlers := []; root_level := 30;
     created := [] |}.

End Machine.

(** *** A platform to run the clients on

    The model of [Scenario], a Google side that answers each request as
    [remote] says and records it, a fixed date, and stand-ins for the MIME
    encoder and the upload handle. *)

Module Office.

Record office : Type := {
  model : Scenario.outside;
  remote : api_request -> answer pyval;
  sent : list api_request
}.

Definition office_completions (msgs : list message) (o : office)
  : outcome (list string) * office :=
  let (r, m) := Scenario.chat msgs (model o) in
  (r, {| model := m; remote := remote o; sent := sent o |}).

Definition office_execute (request : api_request) (o : office)
  : answer pyval * office :=
  (remote o request,
   {| model := model o; remote := remote o; sent := sent o ++ [request] |}).

Definition platform : Platform :=
  {| Outside := office;
     completions := office_completions;
     execute := office_execute;
     today_after := fun _ _ => "2025-03-14";
     encode_email := fun _ _ _ _ => Return (PStr "cmF3IG1lc3NhZ2U=");
     media_file_upload := fun local_path _ o => (Return local_path, o);
     platform_loads := Scenario.read_json;
     platform_dumps := Scenario.dumps;
     platform_str := Scenario.str |}.

(** The clients in front of a Google side answering as [remote]. *)
Definition clients (remote : api_request -> answer pyval)
  : @client_state platform :=
  @ClientState platform
    {| model := Scenario.outside_with [] Scenario.Echo Scenario.mock_answers;
       remote := remote;
       sent := [] |}
    [].

(** The agent on the platform, history bound 10, with a model following
    [script] and a Google side answering as [remote]. *)
Definition agent (script : list Scenario.reply)
  (remote : api_request -> answer pyval) : @state (@platform_runtime platform) :=
  @State (@platform_runtime platform)
    (@ClientState platform
       {| model := Scenario.outside_with script Scenario.Echo
                     Scenario.mock_answers;
          remote := remote;
          sent := [] |}
       [])
    (new_context 10) [].

(** A Google side that answers every request with the same object. *)
Definition always (v : pyval) : api_request -> answer pyval :=
  fun _ => Done v.

(** A Google side that refuses every request. *)
Definition forbidden : api_request -> answer pyval :=
  fun _ =>
    Failed (Http {| status := 403; reason := "Forbidden";
                    error_details := PNone;
                    http_text := "<HttpError 403 Forbidden>" |}).

(** A document of 41 characters. *)
Definition document : pyval :=
  PDict [("documentId", PStr "doc1");
         ("body",
          PDict [("content",
                  PList [PDict [("endIndex", PInt 1)];
                         PDict [("startIndex", PInt 1);
                                ("endIndex", PInt 42)]])])].

(** A Google side that holds [document]: reading and creating a document
    answer with it, an update answers with its replies. *)
Definition holding_document : api_request -> answer pyval :=
  fun request =>
    if String.eqb (operation request) "documents.batchUpdate"
    then Done (PDict [("documentId", PStr "doc1"); ("replies", PList [])])
    else Done document.

(** The error of [forbidden]. *)
Definition refusal : http_error :=
  {| status := 403; reason := "Forbidden"; error_details := PNone;
     http_text := "<HttpError 403 Forbidden>" |}.

End Office.

(* ================================================================== *)
(** ** The bounded history *)

Lemma slice_from_last_n {A : Type} (n : Z) (l : list A) :
  0 < n -> slice_from (- n) l = last_n (Z.to_nat n) l.
Proof.
  intros Hn. unfold slice_from, last_n.
  replace (- n <? 0) with true by (symmetry; apply Z.ltb_lt; lia).
  f_equal. lia.
Qed.

Lemma slice_from_zero {A : Type} (l : list A) : slice_from (- 0) l = l.
Proof.
  unfold slice_from. simpl.
  rewrite Z.min_l by lia. reflexivity.
Qed.

Lemma last_n_all {A : Type} (n : nat) (l : list A) :
  (List.length l <= n)%nat -> last_n n l = l.
Proof.
  intros H. unfold last_n.
  replace (List.length l - n)%nat with 0%nat by lia. reflexivity.
Qed.

Lemma last_n_length {A : Type} (n : nat) (l : list A) :
  List.length (last_n n l) = Nat.min n (List.length l).
Proof. unfold last_n. rewrite length_skipn. lia. Qed.

Lemma last_n_snoc {A : Type} (n : nat) (l : list A) (x : A) :
  last_n n (last_n n l ++ [x]) = last_n n (l ++ [x]).
Proof.
  unfold last_n at 1 3.
  rewrite !length_app, last_n_length. simpl.
  unfold last_n.
  replace (skipn (List.length l - n) l ++ [x])
    with (skipn (List.length l - n) (l ++ [x])).
  - rewrite skipn_skipn. f_equal. lia.
  - rewrite skipn_app.
    replace (List.length l - n - List.length l)%nat with 0%nat by lia.
    reflexivity.
Qed.

Lemma in_slice_from {A : Type} (start : Z) (l : list A) (x : A) :
  In x (slice_from start l) -> In x l.
Proof.
  unfold slice_from. intros H.
  rewrite <- (firstn_skipn (Z.to_nat
    (if start <? 0
     then Z.max (Z.of_nat (List.length l) + start) 0
     else Z.min start (Z.of_nat (List.length l)))) l).
  apply in_or_app. right. exact H.
Qed.

Lemma add_message_bound (r c : string) (ctx : ConversationContext) :
  max_context_length (add_message r c ctx) = max_context_length ctx.
Proof.
  unfold add_message.
  destruct (Z.of_nat (List.length (messages ctx ++ [Message r c]))
            >? max_context_length ctx); reflexivity.
Qed.

Lemma add_messages_bound (ms : list message) (ctx : ConversationContext) :
  max_context_length (add_messages ms ctx) = max_context_length ctx.
Proof.
  revert ctx. induction ms as [|m ms IH]; intros ctx; [reflexivity|].
  unfold add_messages in *. simpl. rewrite IH. apply add_message_bound.
Qed.

(** With a positive bound one [add_message] keeps the last [n] entries
    of the history extended by the new message. *)
Lemma add_message_positive (r c : string) (ctx : ConversationContext) :
  0 < max_context_length ctx ->
  messages (add_message r c ctx)
  = last_n (Z.to_nat (max_context_length ctx)) (messages ctx ++ [Message r c]).
Proof.
  intros Hn. unfold add_message.
  destruct (Z.of_nat (List.length (messages ctx ++ [Message r c]))
            >? max_context_length ctx) eqn:E; simpl.
  - apply slice_from_last_n. exact Hn.
  - symmetry. apply last_n_all.
    rewrite Z.gtb_ltb in E. apply Z.ltb_ge in E. lia.
Qed.

Lemma add_message_in (r c : string) (ctx : ConversationContext) (m : message) :
  In m (messages (add_message r c ctx)) ->
  In m (messages ctx) \/ m = Message r c.
Proof.
  unfold add_message.
  destruct (Z.of_nat (List.length (messages ctx ++ [Message r c]))
            >? max_context_length ctx); simpl; intros H.
  - apply in_slice_from in H. apply in_app_or in H.
    destruct H as [H | [H | []]]; auto.
  - apply in_app_or in H. destruct H as [H | [H | []]]; auto.
Qed.

Lemma add_message_room (r c : string) (ctx : ConversationContext) :
  Z.of_nat (List.length (messages ctx)) + 1 <= max_context_length ctx ->
  messages (add_message r c ctx) = messages ctx ++ [Message r c].
Proof.
  intros H. unfold add_message.
  destruct (Z.of_nat (List.length (messages ctx ++ [Message r c]))
            >? max_context_length ctx) eqn:E; [|reflexivity].
  apply Z.gtb_lt in E. rewrite length_app in E. simpl in E. lia.
Qed.

Lemma add_messages_snoc (ms : list message) (m : message)
  (ctx : ConversationContext) :
  add_messages (ms ++ [m]) ctx
  = add_message (role m) (content m) (add_messages ms ctx).
Proof. unfold add_messages. rewrite fold_left_app. reflexivity. Qed.

(** The history bound for a positive capacity: after at least one append
    the history is the last [n] entries of everything stored and appended
    so far, oldest first. *)
Lemma add_messages_positive (ms : list message) (ctx : ConversationContext) :
  0 < max_context_length ctx ->
  ms <> [] ->
  messages (add_messages ms ctx)
  = last_n (Z.to_nat (max_context_length ctx)) (messages ctx ++ ms).
Proof.
  intros Hn. induction ms as [|m ms IH] using rev_ind; [congruence|].
  intros _. rewrite add_messages_snoc.
  rewrite add_message_positive by (rewrite add_messages_bound; exact Hn).
  rewrite add_messages_bound.
  destruct m as [r c]. simpl.
  destruct ms as [|m0 ms0].
  - simpl. reflexivity.
  - rewrite IH by discriminate.
    rewrite last_n_snoc. rewrite app_assoc. reflexivity.
Qed.

(** The history bound as the specification words it, for every capacity
    [n >= 1] and whatever the context holds before: after [n + k] appends
    ([k > 0]) exactly [n] entries are stored, the [n] most recently
    appended ones in the order they were appended. *)
Lemma history_bound_positive (n k : nat) (ms : list message)
  (ctx : ConversationContext) :
  max_context_length ctx = Z.of_nat n ->
  (1 <= n)%nat -> (0 < k)%nat -> List.length ms = (n + k)%nat ->
  messages (add_messages ms ctx) = skipn k ms
  /\ List.length (messages (add_messages ms ctx)) = n.
Proof.
  intros Hmax Hn Hk Hlen.
  assert (E : messages (add_messages ms ctx) = skipn k ms).
  { rewrite add_messages_positive.
    - rewrite Hmax, Nat2Z.id. unfold last_n.
      rewrite length_app, Hlen, skipn_app.
      rewrite skipn_all2 by lia. simpl. f_equal. lia.
    - lia.
    - destruct ms; [simpl in Hlen; lia | discriminate]. }
  split; [exact E|]. rewrite E, length_skipn. lia.
Qed.

Lemma add_messages_zero (ms : list message) (ctx : ConversationContext) :
  max_context_length ctx = 0 ->
  messages (add_messages ms ctx) = messages ctx ++ ms.
Proof.
  intros H0. induction ms as [|m ms IH] using rev_ind.
  - simpl. rewrite app_nil_r. reflexivity.
  - rewrite add_messages_snoc. unfold add_message.
    rewrite add_messages_bound, H0.
    destruct (Z.of_nat (List.length (messages (add_messages ms ctx)
                ++ [Message (role m) (content m)])) >? 0); simpl.
    + rewrite slice_from_zero, IH. destruct m. simpl.
      rewrite app_assoc. reflexivity.
    + rewrite IH. destruct m. simpl. rewrite app_assoc. reflexivity.
Qed.

(** C4. The history is not bounded when the configured maximum is 0:
    [messages[-0:]] is the whole list, so a context created with
    [max_context_length = 0] stores every message appended to it, all [k]
    of them after [k] appends, where the history bound asks for exactly 0
    entries.  (For every maximum [n >= 1] the bound holds:
    [history_bound_positive].) *)
Theorem history_unbounded_at_zero :
  forall ms : list message,
    messages (add_messages ms (new_context 0)) = ms
    /\ List.length (messages (add_messages ms (new_context 0)))
       = List.length ms.
Proof.
  intros ms.
  assert (E : messages (add_messages ms (new_context 0)) = ms)
    by (rewrite add_messages_zero; reflexivity).
  rewrite E. split; reflexivity.
Qed.

(* ================================================================== *)
(** ** The completion provider *)

Section Completion.

Context {R : Runtime}.

(** [generate_response] by the three ways the model call can end. *)
Lemma generate_response_cases (prompt : string) (system_message : option string)
  (st : state) :
  generate_response prompt system_message st =
  match chat_completions_create
          (outgoing prompt system_message (context st)) (world st) with
  | (Return (answer :: _), w) =>
      (Return answer,
       {| world := w;
          context := add_message "assistant" answer
                       (add_message "user" prompt (context st));
          log := log st |})
  | (Return [], w) =>
      (Raise (IndexError "list index out of range"),
       {| world := w; context := context st;
          log := log st ++ ["LLM generation error: list index out of range"] |})
  | (Raise e, w) =>
      (Raise e,
       {| world := w; context := context st;
          log := log st ++ [("LLM generation error: " ++ exn_str e)%string] |})
  end.
Proof.
  unfold generate_response, bind, try_except, get_context, create, lift,
    update_context, logger_error, ret, raise.
  simpl.
  destruct (chat_completions_create
              (outgoing prompt system_message (context st)) (world st))
    as [[[|answer rest]|e] w]; reflexivity.
Qed.

Lemma generate_response_raise_frame (prompt : string)
  (system_message : option string) (st st' : state) (e : exn) :
  generate_response prompt system_message st = (Raise e, st') ->
  context st' = context st.
Proof.
  rewrite generate_response_cases.
  destruct (chat_completions_create
              (outgoing prompt system_message (context st)) (world st))
    as [[[|answer rest]|e0] w]; intros H; inversion H; reflexivity.
Qed.

(** C9. When the model call raises, [generate_response] raises the same
    exception and the conversation history is what it was before the call;
    more generally, whenever [generate_response] raises, the history is
    unchanged. *)
Theorem generate_response_failure_atomic :
  forall (prompt : string) (system_message : option string) (st : state),
    (forall (e : exn) (w : World),
        chat_completions_create
          (outgoing prompt system_message (context st)) (world st)
        = (Raise e, w) ->
        exists st' : state,
          generate_response prompt system_message st = (Raise e, st')
          /\ context st' = context st
          /\ world st' = w)
    /\ (forall (e : exn) (st' : state),
           generate_response prompt system_message st = (Raise e, st') ->
           context st' = context st).
Proof.
  intros prompt system_message st. split.
  - intros e w H. rewrite generate_response_cases, H.
    eexists. split; [reflexivity|]. split; reflexivity.
  - intros e st'. apply generate_response_raise_frame.
Qed.

(** C10. A successful [generate_response] stores the prompt as a user
    entry and then the answer as an assistant entry, both through
    [add_message], and nothing else: the answer is the first choice of the
    model's response to the outgoing sequence, the only place where the
    system message appears; every stored entry is an old one or one of the
    two; and when the bound leaves room for two entries the history is the
    old one followed by exactly these two. *)
Theorem generate_response_appends_two :
  forall (prompt : string) (system_message : option string)
         (st st' : state) (answer : string),
    generate_response prompt system_message st = (Return answer, st') ->
    context st'
    = add_message "assistant" answer (add_message "user" prompt (context st))
    /\ (exists rest : list string,
           chat_completions_create
             (outgoing prompt system_message (context st)) (world st)
           = (Return (answer :: rest), world st'))
    /\ (forall m : message,
           In m (messages (context st')) ->
           In m (messages (context st))
           \/ m = Message "user" prompt
           \/ m = Message "assistant" answer)
    /\ (Z.of_nat (List.length (messages (context st))) + 2
        <= max_context_length (context st) ->
        messages (context st')
        = messages (context st)
            ++ [Message "user" prompt; Message "assistant" answer]).
Proof.
  intros prompt system_message st st' answer.
  rewrite generate_response_cases.
  destruct (chat_completions_create
              (outgoing prompt system_message (context st)) (world st))
    as [[[|a rest]|e] w] eqn:E; intros H; inversion H; subst; clear H.
  simpl. split; [reflexivity|]. split; [exists rest; reflexivity|]. split.
  - intros m Hm. apply add_message_in in Hm. destruct Hm as [Hm | Hm]; auto.
    apply add_message_in in Hm. destruct Hm as [Hm | Hm]; auto.
  - intros Hroom.
    rewrite add_message_room.
    + rewrite add_message_room by lia. rewrite <- app_assoc. reflexivity.
    + rewrite add_message_bound. rewrite add_message_room by lia.
      rewrite length_app. simpl. lia.
Qed.



End Completion.

(* ================================================================== *)
(** ** The per-service handlers *)

Section Handlers.

Context {R : Runtime}.

Ltac step_handler :=
  unfold _handle_email_request, _handle_calendar_request,
    _handle_drive_request, _handle_sheets_request, _handle_docs_request,
    bind, lift, ret, call.

Ltac pick_entry H :=
  simpl in H;
  repeat (destruct H as [H | H]; [inversion H; subst; clear H | ]);
  try contradiction.

(** What a handler does with an action it knows, once the client call has
    returned. *)
Lemma handler_known_action :
  forall service h actions,
    In (service, h, actions) handlers ->
    forall action op fields,
      In (action, op, fields) actions ->
      forall (intent : pyval) (details : list (string * pyval))
             (st : state) (v : pyval) (w : World),
        py_get intent "action" (PStr "") = Return (PStr action) ->
        py_get intent "details" (PDict []) = Return (PDict details) ->
        client_call op (kwargs_of fields details) (world st) = (Return v, w) ->
        h intent st
        = (Return (PDict [("status", PStr "success"); ("result", v)]),
           {| world := w; context := context st; log := log st |}).
Proof.
  intros service h actions Hh. pick_entry Hh;
    intros action op fields Ha; pick_entry Ha;
    intros intent details st v w Haction Hdetails Hcall;
    step_handler; rewrite Haction, Hdetails; simpl;
    unfold kwargs_of in Hcall; simpl in Hcall; rewrite Hcall; reflexivity.
Qed.

(** What a handler does with an action it does not know. *)
Lemma handler_unknown_action :
  forall service h actions,
    In (service, h, actions) handlers ->
    forall (intent action : pyval) (st : state),
      py_get intent "action" (PStr "") = Return action ->
      (forall name op fields,
          In (name, op, fields) actions -> action <> PStr name) ->
      h intent st = (Return PNone, st).
Proof.
  intros service h actions Hh. pick_entry Hh;
    intros intent action st Haction Hunknown;
    destruct intent; try discriminate;
    simpl in Haction; injection Haction as Haction;
    step_handler; simpl; rewrite Haction;
    match goal with
    | |- context [py_eq_str action ?a] =>
        destruct (py_eq_str action a) eqn:E1
    end;
    try (exfalso; destruct action; try discriminate;
         apply String.eqb_eq in E1; subst;
         eapply Hunknown; [left; reflexivity | reflexivity]);
    match goal with
    | |- context [py_eq_str action ?a] =>
        destruct (py_eq_str action a) eqn:E2
    end;
    try (exfalso; destruct action; try discriminate;
         apply String.eqb_eq in E2; subst;
         eapply Hunknown; [right; left; reflexivity | reflexivity]);
    reflexivity.
Qed.

(** A client call that raises makes the handler raise the same exception. *)
Lemma handler_client_raises :
  forall service h actions,
    In (service, h, actions) handlers ->
    forall action op fields,
      In (action, op, fields) actions ->
      forall (intent : pyval) (details : list (string * pyval))
             (st : state) (e : exn) (w : World),
        py_get intent "action" (PStr "") = Return (PStr action) ->
        py_get intent "details" (PDict []) = Return (PDict details) ->
        client_call op (kwargs_of fields details) (world st) = (Raise e, w) ->
        h intent st
        = (Raise e, {| world := w; context := context st; log := log st |}).
Proof.
  intros service h actions Hh. pick_entry Hh;
    intros action op fields Ha; pick_entry Ha;
    intros intent details st e w Haction Hdetails Hcall;
    step_handler; rewrite Haction, Hdetails; simpl;
    unfold kwargs_of in Hcall; simpl in Hcall; rewrite Hcall; reflexivity.
Qed.

End Handlers.

(* ================================================================== *)
(** ** The router and the entry point *)

Section Router.

Context {R : Runtime}.

Lemma process_unfold (depth : nat) (request : string) :
  process_natural_language_request depth request
  = process_request (nested_call depth) request.
Proof. destruct depth; reflexivity. Qed.

(** [route] runs the handler listed for the service of the intent. *)
Lemma route_dispatch (self_process : string -> M pyval) :
  forall service h,
    In (service, h) (dispatch_table self_process) ->
    forall (intent : pyval) (st : state),
      py_getitem intent "service" = Return (PStr service) ->
      route self_process intent st = h intent st.
Proof.
  intros service h Hin. unfold dispatch_table in Hin. simpl in Hin.
  repeat (destruct Hin as [Hin | Hin]; [inversion Hin; subst; clear Hin | ]);
    try contradiction;
    intros intent st Hservice;
    unfold route, bind, lift; rewrite Hservice; reflexivity.
Qed.

(** The catch-all of the entry point: whatever the nested calls do, the
    body returns. *)
Lemma process_request_returns (self_process : string -> M pyval)
  (request : string) (st : state) :
  exists (r : pyval) (st' : state),
    process_request self_process request st = (Return r, st').
Proof.
  unfold process_request, try_except.
  destruct ((bind (_extract_intent request) (route self_process)) st)
    as [[r | e] st'].
  - exists r, st'. reflexivity.
  - unfold bind, logger_error, ret. eexists. eexists. reflexivity.
Qed.

Lemma process_returns (depth : nat) (request : string) (st : state) :
  exists (r : pyval) (st' : state),
    process_natural_language_request depth request st = (Return r, st').
Proof. rewrite process_unfold. apply process_request_returns. Qed.

Lemma process_request_route_raises (self_process : string -> M pyval)
  (request : string) (st st1 st2 : state) (intent : pyval) (e : exn) :
  _extract_intent request st = (Return intent, st1) ->
  route self_process intent st1 = (Raise e, st2) ->
  process_request self_process request st
  = (Return (PDict [("status", PStr "error"); ("message", PStr (exn_str e))]),
     {| world := world st2; context := context st2;
        log := log st2 ++ [("Error processing request: " ++ exn_str e)%string] |}).
Proof.
  intros Hextract Hroute.
  unfold process_request, try_except, bind at 1.
  rewrite Hextract, Hroute. reflexivity.
Qed.

(** C2. The entry point returns for every request, every state and every
    stack depth.  When the handler that [route] runs for the extracted
    intent raises [e] (one of the five service handlers or the
    multi-service handler), the entry point returns the error result
    carrying [str(e)]; so it does when the exception comes from the client
    call of a known action. *)
Theorem router_isolation :
  forall (depth : nat) (request : string) (st : state),
    (exists (r : pyval) (st' : state),
        process_natural_language_request depth request st = (Return r, st'))
    /\ (forall service h (intent : pyval) (st1 st2 : state) (e : exn),
           In (service, h) (dispatch_table (nested_call depth)) ->
           _extract_intent request st = (Return intent, st1) ->
           py_getitem intent "service" = Return (PStr service) ->
           h intent st1 = (Raise e, st2) ->
           fst (process_natural_language_request depth request st)
           = Return (PDict [("status", PStr "error");
                            ("message", PStr (exn_str e))]))
    /\ (forall service h actions action op fields
               (intent : pyval) (details : list (string * pyval))
               (st1 : state) (e : exn) (w : World),
           In (service, h, actions) handlers ->
           In (action, op, fields) actions ->
           _extract_intent request st = (Return intent, st1) ->
           py_getitem intent "service" = Return (PStr service) ->
           py_get intent "action" (PStr "") = Return (PStr action) ->
           py_get intent "details" (PDict []) = Return (PDict details) ->
           client_call op (kwargs_of fields details) (world st1) = (Raise e, w) ->
           fst (process_natural_language_request depth request st)
           = Return (PDict [("status", PStr "error");
                            ("message", PStr (exn_str e))])).
Proof.
  intros depth request st. split; [apply process_returns|].
  assert (Hraise :
    forall service h (intent : pyval) (st1 st2 : state) (e : exn),
      In (service, h) (dispatch_table (nested_call depth)) ->
      _extract_intent request st = (Return intent, st1) ->
      py_getitem intent "service" = Return (PStr service) ->
      h intent st1 = (Raise e, st2) ->
      fst (process_natural_language_request depth request st)
      = Return (PDict [("status", PStr "error");
                       ("message", PStr (exn_str e))])).
  { intros service h intent st1 st2 e Hin Hextract Hservice Hh.
    rewrite process_unfold.
    erewrite process_request_route_raises; [reflexivity | exact Hextract | ].
    rewrite (route_dispatch _ service h Hin intent st1 Hservice). exact Hh. }
  split; [exact Hraise|].
  intros service h actions action op fields intent details st1 e w
    Hh Ha Hextract Hservice Haction Hdetails Hcall.
  apply (Hraise service h intent st1
           {| world := w; context := context st1; log := log st1 |} e).
  - unfold dispatch_table. apply in_or_app. left.
    apply (in_map (fun entry => (fst (fst entry), snd (fst entry)))
             handlers (service, h, actions) Hh).
  - exact Hextract.
  - exact Hservice.
  - eapply handler_client_raises; eauto.
Qed.

End Router.

(* ================================================================== *)
(** ** The multi-service planner *)

Section Planner.

Context {R : Runtime}.

Lemma distinct_NoDup (keys : list string) :
  distinct keys = true -> NoDup keys.
Proof.
  induction keys as [|k rest IH]; simpl; intros H; constructor.
  - apply andb_true_iff in H. destruct H as [H _].
    apply negb_true_iff in H. intros Hin.
    assert (E : existsb (String.eqb k) rest = true).
    { apply existsb_exists. exists k. split; [exact Hin | apply String.eqb_refl]. }
    congruence.
  - apply IH. apply andb_true_iff in H. apply H.
Qed.

Lemma dict_set_fresh (d : list (string * pyval)) (k : string) (v : pyval) :
  ~ In k (map fst d) -> dict_set d k v = d ++ [(k, v)].
Proof.
  induction d as [|[k' v'] rest IH]; simpl; intros Hfresh; [reflexivity|].
  destruct (String.eqb k' k) eqn:E.
  - apply String.eqb_eq in E. exfalso. apply Hfresh. left. exact E.
  - rewrite IH; [reflexivity|]. intros Hin. apply Hfresh. right. exact Hin.
Qed.

Lemma fanned_out_keys (call : string -> M pyval)
  (items results : list (string * pyval)) (st st' : state) :
  fanned_out call items st results st' -> map fst results = map fst items.
Proof.
  induction 1 as [|service service_actions rest st0 st1 st2 r results _ _ IH];
    simpl; [reflexivity | rewrite IH; reflexivity].
Qed.

(** The loop over a decomposition whose values are dicts, run with a
    nested call that always returns: it completes, adds one entry per
    service after those already in [acc], and is a fan-out. *)
Lemma execute_actions_fans_out (self_process : string -> M pyval) :
  (forall (request : string) (st : state),
      exists (r : pyval) (st' : state),
        self_process request st = (Return r, st')) ->
  forall (items acc : list (string * pyval)) (st : state),
    forallb is_dict (map snd items) = true ->
    NoDup (map fst acc ++ map fst items) ->
    exists (results : list (string * pyval)) (st' : state),
      execute_actions self_process items acc st = (Return (acc ++ results), st')
      /\ fanned_out self_process items st results st'.
Proof.
  intros Hreturns.
  induction items as [|[service service_actions] rest IH];
    intros acc st Hdicts Hkeys.
  - exists [], st. simpl. unfold ret. rewrite app_nil_r.
    split; [reflexivity | constructor].
  - simpl in Hdicts. apply andb_true_iff in Hdicts.
    destruct Hdicts as [Hdict Hrest].
    destruct service_actions as [ | | | | | |d]; try discriminate.
    destruct (Hreturns (json_dumps (service_intent service (PDict d))) st)
      as (r & st1 & Hcall).
    simpl in Hkeys.
    destruct (IH (acc ++ [(service, r)]) st1 Hrest) as (results & st2 & Hrun & Hfan).
    { rewrite map_app. simpl. rewrite <- app_assoc. exact Hkeys. }
    exists ((service, r) :: results), st2. split.
    + simpl. unfold bind at 1. unfold lift at 1. simpl.
      unfold bind at 1. unfold lift at 1. simpl.
      unfold bind at 1.
      unfold service_intent in Hcall. simpl in Hcall. rewrite Hcall.
      rewrite dict_set_fresh.
      * rewrite Hrun. rewrite <- app_assoc. reflexivity.
      * apply NoDup_remove_2 in Hkeys. intros Hin. apply Hkeys.
        apply in_or_app. left. exact Hin.
    + econstructor; eassumption.
Qed.


(** C3 (as amended). When the model's answer to the decomposition request
    is a JSON object with distinct keys whose values are all objects, and
    the stack admits the nested calls, the multi-service handler returns
    status "success" with one sub-result per key, in the order of the keys:
    the value returned by the entry point for that entry, whatever its own
    status. *)
Theorem bundle_succeeds_on_object_of_objects :
  forall (depth : nat) (intent details : pyval) (st st1 : state)
         (breakdown : string) (actions : list (string * pyval)),
    py_get intent "details" (PStr "") = Return details ->
    generate_response (breakdown_prompt details)
      (Some "You are a workflow decomposition assistant.") st
    = (Return breakdown, st1) ->
    json_loads breakdown = Parsed (PDict actions) ->
    forallb is_dict (map snd actions) = true ->
    distinct (map fst actions) = true ->
    exists (results : list (string * pyval)) (st2 : state),
      _handle_multi_service_request (nested_call (S depth)) intent st
      = (Return (PDict [("status", PStr "success");
                        ("results", PDict results)]),
         st2)
      /\ map fst results = map fst actions
      /\ fanned_out (process_natural_language_request depth)
           actions st1 results st2.
Proof.
  intros depth intent details st st1 breakdown actions
    Hdetails Hgen Hparsed Hdicts Hkeys.
  destruct (execute_actions_fans_out (process_natural_language_request depth)
              (process_returns depth) actions [] st1 Hdicts)
    as (results & st2 & Hrun & Hfan).
  { simpl. apply distinct_NoDup. exact Hkeys. }
  exists results, st2. split; [|split].
  - unfold _handle_multi_service_request, bind, lift, try_except, loads, ret.
    rewrite Hdetails, Hgen, Hparsed. simpl.
    simpl in Hrun. rewrite Hrun. reflexivity.
  - eapply fanned_out_keys. exact Hfan.
  - exact Hfan.
Qed.

End Planner.

(* ================================================================== *)
(** ** What the handlers return *)

Section HandlerResults.

Context {R : Runtime}.

(** C5 (as amended). For an intent whose service is one of the five and
    whose action is one the handler of that service knows, when the client
    call returns [v] the handler, and [route] with it, returns
    [{'status': 'success', 'result': v}]: the value is carried under the
    key "result". *)
Theorem handler_wraps_client_value :
  forall (self_process : string -> M pyval) service h actions action op fields
         (intent : pyval) (details : list (string * pyval))
         (st : state) (v : pyval) (w : World),
    In (service, h, actions) handlers ->
    In (action, op, fields) actions ->
    py_getitem intent "service" = Return (PStr service) ->
    py_get intent "action" (PStr "") = Return (PStr action) ->
    py_get intent "details" (PDict []) = Return (PDict details) ->
    client_call op (kwargs_of fields details) (world st) = (Return v, w) ->
    h intent st
    = (Return (PDict [("status", PStr "success"); ("result", v)]),
       {| world := w; context := context st; log := log st |})
    /\ route self_process intent st = h intent st.
Proof.
  intros self_process service h actions action op fields intent details st v w
    Hh Ha Hservice Haction Hdetails Hcall.
  split.
  - eapply handler_known_action; eauto.
  - apply (route_dispatch self_process service h); [|exact Hservice].
    unfold dispatch_table. apply in_or_app. left.
    apply (in_map (fun entry => (fst (fst entry), snd (fst entry)))
             handlers (service, h, actions) Hh).
Qed.

(** C8. For an intent whose service is one of the five and whose action
    is none of those the handler of that service knows, the handler, and
    [route] with it, returns [None] and changes nothing: no client is
    called, no result is built. *)
Theorem unknown_action_returns_none :
  forall (self_process : string -> M pyval) service h actions
         (intent action : pyval) (st : state),
    In (service, h, actions) handlers ->
    py_getitem intent "service" = Return (PStr service) ->
    py_get intent "action" (PStr "") = Return action ->
    (forall name op fields,
        In (name, op, fields) actions -> action <> PStr name) ->
    h intent st = (Return PNone, st)
    /\ route self_process intent st = (Return PNone, st).
Proof.
  intros self_process service h actions intent action st
    Hh Hservice Haction Hunknown.
  assert (E : h intent st = (Return PNone, st))
    by (eapply handler_unknown_action; eauto).
  split; [exact E|].
  rewrite <- E.
  apply (route_dispatch self_process service h); [|exact Hservice].
  unfold dispatch_table. apply in_or_app. left.
  apply (in_map (fun entry => (fst (fst entry), snd (fst entry)))
           handlers (service, h, actions) Hh).
Qed.

End HandlerResults.

(* ================================================================== *)
(** ** Runs *)

(** One append to a history of capacity 0 leaves one entry stored. *)
Example history_at_zero_after_one_append :
  messages (add_message "user" "Message 0" (new_context 0))
  = [Message "user" "Message 0"].
Proof. reflexivity. Qed.

(** [test_context_max_length]: capacity 3, five appends. *)
Example history_bound_positive_run :
  messages
    (add_messages
       [Message "user" "Message 0"; Message "user" "Message 1";
        Message "user" "Message 2"; Message "user" "Message 3";
        Message "user" "Message 4"]
       (new_context 3))
  = [Message "user" "Message 2"; Message "user" "Message 3";
     Message "user" "Message 4"].
Proof.
  exact (proj1 (history_bound_positive 3 2
                  [Message "user" "Message 0"; Message "user" "Message 1";
                   Message "user" "Message 2"; Message "user" "Message 3";
                   Message "user" "Message 4"]
                  (new_context 3) eq_refl
                  ltac:(lia) ltac:(lia) eq_refl)).
Qed.



(** The model is unreachable: the call raises and the history, here two
    earlier turns, stays as it was. *)
Lemma generate_response_failure_atomic_witness :
  exists st' : state,
    generate_response (R := Scenario.runtime) "Test prompt" None
      (@State Scenario.runtime
         (Scenario.outside_with
            [Scenario.Fail (Exn "APIConnectionError" "Connection error.")]
            Scenario.Echo Scenario.mock_answers)
         {| messages := [Message "user" "Hello"; Message "assistant" "Hi there!"];
            max_context_length := 10 |}
         [])
    = (Raise (Exn "APIConnectionError" "Connection error."), st')
    /\ context st'
       = {| messages := [Message "user" "Hello"; Message "assistant" "Hi there!"];
            max_context_length := 10 |}.
Proof.
  destruct (proj1 (generate_response_failure_atomic (R := Scenario.runtime)
                     "Test prompt" None
                     (@State Scenario.runtime
                        (Scenario.outside_with
                           [Scenario.Fail
                              (Exn "APIConnectionError" "Connection error.")]
                           Scenario.Echo Scenario.mock_answers)
                        {| messages := [Message "user" "Hello";
                                        Message "assistant" "Hi there!"];
                           max_context_length := 10 |}
                        []))
              (Exn "APIConnectionError" "Connection error.")
              _ eq_refl)
    as (st' & Hrun & Hcontext & _).
  exists st'. split; [exact Hrun | exact Hcontext].
Defined.

(** [test_generate_response]: a system message is given, the model answers
    "Test response", and the history holds the two turns and no system
    entry. *)
Lemma generate_response_appends_two_witness :
  exists st' : state,
    generate_response (R := Scenario.runtime) "Test prompt"
      (Some "You are a helpful assistant.")
      (Scenario.fresh
         (Scenario.outside_with [] (Scenario.Say "Test response")
            Scenario.mock_answers) 10)
    = (Return "Test response", st')
    /\ messages (context st')
       = [Message "user" "Test prompt"; Message "assistant" "Test response"].
Proof.
  eexists. split; [reflexivity|].
  refine (proj2 (proj2 (proj2
    (generate_response_appends_two (R := Scenario.runtime)
       "Test prompt" (Some "You are a helpful assistant.")
       (Scenario.fresh
          (Scenario.outside_with [] (Scenario.Say "Test response")
             Scenario.mock_answers) 10)
       _ "Test response" eq_refl))) _).
  simpl. lia.
Defined.

(** [test_handle_email_request] with a mail service that fails: the
    extracted intent is the test's, the client call raises, and the entry
    point returns the error result with the exception's text. *)
Lemma router_isolation_witness :
  fst (process_natural_language_request (R := Scenario.runtime) 3
         "Send an email to test@example.com"
         (Scenario.fresh
            (Scenario.outside_with
               [Scenario.Say (Scenario.dumps Scenario.email_intent)]
               Scenario.Echo Scenario.gmail_down) 10))
  = Return (PDict [("status", PStr "error"); ("message", PStr "API Error")]).
Proof.
  eapply (proj2 (proj2 (router_isolation (R := Scenario.runtime) 3
                          "Send an email to test@example.com"
                          (Scenario.fresh
                             (Scenario.outside_with
                                [Scenario.Say (Scenario.dumps Scenario.email_intent)]
                                Scenario.Echo Scenario.gmail_down) 10)))
            "email" _ _ "send" GmailCreateItem _
            Scenario.email_intent
            [("to", PStr "test@example.com");
             ("subject", PStr "Test Subject");
             ("body", PStr "Test Body")]
            _ (Exn "Exception" "API Error")).
  - left. reflexivity.
  - left. reflexivity.
  - reflexivity.
  - reflexivity.
  - reflexivity.
  - reflexivity.
  - reflexivity.
Defined.

(** C5, the claim as worded fails: in [test_handle_email_request] the
    client returns [{'id': 'sent_email_id'}] and the handler returns it
    under "result"; the result has no "payload". *)
Lemma handler_result_has_no_payload_key :
  let st := Scenario.fresh
              (Scenario.outside_with [] Scenario.Echo Scenario.mock_answers) 10 in
  let v := PDict [("id", PStr "sent_email_id")] in
  fst (client_call (Runtime := Scenario.runtime) GmailCreateItem
         [("to", PStr "test@example.com");
          ("subject", PStr "Test Subject");
          ("body", PStr "Test Body")] (world st))
  = Return v
  /\ fst (_handle_email_request (R := Scenario.runtime) Scenario.email_intent st)
     = Return (PDict [("status", PStr "success"); ("result", v)])
  /\ fst (_handle_email_request (R := Scenario.runtime) Scenario.email_intent st)
     <> Return (PDict [("status", PStr "success"); ("payload", v)]).
Proof.
  simpl. split; [reflexivity|]. split; [reflexivity|]. discriminate.
Qed.

(** [test_handle_email_request]. *)
Lemma handler_wraps_client_value_witness :
  exists st' : state,
    _handle_email_request (R := Scenario.runtime) Scenario.email_intent
      (Scenario.fresh
         (Scenario.outside_with [] Scenario.Echo Scenario.mock_answers) 10)
    = (Return (PDict [("status", PStr "success");
                      ("result", PDict [("id", PStr "sent_email_id")])]),
       st').
Proof.
  eexists.
  eapply (proj1 (handler_wraps_client_value (R := Scenario.runtime)
                   (nested_call 3) "email" _ _ "send" GmailCreateItem _
                   Scenario.email_intent
                   [("to", PStr "test@example.com");
                    ("subject", PStr "Test Subject");
                    ("body", PStr "Test Body")]
                   (Scenario.fresh
                      (Scenario.outside_with [] Scenario.Echo
                         Scenario.mock_answers) 10)
                   (PDict [("id", PStr "sent_email_id")]) _
                   (or_introl eq_refl) (or_introl eq_refl)
                   eq_refl eq_refl eq_refl eq_refl)).
Defined.

(** An email intent with the action "archive". *)
Lemma unknown_action_returns_none_witness :
  let st := Scenario.fresh
              (Scenario.outside_with [] Scenario.Echo Scenario.mock_answers) 10 in
  let intent := PDict [("service", PStr "email");
                       ("action", PStr "archive");
                       ("details", PDict [])] in
  _handle_email_request (R := Scenario.runtime) intent st = (Return PNone, st)
  /\ route (R := Scenario.runtime) (nested_call 3) intent st = (Return PNone, st).
Proof.
  intros st intent.
  apply (unknown_action_returns_none (R := Scenario.runtime)
           (nested_call 3) "email" _ _ intent (PStr "archive") st
           (or_introl eq_refl) eq_refl eq_refl).
  intros name op fields [H | [H | []]]; inversion H; discriminate.
Defined.


(** C3, the claim as worded fails: the model answers the decomposition
    request with an object holding a list of actions for the service, as
    the prompt asks; the answer parses, and the handler returns status
    "error". *)
Lemma parsed_decomposition_can_fail :
  let answer := PDict [("email", PList [PDict [("action", PStr "send")]])] in
  json_loads (Runtime := Scenario.runtime) (Scenario.dumps answer)
  = Parsed answer
  /\ fst (_handle_multi_service_request (R := Scenario.runtime) (nested_call 5)
            Scenario.multi_intent
            (Scenario.fresh
               (Scenario.outside_with [] (Scenario.Say (Scenario.dumps answer))
                  Scenario.mock_answers) 10))
     = Return
         (PDict [("status", PStr "error");
                 ("message",
                  PStr "Multi-service request processing failed: 'list' object has no attribute 'get'")]).
Proof. split; vm_compute; reflexivity. Qed.

(** The partial failure of the specification: two services, the model
    repeats each sub-intent it is asked to classify, the mail call
    succeeds and the calendar call raises.  The bundle has status
    "success" and both sub-results. *)
Lemma bundle_succeeds_on_object_of_objects_witness :
  (exists (results : list (string * pyval)) (st2 : state),
      _handle_multi_service_request (R := Scenario.runtime) (nested_call 5)
        Scenario.multi_intent
        (Scenario.fresh
           (Scenario.outside_with
              [Scenario.Say (Scenario.dumps Scenario.decomposition)]
              Scenario.Echo Scenario.calendar_down) 10)
      = (Return (PDict [("status", PStr "success");
                        ("results", PDict results)]),
         st2)
      /\ map fst results = ["email"; "calendar"])
  /\ fst (_handle_multi_service_request (R := Scenario.runtime) (nested_call 5)
            Scenario.multi_intent
            (Scenario.fresh
               (Scenario.outside_with
                  [Scenario.Say (Scenario.dumps Scenario.decomposition)]
                  Scenario.Echo Scenario.calendar_down) 10))
     = Return
         (PDict
            [("status", PStr "success");
             ("results",
              PDict
                [("email",
                  PDict [("status", PStr "success");
                         ("result", PDict [("id", PStr "sent_email_id")])]);
                 ("calendar",
                  PDict [("status", PStr "error");
                         ("message", PStr "API Error")])])]).
Proof.
  split; [|vm_compute; reflexivity].
  destruct (bundle_succeeds_on_object_of_objects (R := Scenario.runtime) 4
              Scenario.multi_intent
              (PStr "Send an email and create a calendar event")
              (Scenario.fresh
                 (Scenario.outside_with
                    [Scenario.Say (Scenario.dumps Scenario.decomposition)]
                    Scenario.Echo Scenario.calendar_down) 10)
              _
              (Scenario.dumps Scenario.decomposition)
              [("email",
                PDict [("action", PStr "send");
                       ("details", Scenario.email_details)]);
               ("calendar",
                PDict [("action", PStr "create");
                       ("details", Scenario.calendar_details)])]
              eq_refl eq_refl eq_refl eq_refl eq_refl)
    as (results & st2 & Hrun & Hkeys & _).
  exists results, st2. split; [exact Hrun | exact Hkeys].
Defined.

(** C6. [test_handle_multi_service_request] run on the code: the model
    answers every request with the decomposition of the test, and the
    mocked clients are those of the test.  The handler sends each
    sub-intent, as JSON text, through the entry point: the model is asked
    three times (the decomposition, then one intent extraction per
    sub-intent), the extracted "intent" is the decomposition again and has
    no service, no client is called, and each sub-result is the error of
    the missing key.  Routing the constructed intents themselves, as the
    specification has it, calls the two clients and gives the sub-results
    that the test asserts. *)
Theorem fan_out_extracts_again :
  let st := Scenario.fresh
              (Scenario.outside_with []
                 (Scenario.Say (Scenario.dumps Scenario.decomposition))
                 Scenario.mock_answers) 10 in
  let run := _handle_multi_service_request (R := Scenario.runtime)
               (nested_call 5) Scenario.multi_intent st in
  let items := [("email",
                 PDict [("action", PStr "send");
                        ("details", Scenario.email_details)]);
                ("calendar",
                 PDict [("action", PStr "create");
                        ("details", Scenario.calendar_details)])] in
  fst run
  = Return
      (PDict
         [("status", PStr "success");
          ("results",
           PDict
             [("email",
               PDict [("status", PStr "error"); ("message", PStr "'service'")]);
              ("calendar",
               PDict [("status", PStr "error"); ("message", PStr "'service'")])])])
  /\ Scenario.calls (world (snd run)) = []
  /\ map (fun msgs => content (hd (Message "" "") msgs))
       (Scenario.received (world (snd run)))
     = ["You are a workflow decomposition assistant.";
        system_prompt;
        system_prompt]
  /\ map (fun msgs => content (last msgs (Message "" "")))
       (Scenario.received (world (snd run)))
     = [breakdown_prompt (R := Scenario.runtime)
          (PStr "Send an email and create a calendar event");
        Scenario.dumps
          (service_intent "email"
             (PDict [("action", PStr "send");
                     ("details", Scenario.email_details)]));
        Scenario.dumps
          (service_intent "calendar"
             (PDict [("action", PStr "create");
                     ("details", Scenario.calendar_details)]))]
  /\ fst (execute_actions_direct (R := Scenario.runtime) (nested_call 5)
            items [] st)
     = Return
         [("email",
           PDict [("status", PStr "success");
                  ("result", PDict [("id", PStr "sent_email_id")])]);
          ("calendar",
           PDict [("status", PStr "success");
                  ("result", PDict [("id", PStr "created_event_id")])])].
Proof. vm_compute. repeat split; reflexivity. Qed.

(* ================================================================== *)
(** ** More on the conversation context and the completion provider *)

Lemma add_message_length_positive (r c : string) (ctx : ConversationContext) :
  0 < max_context_length ctx ->
  Z.of_nat (List.length (messages (add_message r c ctx)))
  <= max_context_length ctx.
Proof.
  intros Hn. rewrite add_message_positive by exact Hn.
  rewrite last_n_length. lia.
Qed.

(** X1. With a maximum [n >= 1], whatever the context holds before: after
    one append or more the history is the last [n] entries of the old
    history followed by the appended messages, oldest first; it has at most
    [n] entries; and once [n] or more messages were appended it is the last
    [n] of them. *)
Theorem history_keeps_most_recent :
  forall (ctx : ConversationContext) (ms : list message),
    0 < max_context_length ctx ->
    ms <> [] ->
    messages (add_messages ms ctx)
    = last_n (Z.to_nat (max_context_length ctx)) (messages ctx ++ ms)
    /\ Z.of_nat (List.length (messages (add_messages ms ctx)))
       <= max_context_length ctx
    /\ (max_context_length ctx <= Z.of_nat (List.length ms) ->
        messages (add_messages ms ctx)
        = last_n (Z.to_nat (max_context_length ctx)) ms).
Proof.
  intros ctx ms Hn Hne.
  assert (E := add_messages_positive ms ctx Hn Hne).
  split; [exact E|]. split.
  - rewrite E, last_n_length. lia.
  - intros Hlen. rewrite E. unfold last_n.
    rewrite length_app, skipn_app.
    rewrite skipn_all2 by lia. simpl. f_equal. lia.
Qed.

Lemma substring_length (k : nat) (s : string) :
  String.length (String.substring 0 k s) = Nat.min k (String.length s).
Proof.
  revert k. induction s as [|c s IH]; intros [|k]; simpl; try reflexivity.
  rewrite IH. reflexivity.
Qed.

Lemma substring_prefix (k : nat) (s : string) :
  String.prefix (String.substring 0 k s) s = true.
Proof.
  revert k. induction s as [|c s IH]; intros [|k]; simpl; try reflexivity.
  destruct (ascii_dec c c) as [_ | Hne]; [apply IH | congruence].
Qed.

Section CompletionMore.

Context {R : Runtime}.

(** X2. [summarize_text] returns a prefix of the model's answer: its
    first [max_length] characters when [max_length >= 0] (the whole answer
    when it is shorter), and the answer without its last [-max_length]
    characters when [max_length < 0].  A failure of [generate_response] is
    the failure of [summarize_text]. *)
Theorem summarize_text_truncates :
  forall (text : string) (max_length : Z) (st : state),
    (forall (summary : string) (st' : state),
        generate_response text
          (Some ("Summarize the following text concisely in under "
                 ++ py_str (PInt max_length) ++ " characters:")%string) st
        = (Return summary, st') ->
        exists result : string,
          summarize_text text max_length st = (Return result, st')
          /\ String.prefix result summary = true
          /\ (0 <= max_length ->
              Z.of_nat (String.length result)
              = Z.min max_length (Z.of_nat (String.length summary)))
          /\ (max_length < 0 ->
              Z.of_nat (String.length result)
              = Z.max (Z.of_nat (String.length summary) + max_length) 0))
    /\ (forall (e : exn) (st' : state),
           generate_response text
             (Some ("Summarize the following text concisely in under "
                    ++ py_str (PInt max_length) ++ " characters:")%string) st
           = (Raise e, st') ->
           summarize_text text max_length st = (Raise e, st')).
Proof.
  intros text max_length st. split.
  - intros summary st' Hgen.
    exists (str_prefix max_length summary). split; [|split; [|split]].
    + unfold summarize_text, bind, ret. rewrite Hgen. reflexivity.
    + apply substring_prefix.
    + intros Hpos. unfold str_prefix. rewrite substring_length.
      replace (max_length <? 0) with false by (symmetry; apply Z.ltb_ge; lia).
      lia.
    + intros Hneg. unfold str_prefix. rewrite substring_length.
      replace (max_length <? 0) with true by (symmetry; apply Z.ltb_lt; lia).
      lia.
  - intros e st' Hgen. unfold summarize_text, bind. rewrite Hgen. reflexivity.
Qed.

Lemma generate_response_room (prompt : string) (system_message : option string)
  (st st' : state) (answer : string) :
  generate_response prompt system_message st = (Return answer, st') ->
  Z.of_nat (List.length (messages (context st))) + 2
  <= max_context_length (context st) ->
  messages (context st')
  = messages (context st)
      ++ [Message "user" prompt; Message "assistant" answer].
Proof.
  rewrite generate_response_cases.
  destruct (chat_completions_create
              (outgoing prompt system_message (context st)) (world st))
    as [[[|a rest]|e] w]; intros H Hroom; inversion H; subst; clear H.
  simpl. rewrite add_message_room.
  - rewrite add_message_room by lia. rewrite <- app_assoc. reflexivity.
  - rewrite add_message_bound. rewrite add_message_room by lia.
    rewrite length_app. simpl. lia.
Qed.

(** X3. After [reset_context] the model no longer sees earlier turns:
    the next [generate_response] sends the system message, if any, and the
    prompt, nothing else; the history bound is kept, and after a successful
    call under a bound of at least 2 the history is the two new entries. *)
Theorem reset_context_forgets :
  forall (prompt : string) (system_message : option string) (st : state),
    (exists st0 : state,
        reset_context st = (Return tt, st0)
        /\ messages (context st0) = []
        /\ max_context_length (context st0) = max_context_length (context st)
        /\ world st0 = world st
        /\ outgoing prompt system_message (context st0)
           = (match system_message with
              | Some s => if String.eqb s "" then [] else [Message "system" s]
              | None => []
              end) ++ [Message "user" prompt])
    /\ (forall (answer : string) (st' : state),
           2 <= max_context_length (context st) ->
           bind reset_context
             (fun _ => generate_response prompt system_message) st
           = (Return answer, st') ->
           messages (context st')
           = [Message "user" prompt; Message "assistant" answer]).
Proof.
  intros prompt system_message st. split.
  - eexists. split; [reflexivity|]. simpl. repeat split; reflexivity.
  - intros answer st' Hbound Hrun.
    unfold bind, reset_context, update_context in Hrun.
    apply generate_response_room in Hrun; [exact Hrun|].
    simpl. lia.
Qed.

End CompletionMore.

(* ================================================================== *)
(** ** What a request leaves untouched *)

Section Frames.

Context {R : Runtime}.

Section Keeping.

Variable rel : state -> state -> Prop.
Hypothesis rel_refl : forall st : state, rel st st.
Hypothesis rel_trans :
  forall st1 st2 st3 : state, rel st1 st2 -> rel st2 st3 -> rel st1 st3.

Lemma keeps_ret {A : Type} (a : A) : keeps rel (ret a).
Proof. intros st st' o H. inversion H. apply rel_refl. Qed.

Lemma keeps_raise {A : Type} (e : exn) : keeps rel (raise (A := A) e).
Proof. intros st st' o H. inversion H. apply rel_refl. Qed.

Lemma keeps_lift {A : Type} (x : outcome A) : keeps rel (lift x).
Proof. intros st st' o H. inversion H. apply rel_refl. Qed.

Lemma keeps_bind {A B : Type} (m : M A) (k : A -> M B) :
  keeps rel m -> (forall a : A, keeps rel (k a)) -> keeps rel (bind m k).
Proof.
  intros Hm Hk st st' o H. unfold bind in H.
  destruct (m st) as [[a | e] st1] eqn:E.
  - eapply rel_trans; [eapply Hm; exact E | eapply Hk; exact H].
  - inversion H; subst. eapply Hm. exact E.
Qed.

Lemma keeps_try {A : Type} (body : M A) (handler : exn -> M A) :
  keeps rel body -> (forall e : exn, keeps rel (handler e)) ->
  keeps rel (try_except body handler).
Proof.
  intros Hb Hh st st' o H. unfold try_except in H.
  destruct (body st) as [[a | e] st1] eqn:E.
  - inversion H; subst. eapply Hb. exact E.
  - eapply rel_trans; [eapply Hb; exact E | eapply Hh; exact H].
Qed.

Hypothesis rel_world :
  forall (st : state) (w : World),
    rel st {| world := w; context := context st; log := log st |}.

Lemma keeps_call (op : client_op) (kwargs : list (string * pyval)) :
  keeps rel (call op kwargs).
Proof.
  intros st st' o H. unfold call in H.
  destruct (client_call op kwargs (world st)) as [r w].
  inversion H. apply rel_world.
Qed.

Lemma keeps_create (msgs : list message) : keeps rel (create msgs).
Proof.
  intros st st' o H. unfold create in H.
  destruct (chat_completions_create msgs (world st)) as [r w].
  inversion H. apply rel_world.
Qed.

Ltac keeps_steps :=
  repeat first
    [ apply keeps_ret
    | apply keeps_lift
    | apply keeps_call
    | apply keeps_bind; [ | intros ? ]
    | match goal with
      | |- keeps _ (if ?c then _ else _) => destruct c
      end ].

(** Each of the five service handlers keeps whatever a client call keeps. *)
Lemma handlers_keep :
  forall service h actions,
    In (service, h, actions) handlers ->
    forall intent : pyval, keeps rel (h intent).
Proof.
  intros service h actions Hh.
  simpl in Hh.
  repeat (destruct Hh as [Hh | Hh]; [inversion Hh; subst; clear Hh | ]);
    try contradiction; intros intent;
    unfold _handle_email_request, _handle_calendar_request,
      _handle_drive_request, _handle_sheets_request, _handle_docs_request;
    keeps_steps.
Qed.

End Keeping.

Lemma same_context_and_log_refl (st : state) : same_context_and_log st st.
Proof. split; reflexivity. Qed.

Lemma same_context_and_log_trans (st1 st2 st3 : state) :
  same_context_and_log st1 st2 -> same_context_and_log st2 st3 ->
  same_context_and_log st1 st3.
Proof. intros [H1 H2] [H3 H4]. split; congruence. Qed.

(** X4. A service handler never touches the conversation history or the
    log, whatever the intent and however the call ends: of the state, only
    the outside can differ after it. *)
Theorem handlers_leave_context_and_log :
  forall service h actions (intent : pyval) (st st' : state) (o : outcome pyval),
    In (service, h, actions) handlers ->
    h intent st = (o, st') ->
    context st' = context st /\ log st' = log st.
Proof.
  intros service h actions intent st st' o Hh Hrun.
  apply (handlers_keep same_context_and_log
           same_context_and_log_refl same_context_and_log_trans
           (fun st w => conj eq_refl eq_refl)
           service h actions Hh intent st st' o Hrun).
Qed.

End Frames.

(* ================================================================== *)
(** ** The history bound across a whole request *)

Section BoundedRequests.

Context {R : Runtime}.

Lemma history_stays_bounded_refl (st : state) : history_stays_bounded st st.
Proof. split; [reflexivity | intros _ H; exact H]. Qed.

Lemma history_stays_bounded_trans (st1 st2 st3 : state) :
  history_stays_bounded st1 st2 -> history_stays_bounded st2 st3 ->
  history_stays_bounded st1 st3.
Proof.
  intros [E12 H12] [E23 H23]. split; [congruence|].
  intros Hpos Hlen. apply H23; [rewrite E12; exact Hpos|].
  apply H12; assumption.
Qed.

Lemma history_stays_bounded_world (st : state) (w : World) :
  history_stays_bounded st
    {| world := w; context := context st; log := log st |}.
Proof. split; [reflexivity | intros _ H; exact H]. Qed.

Lemma logger_error_bounded (line : string) :
  keeps history_stays_bounded (logger_error line).
Proof.
  intros st st' o H. inversion H.
  split; [reflexivity | intros _ Hlen; exact Hlen].
Qed.

Lemma generate_response_bounded (prompt : string)
  (system_message : option string) :
  keeps history_stays_bounded (generate_response prompt system_message).
Proof.
  intros st st' o. rewrite generate_response_cases.
  destruct (chat_completions_create
              (outgoing prompt system_message (context st)) (world st))
    as [[[|answer rest]|e] w]; intros H; inversion H; subst; clear H;
    try (split; [reflexivity | intros _ Hlen; exact Hlen]).
  split; simpl.
  - rewrite !add_message_bound. reflexivity.
  - intros Hpos _. rewrite !add_message_bound.
    pose proof (add_message_length_positive "assistant" answer
                  (add_message "user" prompt (context st))) as Hlen.
    rewrite add_message_bound in Hlen. apply Hlen. exact Hpos.
Qed.

Ltac bounded_steps :=
  repeat first
    [ apply (keeps_ret _ history_stays_bounded_refl)
    | apply (keeps_raise _ history_stays_bounded_refl)
    | apply (keeps_lift _ history_stays_bounded_refl)
    | apply generate_response_bounded
    | apply logger_error_bounded
    | apply (keeps_bind _ history_stays_bounded_trans); [ | intros ? ]
    | apply (keeps_try _ history_stays_bounded_trans); [ | intros ? ] ].

Lemma extract_intent_bounded (request : string) :
  keeps history_stays_bounded (_extract_intent request).
Proof.
  unfold _extract_intent. bounded_steps.
  destruct (json_loads a); bounded_steps.
Qed.

Lemma execute_actions_bounded (self_process : string -> M pyval) :
  (forall request : string, keeps history_stays_bounded (self_process request)) ->
  forall items results : list (string * pyval),
    keeps history_stays_bounded (execute_actions self_process items results).
Proof.
  intros Hself. induction items as [|[service service_actions] rest IH];
    intros results; simpl; bounded_steps.
  - apply Hself.
  - apply IH.
Qed.

Lemma multi_bounded (self_process : string -> M pyval) (intent : pyval) :
  (forall request : string, keeps history_stays_bounded (self_process request)) ->
  keeps history_stays_bounded (_handle_multi_service_request self_process intent).
Proof.
  intros Hself. unfold _handle_multi_service_request. bounded_steps.
  apply execute_actions_bounded. exact Hself.
Qed.

Lemma route_bounded (self_process : string -> M pyval) (intent : pyval) :
  (forall request : string, keeps history_stays_bounded (self_process request)) ->
  keeps history_stays_bounded (route self_process intent).
Proof.
  intros Hself.
  assert (Hh : forall service h actions,
             In (service, h, actions) handlers ->
             keeps history_stays_bounded (h intent)).
  { intros service h actions Hin.
    apply (handlers_keep history_stays_bounded
             history_stays_bounded_refl history_stays_bounded_trans
             history_stays_bounded_world service h actions Hin). }
  unfold route.
  apply (keeps_bind _ history_stays_bounded_trans);
    [apply (keeps_lift _ history_stays_bounded_refl) | intros s1].
  destruct (py_eq_str s1 "email");
    [apply (Hh "email" _ _ (or_introl eq_refl)) | ].
  apply (keeps_bind _ history_stays_bounded_trans);
    [apply (keeps_lift _ history_stays_bounded_refl) | intros s2].
  destruct (py_eq_str s2 "calendar");
    [apply (Hh "calendar" _ _ (or_intror (or_introl eq_refl))) | ].
  apply (keeps_bind _ history_stays_bounded_trans);
    [apply (keeps_lift _ history_stays_bounded_refl) | intros s3].
  destruct (py_eq_str s3 "drive");
    [apply (Hh "drive" _ _ (or_intror (or_intror (or_introl eq_refl)))) | ].
  apply (keeps_bind _ history_stays_bounded_trans);
    [apply (keeps_lift _ history_stays_bounded_refl) | intros s4].
  destruct (py_eq_str s4 "sheets");
    [apply (Hh "sheets" _ _
              (or_intror (or_intror (or_intror (or_introl eq_refl))))) | ].
  apply (keeps_bind _ history_stays_bounded_trans);
    [apply (keeps_lift _ history_stays_bounded_refl) | intros s5].
  destruct (py_eq_str s5 "docs");
    [apply (Hh "docs" _ _
              (or_intror (or_intror (or_intror (or_intror (or_introl eq_refl)))))) | ].
  apply (keeps_bind _ history_stays_bounded_trans);
    [apply (keeps_lift _ history_stays_bounded_refl) | intros s6].
  destruct (py_eq_str s6 "multi"); [apply multi_bounded; exact Hself | ].
  bounded_steps.
Qed.

Lemma process_request_bounded (self_process : string -> M pyval)
  (request : string) :
  (forall request : string, keeps history_stays_bounded (self_process request)) ->
  keeps history_stays_bounded (process_request self_process request).
Proof.
  intros Hself. unfold process_request.
  apply (keeps_try _ history_stays_bounded_trans).
  - apply (keeps_bind _ history_stays_bounded_trans).
    + apply extract_intent_bounded.
    + intros intent. apply route_bounded. exact Hself.
  - intros e. bounded_steps.
Qed.

Lemma process_bounded (depth : nat) (request : string) :
  keeps history_stays_bounded (process_natural_language_request depth request).
Proof.
  revert request. induction depth as [|depth IH]; intros request;
    rewrite process_unfold; apply process_request_bounded; intros request';
    simpl.
  - bounded_steps.
  - apply IH.
Qed.

(** X5. A whole request, with all its nested calls and however it ends,
    keeps the history bound as configured and, when the bound is positive,
    leaves a history that was within the bound within the bound. *)
Theorem request_keeps_history_bounded :
  forall (depth : nat) (request : string) (st st' : state) (o : outcome pyval),
    process_natural_language_request depth request st = (o, st') ->
    max_context_length (context st') = max_context_length (context st)
    /\ (0 < max_context_length (context st) ->
        Z.of_nat (List.length (messages (context st)))
        <= max_context_length (context st) ->
        Z.of_nat (List.length (messages (context st')))
        <= max_context_length (context st')).
Proof.
  intros depth request st st' o H.
  exact (process_bounded depth request st st' o H).
Qed.

End BoundedRequests.

(* ================================================================== *)
(** ** The entry point on answers it cannot route *)

Section EntryPoint.

Context {R : Runtime}.

(** X6. When the extracted intent has no service to read (an object
    without the key "service", or a value that is no object at all), the
    entry point returns the error result with the text of the failed
    lookup, "'service'" for a missing key; no handler runs and, after the
    extraction, the state only gains one log line. *)
Theorem intent_without_service_is_an_error :
  forall (depth : nat) (request : string) (st st1 : state)
         (intent : pyval) (e : exn),
    _extract_intent request st = (Return intent, st1) ->
    py_getitem intent "service" = Raise e ->
    process_natural_language_request depth request st
    = (Return (PDict [("status", PStr "error");
                      ("message", PStr (exn_str e))]),
       {| world := world st1; context := context st1;
          log := log st1
                 ++ [("Error processing request: " ++ exn_str e)%string] |})
    /\ (forall d : list (string * pyval),
           intent = PDict d -> exn_str e = "'service'").
Proof.
  intros depth request st st1 intent e Hextract Hservice. split.
  - rewrite process_unfold.
    unfold process_request, try_except, bind at 1. rewrite Hextract.
    unfold route, bind at 1, lift. rewrite Hservice. reflexivity.
  - intros d Hd. subst intent. simpl in Hservice.
    destruct (dict_lookup d "service"); inversion Hservice. reflexivity.
Qed.

(** X7. When the service of the extracted intent is none of the six
    names, the entry point returns the error result "Unsupported service: "
    followed by [str] of that service; nothing else happens after the
    extraction, not even a log line. *)
Theorem unsupported_service_is_an_error :
  forall (depth : nat) (request : string) (st st1 : state)
         (intent service : pyval),
    _extract_intent request st = (Return intent, st1) ->
    py_getitem intent "service" = Return service ->
    (forall name : string,
        In name ["email"; "calendar"; "drive"; "sheets"; "docs"; "multi"] ->
        service <> PStr name) ->
    process_natural_language_request depth request st
    = (Return (PDict [("status", PStr "error");
                      ("message",
                       PStr ("Unsupported service: " ++ py_str service))]),
       st1).
Proof.
  intros depth request st st1 intent service Hextract Hservice Hnone.
  assert (Hneq : forall name : string,
             In name ["email"; "calendar"; "drive"; "sheets"; "docs"; "multi"] ->
             py_eq_str service name = false).
  { intros name Hin. destruct service; try reflexivity. simpl.
    apply String.eqb_neq. intros E. apply (Hnone name Hin). congruence. }
  rewrite process_unfold.
  unfold process_request, try_except, bind at 1. rewrite Hextract.
  unfold route, bind, lift. rewrite Hservice.
  rewrite !Hneq by (simpl; auto 10). reflexivity.
Qed.

(** X8. When the model call of the intent extraction raises, the entry
    point returns the error result with the text of the exception; the
    history is unchanged, no client is called, and the log gains the line
    of the completion provider and the line of the entry point. *)
Theorem model_failure_is_an_error :
  forall (depth : nat) (request : string) (st : state) (e : exn) (w : World),
    chat_completions_create
      (outgoing request (Some system_prompt) (context st)) (world st)
    = (Raise e, w) ->
    process_natural_language_request depth request st
    = (Return (PDict [("status", PStr "error");
                      ("message", PStr (exn_str e))]),
       {| world := w; context := context st;
          log := log st
                 ++ [("LLM generation error: " ++ exn_str e)%string]
                 ++ [("Error processing request: " ++ exn_str e)%string] |}).
Proof.
  intros depth request st e w Hcall.
  rewrite process_unfold.
  unfold process_request, try_except, bind at 1.
  unfold _extract_intent, bind at 1.
  rewrite generate_response_cases, Hcall.
  unfold bind, logger_error, ret. simpl. rewrite <- app_assoc. reflexivity.
Qed.

(** X9. A request on whose extraction answer [json.loads] raises
    [JSONDecodeError] goes to the multi-service handler with the request
    text as details: the model is asked to decompose that text, and when
    [json.loads] raises on this second answer, [JSONDecodeError] or an
    exception of another class, the entry point returns the
    decomposition error with the text of that exception.  When
    [json.loads] raises an exception of another class on the extraction
    answer there is no fallback and no decomposition: the entry point
    logs it and returns the plain error. *)
Theorem unparseable_answers_end_in_decomposition_error :
  forall (depth : nat) (request : string) (st st1 : state) (answer1 : string),
    generate_response request (Some system_prompt) st = (Return answer1, st1) ->
    (forall (text1 answer2 : string) (st2 : state),
        json_loads answer1 = Malformed text1 ->
        generate_response (breakdown_prompt (PStr request))
          (Some "You are a workflow decomposition assistant.") st1
        = (Return answer2, st2) ->
        (forall text2 : string,
            json_loads answer2 = Malformed text2 ->
            process_natural_language_request depth request st
            = (Return
                 (PDict [("status", PStr "error");
                         ("message",
                          PStr ("Multi-service request processing failed: "
                                ++ text2))]),
               st2))
        /\ (forall e : exn,
               json_loads answer2 = Crashed e ->
               process_natural_language_request depth request st
               = (Return
                    (PDict [("status", PStr "error");
                            ("message",
                             PStr ("Multi-service request processing failed: "
                                   ++ exn_str e))]),
                  st2)))
    /\ (forall e : exn,
           json_loads answer1 = Crashed e ->
           process_natural_language_request depth request st
           = (Return (PDict [("status", PStr "error");
                             ("message", PStr (exn_str e))]),
              {| world := world st1; context := context st1;
                 log := log st1
                        ++ [("Error processing request: " ++ exn_str e)%string] |})).
Proof.
  intros depth request st st1 answer1 Hgen1. split.
  - intros text1 answer2 st2 Hbad1 Hgen2.
    assert (Hto :
              process_natural_language_request depth request st
              = try_except
                  (_handle_multi_service_request (nested_call depth)
                     (PDict [("service", PStr "multi");
                             ("action", PStr "interpret");
                             ("details", PStr request)]))
                  (fun e =>
                     bind (logger_error
                             ("Error processing request: " ++ exn_str e))
                       (fun _ =>
                          ret (PDict [("status", PStr "error");
                                      ("message", PStr (exn_str e))])))
                  st1).
    { rewrite process_unfold.
      unfold process_request, try_except, bind at 1.
      unfold _extract_intent, bind at 1. rewrite Hgen1, Hbad1.
      unfold ret at 1. unfold route, bind at 1, lift at 1. simpl.
      reflexivity. }
    split.
    + intros text2 Hbad2. rewrite Hto.
      unfold _handle_multi_service_request, bind, lift, try_except, loads, ret.
      simpl. rewrite Hgen2, Hbad2. reflexivity.
    + intros e Hbad2. rewrite Hto.
      unfold _handle_multi_service_request, bind, lift, try_except, loads, ret.
      simpl. rewrite Hgen2, Hbad2. reflexivity.
  - intros e Hbad1.
    rewrite process_unfold.
    unfold process_request, try_except, bind at 1.
    unfold _extract_intent, bind at 1. rewrite Hgen1, Hbad1.
    unfold raise, bind, logger_error, ret. simpl. reflexivity.
Qed.

(** X10. When the model call of the decomposition raises, the exception
    leaves the multi-service handler (the call is made before its [try])
    and the entry point returns the plain error result with the text of
    the exception, without the "Multi-service request processing failed"
    prefix. *)
Theorem decomposition_model_failure_is_a_plain_error :
  forall (depth : nat) (request : string) (st st1 st2 : state)
         (intent details : pyval) (e : exn),
    _extract_intent request st = (Return intent, st1) ->
    py_getitem intent "service" = Return (PStr "multi") ->
    py_get intent "details" (PStr "") = Return details ->
    generate_response (breakdown_prompt details)
      (Some "You are a workflow decomposition assistant.") st1
    = (Raise e, st2) ->
    _handle_multi_service_request (nested_call depth) intent st1
    = (Raise e, st2)
    /\ process_natural_language_request depth request st
       = (Return (PDict [("status", PStr "error");
                         ("message", PStr (exn_str e))]),
          {| world := world st2; context := context st2;
             log := log st2
                    ++ [("Error processing request: " ++ exn_str e)%string] |}).
Proof.
  intros depth request st st1 st2 intent details e
    Hextract Hservice Hdetails Hgen.
  assert (Hmulti : _handle_multi_service_request (nested_call depth) intent st1
                   = (Raise e, st2)).
  { unfold _handle_multi_service_request, bind, lift.
    rewrite Hdetails, Hgen. reflexivity. }
  split; [exact Hmulti|].
  rewrite process_unfold.
  apply (process_request_route_raises _ request st st1 st2 intent e Hextract).
  rewrite (route_dispatch (nested_call depth) "multi"
             (_handle_multi_service_request (nested_call depth))).
  - exact Hmulti.
  - unfold dispatch_table. apply in_or_app. right. left. reflexivity.
  - exact Hservice.
Qed.

(** X11. A known action with details that are not an object (a string, a
    list, a number, null) makes the handler raise the [AttributeError] of
    the first [details.get]; no client is called and the state is
    unchanged. *)
Theorem details_must_be_an_object :
  forall service h actions action op fields
         (intent details : pyval) (st : state),
    In (service, h, actions) handlers ->
    In (action, op, fields) actions ->
    py_get intent "action" (PStr "") = Return (PStr action) ->
    py_get intent "details" (PDict []) = Return details ->
    is_dict details = false ->
    h intent st
    = (Raise (AttributeError
                ("'" ++ type_name details ++ "' object has no attribute 'get'")),
       st).
Proof.
  intros service h actions action op fields intent details st Hh.
  simpl in Hh.
  repeat (destruct Hh as [Hh | Hh]; [inversion Hh; subst; clear Hh | ]);
    try contradiction;
    intros Ha; simpl in Ha;
    repeat (destruct Ha as [Ha | Ha]; [inversion Ha; subst; clear Ha | ]);
    try contradiction;
    intros Haction Hdetails Hnot;
    unfold _handle_email_request, _handle_calendar_request,
      _handle_drive_request, _handle_sheets_request, _handle_docs_request,
      bind, lift;
    rewrite Haction, Hdetails; simpl;
    destruct details; try discriminate; reflexivity.
Qed.

End EntryPoint.

(* ================================================================== *)
(** ** The shape of every result *)

Section Shapes.

Context {R : Runtime}.

Ltac split_run H :=
  repeat match type of H with
         | context [match ?x with _ => _ end] => destruct x eqn:?
         end;
  inversion H; subst; clear H.

Lemma handler_result_shape :
  forall service h actions (intent : pyval) (st st' : state) (r : pyval),
    In (service, h, actions) handlers ->
    h intent st = (Return r, st') ->
    result_shape r.
Proof.
  intros service h actions intent st st' r Hh.
  simpl in Hh.
  repeat (destruct Hh as [Hh | Hh]; [inversion Hh; subst; clear Hh | ]);
    try contradiction;
    unfold _handle_email_request, _handle_calendar_request,
      _handle_drive_request, _handle_sheets_request, _handle_docs_request,
      bind, lift, ret, call;
    intros Hrun; split_run Hrun; constructor.
Qed.

Lemma multi_result_shape (self_process : string -> M pyval)
  (intent : pyval) (st st' : state) (r : pyval) :
  _handle_multi_service_request self_process intent st = (Return r, st') ->
  result_shape r.
Proof.
  unfold _handle_multi_service_request, bind, lift, try_except, ret.
  intros Hrun.
  destruct (py_get intent "details" (PStr "")); [|discriminate].
  destruct (generate_response _ _ st) as [[breakdown | e] st1]; [|discriminate].
  destruct (loads breakdown) as [actions | e];
    [|inversion Hrun; constructor].
  destruct (py_items actions) as [items | e];
    [|inversion Hrun; constructor].
  destruct (execute_actions self_process items [] st1) as [[results | e] st2];
    inversion Hrun; constructor.
Qed.

Lemma route_result_shape (self_process : string -> M pyval)
  (intent : pyval) (st st' : state) (r : pyval) :
  route self_process intent st = (Return r, st') ->
  result_shape r.
Proof.
  unfold route, bind, lift. intros Hrun.
  destruct (py_getitem intent "service") as [s | e]; [|discriminate].
  destruct (py_eq_str s "email");
    [eapply handler_result_shape; [left; reflexivity | exact Hrun] | ].
  destruct (py_eq_str s "calendar");
    [eapply handler_result_shape;
       [right; left; reflexivity | exact Hrun] | ].
  destruct (py_eq_str s "drive");
    [eapply handler_result_shape;
       [right; right; left; reflexivity | exact Hrun] | ].
  destruct (py_eq_str s "sheets");
    [eapply handler_result_shape;
       [right; right; right; left; reflexivity | exact Hrun] | ].
  destruct (py_eq_str s "docs");
    [eapply handler_result_shape;
       [right; right; right; right; left; reflexivity | exact Hrun] | ].
  destruct (py_eq_str s "multi");
    [eapply multi_result_shape; exact Hrun | ].
  inversion Hrun. constructor.
Qed.

(** X12. Whatever the request, the model and the clients do, the entry
    point returns one of four values: [None] (a known service with an
    unknown action), [{'status': 'success', 'result': v}],
    [{'status': 'success', 'results': {...}}] or
    [{'status': 'error', 'message': text}]. *)
Theorem entry_point_result_shape :
  forall (depth : nat) (request : string) (st : state),
    exists (r : pyval) (st' : state),
      process_natural_language_request depth request st = (Return r, st')
      /\ result_shape r.
Proof.
  intros depth request st. rewrite process_unfold.
  unfold process_request, try_except, bind at 1.
  destruct (_extract_intent request st) as [[intent | e] st1].
  - destruct (route (nested_call depth) intent st1) as [[r | e] st2] eqn:E.
    + exists r, st2. split; [reflexivity|].
      eapply route_result_shape. exact E.
    + eexists. eexists. split; [reflexivity | constructor].
  - eexists. eexists. split; [reflexivity | constructor].
Qed.

End Shapes.

(* ================================================================== *)
(** ** More on the multi-service planner *)

Section PlannerMore.

Context {R : Runtime}.

(** X13. An empty decomposition (the JSON object [{}]) gives the bundle
    with status "success" and no sub-result, at every stack depth; no
    nested call is made. *)
Theorem empty_decomposition_is_an_empty_bundle :
  forall (self_process : string -> M pyval) (intent details : pyval)
         (st st1 : state) (breakdown : string),
    py_get intent "details" (PStr "") = Return details ->
    generate_response (breakdown_prompt details)
      (Some "You are a workflow decomposition assistant.") st
    = (Return breakdown, st1) ->
    json_loads breakdown = Parsed (PDict []) ->
    _handle_multi_service_request self_process intent st
    = (Return (PDict [("status", PStr "success"); ("results", PDict [])]),
       st1).
Proof.
  intros self_process intent details st st1 breakdown Hdetails Hgen Hparsed.
  unfold _handle_multi_service_request, bind, lift, try_except, loads, ret.
  rewrite Hdetails, Hgen, Hparsed. reflexivity.
Qed.

(** X14. A decomposition that parses to anything but an object (a list, a
    string, a number, a boolean, null) gives the error result whose message
    ends with "'T' object has no attribute 'items'", [T] being the Python
    type of the value; no nested call is made. *)
Theorem decomposition_must_be_an_object :
  forall (self_process : string -> M pyval) (intent details actions : pyval)
         (st st1 : state) (breakdown : string),
    py_get intent "details" (PStr "") = Return details ->
    generate_response (breakdown_prompt details)
      (Some "You are a workflow decomposition assistant.") st
    = (Return breakdown, st1) ->
    json_loads breakdown = Parsed actions ->
    is_dict actions = false ->
    _handle_multi_service_request self_process intent st
    = (Return
         (PDict [("status", PStr "error");
                 ("message",
                  PStr ("Multi-service request processing failed: '"
                        ++ type_name actions
                        ++ "' object has no attribute 'items'"))]),
       st1).
Proof.
  intros self_process intent details actions st st1 breakdown
    Hdetails Hgen Hparsed Hnot.
  unfold _handle_multi_service_request, bind, lift, try_except, loads, ret.
  rewrite Hdetails, Hgen, Hparsed.
  destruct actions; try discriminate; reflexivity.
Qed.

Lemma execute_actions_prefix (self_process : string -> M pyval) :
  (forall (request : string) (st : state),
      exists (r : pyval) (st' : state),
        self_process request st = (Return r, st')) ->
  forall (before acc : list (string * pyval)) (st : state),
    forallb is_dict (map snd before) = true ->
    NoDup (map fst acc ++ map fst before) ->
    exists (results : list (string * pyval)) (st' : state),
      fanned_out self_process before st results st'
      /\ forall rest : list (string * pyval),
           execute_actions self_process (before ++ rest) acc st
           = execute_actions self_process rest (acc ++ results) st'.
Proof.
  intros Hreturns.
  induction before as [|[service service_actions] before IH];
    intros acc st Hdicts Hkeys.
  - exists [], st. split; [constructor|].
    intros rest. rewrite app_nil_r. reflexivity.
  - simpl in Hdicts. apply andb_true_iff in Hdicts.
    destruct Hdicts as [Hdict Hrest].
    destruct service_actions as [ | | | | | |d]; try discriminate.
    destruct (Hreturns (json_dumps (service_intent service (PDict d))) st)
      as (r & st1 & Hcall).
    simpl in Hkeys.
    destruct (IH (acc ++ [(service, r)]) st1 Hrest) as (results & st2 & Hfan & Hrun).
    { rewrite map_app. simpl. rewrite <- app_assoc. exact Hkeys. }
    exists ((service, r) :: results), st2. split.
    + econstructor; eassumption.
    + intros rest. simpl. unfold bind at 1. unfold lift at 1. simpl.
      unfold bind at 1. unfold lift at 1. simpl.
      unfold bind at 1.
      unfold service_intent in Hcall. simpl in Hcall. rewrite Hcall.
      rewrite dict_set_fresh.
      * rewrite Hrun. rewrite <- app_assoc. reflexivity.
      * apply NoDup_remove_2 in Hkeys. intros Hin. apply Hkeys.
        apply in_or_app. left. exact Hin.
Qed.

(** X15. There is no rollback.  When the decomposition is an object whose
    first entries have objects as values and whose next entry has not, the
    sub-requests of the first entries are carried out, one nested call
    each, with whatever they do to the outside and to the history; their
    sub-results are then dropped, and the handler returns the error result
    for the entry that is not an object. *)
Theorem failing_entry_drops_earlier_results :
  forall (depth : nat) (intent details : pyval) (st st1 : state)
         (breakdown : string) (before after : list (string * pyval))
         (service : string) (service_actions : pyval),
    py_get intent "details" (PStr "") = Return details ->
    generate_response (breakdown_prompt details)
      (Some "You are a workflow decomposition assistant.") st
    = (Return breakdown, st1) ->
    json_loads breakdown
    = Parsed (PDict (before ++ (service, service_actions) :: after)) ->
    forallb is_dict (map snd before) = true ->
    distinct (map fst before) = true ->
    is_dict service_actions = false ->
    exists (results : list (string * pyval)) (st2 : state),
      fanned_out (process_natural_language_request depth) before st1 results st2
      /\ _handle_multi_service_request (nested_call (S depth)) intent st
         = (Return
              (PDict [("status", PStr "error");
                      ("message",
                       PStr ("Multi-service request processing failed: '"
                             ++ type_name service_actions
                             ++ "' object has no attribute 'get'"))]),
            st2).
Proof.
  intros depth intent details st st1 breakdown before after service
    service_actions Hdetails Hgen Hparsed Hdicts Hkeys Hnot.
  destruct (execute_actions_prefix (process_natural_language_request depth)
              (process_returns depth) before [] st1 Hdicts)
    as (results & st2 & Hfan & Hrun).
  { simpl. apply distinct_NoDup. exact Hkeys. }
  exists results, st2. split; [exact Hfan|].
  unfold _handle_multi_service_request, bind at 1, lift at 1.
  rewrite Hdetails. unfold bind at 1. rewrite Hgen.
  unfold try_except, bind at 1, lift at 1, loads. rewrite Hparsed.
  unfold bind at 1, lift at 1. simpl py_items. cbv iota beta.
  unfold bind at 1. simpl nested_call. rewrite Hrun.
  simpl. unfold bind at 1, lift at 1.
  destruct service_actions; try discriminate; reflexivity.
Qed.

End PlannerMore.

(* ================================================================== *)
(** ** More runs *)

(** [test_context_max_length] again: bound 3, five appends. *)
Lemma history_keeps_most_recent_witness :
  messages
    (add_messages
       [Message "user" "Message 0"; Message "user" "Message 1";
        Message "user" "Message 2"; Message "user" "Message 3";
        Message "user" "Message 4"]
       (new_context 3))
  = [Message "user" "Message 2"; Message "user" "Message 3";
     Message "user" "Message 4"].
Proof.
  apply (proj1 (history_keeps_most_recent (new_context 3)
                  [Message "user" "Message 0"; Message "user" "Message 1";
                   Message "user" "Message 2"; Message "user" "Message 3";
                   Message "user" "Message 4"]
                  ltac:(simpl; lia) ltac:(discriminate))).
Defined.

(** [test_summarize_text]: the model answers "Short summary of long text"
    and [max_length] is 20. *)
Lemma summarize_text_truncates_witness :
  exists (result : string) (st' : state),
    summarize_text (R := Scenario.runtime) "Long text to summarize" 20
      (Scenario.answering "Short summary of long text")
    = (Return result, st')
    /\ String.prefix result "Short summary of long text" = true
    /\ Z.of_nat (String.length result) = 20.
Proof.
  destruct (proj1 (summarize_text_truncates (R := Scenario.runtime)
                     "Long text to summarize" 20
                     (Scenario.answering "Short summary of long text"))
              "Short summary of long text" _ eq_refl)
    as (result & Hrun & Hprefix & Hlength & _).
  exists result. eexists. split; [exact Hrun|]. split; [exact Hprefix|].
  apply Hlength. lia.
Defined.

(** Two earlier turns, a reset, then one call. *)
Lemma reset_context_forgets_witness :
  let st := @State Scenario.runtime
              (Scenario.outside_with [] (Scenario.Say "Test response")
                 Scenario.mock_answers)
              {| messages := [Message "user" "Hello";
                              Message "assistant" "Hi there!"];
                 max_context_length := 10 |}
              [] in
  messages
    (context
       (snd (bind (R := Scenario.runtime) reset_context
               (fun _ => generate_response "Test prompt" None) st)))
  = [Message "user" "Test prompt"; Message "assistant" "Test response"].
Proof.
  intros st.
  apply (proj2 (reset_context_forgets (R := Scenario.runtime)
                  "Test prompt" None st)
           "Test response"
           (snd (bind (R := Scenario.runtime) reset_context
                   (fun _ => generate_response "Test prompt" None) st))).
  - simpl. lia.
  - reflexivity.
Defined.

(** [test_handle_email_request]: the history and the log are untouched. *)
Lemma handlers_leave_context_and_log_witness :
  context (snd (_handle_email_request (R := Scenario.runtime)
                  Scenario.email_intent (Scenario.scripted [])))
  = new_context 10
  /\ log (snd (_handle_email_request (R := Scenario.runtime)
                 Scenario.email_intent (Scenario.scripted [])))
     = [].
Proof.
  apply (handlers_leave_context_and_log (R := Scenario.runtime)
           "email" _ _ Scenario.email_intent (Scenario.scripted [])
           (snd (_handle_email_request (R := Scenario.runtime)
                   Scenario.email_intent (Scenario.scripted [])))
           (fst (_handle_email_request (R := Scenario.runtime)
                   Scenario.email_intent (Scenario.scripted [])))
           (or_introl eq_refl)).
  apply surjective_pairing.
Defined.

(** The partial failure run: three model calls, six turns stored, bound
    10. *)
Lemma request_keeps_history_bounded_witness :
  let st := Scenario.fresh
              (Scenario.outside_with
                 [Scenario.Say (Scenario.dumps Scenario.multi_intent);
                  Scenario.Say (Scenario.dumps Scenario.decomposition)]
                 Scenario.Echo Scenario.calendar_down) 10 in
  let st' := snd (process_natural_language_request (R := Scenario.runtime) 5
                    "Send an email and create a calendar event" st) in
  max_context_length (context st') = 10
  /\ Z.of_nat (List.length (messages (context st'))) <= 10.
Proof.
  intros st st'.
  destruct (request_keeps_history_bounded (R := Scenario.runtime) 5
              "Send an email and create a calendar event" st st'
              (fst (process_natural_language_request (R := Scenario.runtime) 5
                      "Send an email and create a calendar event" st))
              (surjective_pairing _))
    as [Hmax Hlen].
  split; [exact Hmax|].
  rewrite Hmax in Hlen. apply Hlen; simpl; lia.
Defined.

(** The mock of [test_handle_multi_service_request] in front of the entry
    point: the answer is an object without "service". *)
Lemma intent_without_service_is_an_error_witness :
  fst (process_natural_language_request (R := Scenario.runtime) 3
         "Send an email and create a calendar event"
         (Scenario.answering (Scenario.dumps Scenario.decomposition)))
  = Return (PDict [("status", PStr "error"); ("message", PStr "'service'")]).
Proof.
  exact (f_equal fst
           (proj1 (intent_without_service_is_an_error (R := Scenario.runtime) 3
                     "Send an email and create a calendar event"
                     (Scenario.answering (Scenario.dumps Scenario.decomposition))
                     _ Scenario.decomposition (KeyError "service")
                     eq_refl eq_refl))).
Defined.

(** The model names a service the agent does not have. *)
Lemma unsupported_service_is_an_error_witness :
  fst (process_natural_language_request (R := Scenario.runtime) 3
         "Make a slide deck"
         (Scenario.answering
            (Scenario.dumps (PDict [("service", PStr "slides");
                                    ("action", PStr "create")]))))
  = Return (PDict [("status", PStr "error");
                   ("message", PStr "Unsupported service: slides")]).
Proof.
  refine (f_equal fst
            (unsupported_service_is_an_error (R := Scenario.runtime) 3
               "Make a slide deck"
               (Scenario.answering
                  (Scenario.dumps (PDict [("service", PStr "slides");
                                          ("action", PStr "create")])))
               _ (PDict [("service", PStr "slides"); ("action", PStr "create")])
               (PStr "slides") eq_refl eq_refl _)).
  intros name Hin. simpl in Hin.
  repeat (destruct Hin as [Hin | Hin]; [subst name; discriminate | ]).
  contradiction.
Defined.

(** The model is unreachable. *)
Lemma model_failure_is_an_error_witness :
  fst (process_natural_language_request (R := Scenario.runtime) 3
         "Send an email to test@example.com"
         (Scenario.scripted
            [Scenario.Fail (Exn "APIConnectionError" "Connection error.")]))
  = Return (PDict [("status", PStr "error");
                   ("message", PStr "Connection error.")]).
Proof.
  exact (f_equal fst
           (model_failure_is_an_error (R := Scenario.runtime) 3
              "Send an email to test@example.com"
              (Scenario.scripted
                 [Scenario.Fail (Exn "APIConnectionError" "Connection error.")])
              (Exn "APIConnectionError" "Connection error.") _ eq_refl)).
Defined.

(** The model answers everything with "Invalid JSON"; and the model
    answers everything with 2000 opening brackets. *)
Lemma unparseable_answers_end_in_decomposition_error_witness :
  fst (process_natural_language_request (R := Scenario.runtime) 3
         "Complex request" (Scenario.answering "Invalid JSON"))
  = Return
      (PDict [("status", PStr "error");
              ("message",
               PStr "Multi-service request processing failed: Expecting value: line 1 column 1 (char 0)")])
  /\ fst (process_natural_language_request (R := Scenario.runtime) 3
            "Complex request"
            (Scenario.answering (Scenario.times "[" 2000)))
     = Return
         (PDict [("status", PStr "error");
                 ("message",
                  PStr "maximum recursion depth exceeded while decoding a JSON array from a unicode string")]).
Proof.
  split.
  - exact (f_equal fst
             (proj1
                (proj1
                   (unparseable_answers_end_in_decomposition_error
                      (R := Scenario.runtime) 3 "Complex request"
                      (Scenario.answering "Invalid JSON") _ "Invalid JSON"
                      eq_refl)
                   "Expecting value: line 1 column 1 (char 0)" "Invalid JSON" _
                   eq_refl eq_refl)
                "Expecting value: line 1 column 1 (char 0)" eq_refl)).
  - exact (f_equal fst
             (proj2
                (unparseable_answers_end_in_decomposition_error
                   (R := Scenario.runtime) 3 "Complex request"
                   (Scenario.answering (Scenario.times "[" 2000)) _
                   (Scenario.times "[" 2000) eq_refl)
                (Exn "RecursionError"
                   "maximum recursion depth exceeded while decoding a JSON array from a unicode string")
                eq_refl)).
Defined.

(** The model classifies the request as multi-service and is unreachable
    when asked for the decomposition. *)
Lemma decomposition_model_failure_is_a_plain_error_witness :
  fst (process_natural_language_request (R := Scenario.runtime) 3
         "Send an email and create a calendar event"
         (Scenario.scripted
            [Scenario.Say (Scenario.dumps Scenario.multi_intent);
             Scenario.Fail (Exn "APIConnectionError" "Connection error.")]))
  = Return (PDict [("status", PStr "error");
                   ("message", PStr "Connection error.")]).
Proof.
  exact (f_equal fst
           (proj2 (decomposition_model_failure_is_a_plain_error
                     (R := Scenario.runtime) 3
                     "Send an email and create a calendar event"
                     (Scenario.scripted
                        [Scenario.Say (Scenario.dumps Scenario.multi_intent);
                         Scenario.Fail
                           (Exn "APIConnectionError" "Connection error.")])
                     _ _ Scenario.multi_intent
                     (PStr "Send an email and create a calendar event")
                     (Exn "APIConnectionError" "Connection error.")
                     eq_refl eq_refl eq_refl eq_refl))).
Defined.

(** An email to send whose details are a sentence. *)
Lemma details_must_be_an_object_witness :
  let intent := PDict [("service", PStr "email");
                       ("action", PStr "send");
                       ("details", PStr "say hello to the team")] in
  _handle_email_request (R := Scenario.runtime) intent (Scenario.scripted [])
  = (Raise (AttributeError "'str' object has no attribute 'get'"),
     Scenario.scripted []).
Proof.
  intros intent.
  exact (details_must_be_an_object (R := Scenario.runtime)
           "email" _ _ "send" GmailCreateItem _
           intent (PStr "say hello to the team") (Scenario.scripted [])
           (or_introl eq_refl) (or_introl eq_refl)
           eq_refl eq_refl eq_refl).
Defined.

(** The model answers the decomposition request with [{}]. *)
Lemma empty_decomposition_is_an_empty_bundle_witness :
  fst (_handle_multi_service_request (R := Scenario.runtime) (nested_call 0)
         Scenario.multi_intent
         (Scenario.answering (Scenario.dumps (PDict []))))
  = Return (PDict [("status", PStr "success"); ("results", PDict [])]).
Proof.
  exact (f_equal fst
           (empty_decomposition_is_an_empty_bundle (R := Scenario.runtime)
              (nested_call 0) Scenario.multi_intent
              (PStr "Send an email and create a calendar event")
              (Scenario.answering (Scenario.dumps (PDict []))) _
              (Scenario.dumps (PDict []))
              eq_refl eq_refl eq_refl)).
Defined.

(** The model answers the decomposition request with a list. *)
Lemma decomposition_must_be_an_object_witness :
  fst (_handle_multi_service_request (R := Scenario.runtime) (nested_call 3)
         Scenario.multi_intent
         (Scenario.answering
            (Scenario.dumps (PList [PStr "send an email"]))))
  = Return
      (PDict [("status", PStr "error");
              ("message",
               PStr "Multi-service request processing failed: 'list' object has no attribute 'items'")]).
Proof.
  exact (f_equal fst
           (decomposition_must_be_an_object (R := Scenario.runtime)
              (nested_call 3) Scenario.multi_intent
              (PStr "Send an email and create a calendar event")
              (PList [PStr "send an email"])
              (Scenario.answering
                 (Scenario.dumps (PList [PStr "send an email"]))) _
              (Scenario.dumps (PList [PStr "send an email"]))
              eq_refl eq_refl eq_refl eq_refl)).
Defined.

(** The mail is sent, then the calendar entry of the decomposition turns
    out to be a list: the bundle is an error, and the mail client was
    called. *)
Lemma failing_entry_drops_earlier_results_witness :
  let answer :=
    PDict [("email",
            PDict [("action", PStr "send");
                   ("details", Scenario.email_details)]);
           ("calendar", PList [PStr "create"])] in
  let st := Scenario.scripted [Scenario.Say (Scenario.dumps answer)] in
  (exists (results : list (string * pyval)) (st2 : state),
      fanned_out (process_natural_language_request (R := Scenario.runtime) 4)
        [("email",
          PDict [("action", PStr "send");
                 ("details", Scenario.email_details)])]
        (snd (generate_response (R := Scenario.runtime)
                (breakdown_prompt (R := Scenario.runtime)
                   (PStr "Send an email and create a calendar event"))
                (Some "You are a workflow decomposition assistant.") st))
        results st2
      /\ _handle_multi_service_request (R := Scenario.runtime) (nested_call 5)
           Scenario.multi_intent st
         = (Return
              (PDict [("status", PStr "error");
                      ("message",
                       PStr "Multi-service request processing failed: 'list' object has no attribute 'get'")]),
            st2))
  /\ map fst
       (Scenario.calls
          (world (snd (_handle_multi_service_request (R := Scenario.runtime)
                         (nested_call 5) Scenario.multi_intent st))))
     = [GmailCreateItem].
Proof.
  intros answer st. split; [|vm_compute; reflexivity].
  exact (failing_entry_drops_earlier_results (R := Scenario.runtime) 4
           Scenario.multi_intent
           (PStr "Send an email and create a calendar event")
           st _ (Scenario.dumps answer)
           [("email",
             PDict [("action", PStr "send");
                    ("details", Scenario.email_details)])]
           [] "calendar" (PList [PStr "create"])
           eq_refl eq_refl eq_refl eq_refl eq_refl eq_refl).
Defined.

(* ================================================================== *)
(** ** The service clients: errors *)

Section ClientErrors.

Context {P : Platform}.

Lemma handle_api_error_run {A : Type} (h : http_error) (st : client_state) :
  handle_api_error (A := A) h st
  = (Failed (Http h),
     {| outside := outside st;
        client_log := client_log st ++ error_lines h |}).
Proof.
  unfold handle_api_error, andthen, write_log, fail, done, error_lines.
  simpl. destruct (status h =? 403); simpl.
  - rewrite <- app_assoc. reflexivity.
  - destruct (status h =? 404); simpl.
    + rewrite <- app_assoc. reflexivity.
    + reflexivity.
Qed.

(** A method body under [except HttpError]: what the body returns or
    raises otherwise goes through; an [HttpError] is logged and raised
    again. *)
Lemma except_http_run {A : Type} (body : Client A) (st : client_state) :
  except_http body handle_api_error st
  = match body st with
    | (Failed (Http h), st') =>
        (Failed (Http h),
         {| outside := outside st';
            client_log := client_log st' ++ error_lines h |})
    | r => r
    end.
Proof.
  unfold except_http.
  destruct (body st) as [[a | [h | e]] st']; try reflexivity.
  apply handle_api_error_run.
Qed.

Lemma except_http_escapes {A : Type} (body : Client A)
  (st st' : client_state) (h : http_error) :
  except_http body handle_api_error st = (Failed (Http h), st') ->
  exists earlier : list log_line, client_log st' = earlier ++ error_lines h.
Proof.
  rewrite except_http_run.
  destruct (body st) as [[a | [h' | e]] st1]; intros H; inversion H; subst.
  eexists. reflexivity.
Qed.

Lemma argument_then_escapes (kwargs : list (string * pyval))
  (method name : string) (default : option pyval)
  (k : pyval -> Client pyval) (st st' : client_state) (h : http_error) :
  andthen (argument kwargs method name default) k st = (Failed (Http h), st') ->
  exists v : pyval, k v st = (Failed (Http h), st').
Proof.
  unfold andthen, argument, done, fail.
  destruct (dict_lookup kwargs name) as [v |]; [|destruct default as [d |]];
    intros H.
  - exists v. exact H.
  - exists d. exact H.
  - discriminate.
Qed.

(** X16. No [HttpError] leaves a client method unlogged: when a method
    called by a handler raises an [HttpError], the last lines of the
    client log are those of [handle_api_error] for that very error: the
    "Google API Error" line with its status and reason, followed by the
    warning for a status 403 or 404. *)
Theorem http_errors_are_logged :
  forall (op : client_op) (kwargs : list (string * pyval))
         (st st' : client_state) (h : http_error),
    client_method op kwargs st = (Failed (Http h), st') ->
    exists earlier : list log_line,
      client_log st' = earlier ++ error_lines h.
Proof.
  intros op kwargs st st' h H.
  destruct op; unfold client_method in H;
    repeat (apply argument_then_escapes in H; destruct H as [? H]);
    eapply except_http_escapes; exact H.
Qed.

End ClientErrors.

(* ================================================================== *)
(** ** The service clients: requests and results *)

Section ClientRequests.

Context {P : Platform}.



Lemma docs_get_item_run (document_id : pyval) (st : client_state) :
  docs_get_item document_id st
  = match execute (ApiRequest "docs" "documents.get"
                     [("documentId", document_id)]) (outside st) with
    | (Done document, o) =>
        (Done document, {| outside := o; client_log := client_log st |})
    | (Failed (Http h), o) =>
        (Failed (Http h),
         {| outside := o; client_log := client_log st ++ error_lines h |})
    | (Failed (Other e), o) =>
        (Failed (Other e), {| outside := o; client_log := client_log st |})
    end.
Proof.
  unfold docs_get_item. rewrite except_http_run. unfold run.
  destruct (execute _ (outside st)) as [[document | [h | e]] o]; reflexivity.
Qed.

Lemma last_characters (s t : string) :
  exists u : string, last (characters s) (PStr t) = PStr u.
Proof.
  revert t. induction s as [|c s IH]; intros t; simpl.
  - exists t. reflexivity.
  - destruct (characters s) as [|x l] eqn:E.
    + eexists. reflexivity.
    + apply IH.
Qed.

Lemma get_document_length_run (document_id : pyval) (st : client_state) :
  _get_document_length document_id st
  = match execute (ApiRequest "docs" "documents.get"
                     [("documentId", document_id)]) (outside st) with
    | (Done document, o) =>
        (Done (end_index_of document),
         {| outside := o; client_log := client_log st |})
    | (Failed (Http h), o) =>
        (Done (PInt 1),
         {| outside := o; client_log := client_log st ++ error_lines h |})
    | (Failed (Other e), o) =>
        (Done (PInt 1), {| outside := o; client_log := client_log st |})
    end.
Proof.
  unfold _get_document_length, except_any, andthen at 1.
  rewrite docs_get_item_run.
  destruct (execute _ (outside st)) as [[document | [h | e]] o];
    try reflexivity.
  unfold andthen, of_outcome, done, end_index_of.
  destruct document as [ | | | | | |d]; try reflexivity.
  simpl.
  destruct (dict_lookup d "body") as [[ | | | | | |body] |]; try reflexivity.
  simpl.
  destruct (dict_lookup body "content") as [[ | | | |s|l|c] |];
    try reflexivity.
  - destruct s; simpl; [reflexivity|].
    destruct (last_characters s (String a EmptyString)) as [u Hu].
    rewrite Hu. reflexivity.
  - destruct l as [|x l]; simpl; [reflexivity|].
    destruct (last l x) as [ | | | | | |element]; try reflexivity.
Qed.

(** X18. [_get_document_length] never raises.  It reads the document
    once and returns the [endIndex] of the last element of its
    [body.content]; it returns 1 when the content is empty, when a key on
    the way is missing or holds the wrong kind of value, and when reading
    the document fails (an [HttpError] has then been logged by
    [get_item]). *)
Theorem document_length_is_total :
  forall (document_id : pyval) (st : client_state),
    (exists (n : pyval) (st' : client_state),
        _get_document_length document_id st = (Done n, st'))
    /\ (forall (document : pyval) (o : Outside),
           execute (ApiRequest "docs" "documents.get"
                      [("documentId", document_id)]) (outside st)
           = (Done document, o) ->
           _get_document_length document_id st
           = (Done (end_index_of document),
              {| outside := o; client_log := client_log st |}))
    /\ (forall (f : failure) (o : Outside),
           execute (ApiRequest "docs" "documents.get"
                      [("documentId", document_id)]) (outside st)
           = (Failed f, o) ->
           exists st' : client_state,
             _get_document_length document_id st = (Done (PInt 1), st')
             /\ outside st' = o)
    /\ (forall (body : list (string * pyval)) (l : list pyval)
               (element : list (string * pyval)) (n : pyval),
           dict_lookup body "content"
           = Some (PList (l ++ [PDict element])) ->
           dict_lookup element "endIndex" = Some n ->
           end_index_of (PDict [("body", PDict body)]) = n)
    /\ end_index_of (PDict [("body", PDict [("content", PList [])])]) = PInt 1
    /\ end_index_of (PDict []) = PInt 1.
Proof.
  intros document_id st. repeat split.
  - rewrite get_document_length_run.
    destruct (execute _ (outside st)) as [[document | [h | e]] o];
      eexists; eexists; reflexivity.
  - intros document o H. rewrite get_document_length_run, H. reflexivity.
  - intros f o H. rewrite get_document_length_run, H.
    destruct f; eexists; split; reflexivity.
  - intros body l element n Hcontent Hend.
    unfold end_index_of. simpl. rewrite Hcontent.
    destruct l as [|x l]; simpl.
    + rewrite Hend. reflexivity.
    + rewrite last_last. rewrite Hend. reflexivity.
Qed.

(** X19. [append_text] takes the position from [index] only when it is
    truthy: then it sends the one insert request at that index and does
    not read the document.  With [index] [None] or 0 it reads the document
    and inserts at its length; an index of 0 is not honoured. *)
Theorem append_text_position :
  forall (document_id text index : pyval) (st : client_state),
    (py_truthy index = true ->
     forall (response : pyval) (o : Outside),
       execute
         (ApiRequest "docs" "documents.batchUpdate"
            [("documentId", document_id);
             ("body", PDict [("requests", PList [insert_text index text])])])
         (outside st)
       = (Done response, o) ->
       docs_append_text document_id text index st
       = (Done response, {| outside := o; client_log := client_log st |}))
    /\ (py_truthy index = false ->
        docs_append_text document_id text index st
        = docs_append_text document_id text PNone st)
    /\ (py_truthy index = false ->
        forall (document response : pyval) (o1 o2 : Outside),
          execute (ApiRequest "docs" "documents.get"
                     [("documentId", document_id)]) (outside st)
          = (Done document, o1) ->
          execute
            (ApiRequest "docs" "documents.batchUpdate"
               [("documentId", document_id);
                ("body",
                 PDict [("requests",
                         PList [insert_text (end_index_of document) text])])])
            o1
          = (Done response, o2) ->
          docs_append_text document_id text index st
          = (Done response, {| outside := o2; client_log := client_log st |})).
Proof.
  intros document_id text index st. repeat split.
  - intros Htruthy response o H.
    unfold docs_append_text. rewrite except_http_run.
    unfold andthen. rewrite Htruthy. unfold done, run, insert_text in *.
    simpl. rewrite H. reflexivity.
  - intros Hfalsy. unfold docs_append_text. rewrite !except_http_run.
    unfold andthen. rewrite Hfalsy. reflexivity.
  - intros Hfalsy document response o1 o2 Hget Hbatch.
    unfold docs_append_text. rewrite except_http_run.
    unfold andthen. rewrite Hfalsy.
    rewrite get_document_length_run, Hget.
    unfold run, insert_text in *. simpl. rewrite Hbatch. reflexivity.
Qed.

End ClientRequests.

(* ================================================================== *)
(** ** The service clients: what the requests are made of *)

Section ClientBodies.

Context {P : Platform}.

Lemma insert_requests_of_objects (items requests : list pyval) :
  forallb is_dict items = true ->
  insert_requests items requests
  = Return (requests
            ++ map (fun item =>
                      insert_text (PInt 1)
                        (match py_get item "text" (PStr "") with
                         | Return text => text
                         | Raise _ => PStr ""
                         end))
                   items).
Proof.
  revert requests. induction items as [|item items IH]; intros requests H.
  - simpl. rewrite app_nil_r. reflexivity.
  - simpl in H. apply andb_true_iff in H. destruct H as [Hitem Hrest].
    destruct item; try discriminate. simpl.
    rewrite IH by exact Hrest. rewrite <- app_assoc. reflexivity.
Qed.

(** X20. [DocsClient.create_item] creates the document first.  Without
    content that is all.  With a list of objects as content it then sends
    one [batchUpdate] to the new document with one insert request per
    item, each at index 1 and with the item's "text" (the empty string
    when it has none), and returns the created document, not the answer
    to the update; when the update is refused the error is logged and
    raised, and the document stays created. *)
Theorem docs_create_item_requests :
  forall (title : pyval) (st : client_state) (document : pyval) (o : Outside),
    execute (ApiRequest "docs" "documents.create"
               [("body", PDict [("title", title)])]) (outside st)
    = (Done document, o) ->
    (forall content : pyval,
        py_truthy content = false ->
        docs_create_item title content st
        = (Done document, {| outside := o; client_log := client_log st |}))
    /\ (forall (item : pyval) (items : list pyval) (document_id : pyval)
               (r : answer pyval) (o2 : Outside),
           forallb is_dict (item :: items) = true ->
           py_getitem document "documentId" = Return document_id ->
           execute
             (ApiRequest "docs" "documents.batchUpdate"
                [("documentId", document_id);
                 ("body",
                  PDict [("requests",
                          PList (map (fun item =>
                                        insert_text (PInt 1)
                                          (match py_get item "text" (PStr "") with
                                           | Return text => text
                                           | Raise _ => PStr ""
                                           end))
                                     (item :: items)))])])
             o
           = (r, o2) ->
           docs_create_item title (PList (item :: items)) st
           = match r with
             | Done _ =>
                 (Done document,
                  {| outside := o2; client_log := client_log st |})
             | Failed (Http h) =>
                 (Failed (Http h),
                  {| outside := o2;
                     client_log := client_log st ++ error_lines h |})
             | Failed (Other e) =>
                 (Failed (Other e),
                  {| outside := o2; client_log := client_log st |})
             end).
Proof.
  intros title st document o Hcreate. split.
  - intros content Hfalsy. unfold docs_create_item.
    rewrite except_http_run. unfold andthen, run, done.
    rewrite Hcreate, Hfalsy. reflexivity.
  - intros item items document_id r o2 Hdicts Hid Hbatch.
    unfold docs_create_item. rewrite except_http_run.
    unfold andthen at 1. unfold run at 1. rewrite Hcreate.
    unfold andthen at 1.
    change (py_truthy (PList (item :: items))) with true. cbv iota.
    unfold andthen at 1. unfold of_outcome at 1. simpl py_iter. cbv iota.
    unfold andthen at 1.
    rewrite (insert_requests_of_objects (item :: items) [] Hdicts).
    unfold of_outcome at 1. cbv iota. simpl app.
    unfold andthen at 1. rewrite Hid. unfold of_outcome at 1. cbv iota.
    unfold andthen at 1. unfold run. simpl outside.
    simpl map in Hbatch. rewrite Hbatch.
    destruct r as [v | [h | e]]; reflexivity.
Qed.

(** X21. [CalendarClient.create_item] sends one insert request to the
    primary calendar.  The event has the summary, a start and an end: the
    given time as "dateTime" when it is truthy, otherwise the date of
    today (for the end: of one hour from now) as "date".  The description
    is added only when truthy; attendees, when a non-empty list, are added
    as one [{'email': a}] per entry; attendees that are truthy and cannot
    be iterated fail the call before any request is sent. *)
Theorem calendar_create_item_request :
  forall (summary start_time end_time description : pyval)
         (st : client_state),
    let start :=
      if py_truthy start_time then PDict [("dateTime", start_time)]
      else PDict [("date", PStr (today_after 0 (outside st)))] in
    let finish :=
      if py_truthy end_time then PDict [("dateTime", end_time)]
      else PDict [("date", PStr (today_after 1 (outside st)))] in
    let event_data :=
      [("summary", summary); ("start", start); ("end", finish)]
      ++ (if py_truthy description then [("description", description)]
          else []) in
    (forall (attendees event : pyval) (o : Outside),
        py_truthy attendees = false ->
        execute (ApiRequest "calendar" "events.insert"
                   [("calendarId", PStr "primary");
                    ("body", PDict event_data)]) (outside st)
        = (Done event, o) ->
        calendar_create_item summary start_time end_time description
          attendees st
        = (Done event, {| outside := o; client_log := client_log st |}))
    /\ (forall (email : pyval) (emails : list pyval) (event : pyval)
               (o : Outside),
           execute
             (ApiRequest "calendar" "events.insert"
                [("calendarId", PStr "primary");
                 ("body",
                  PDict (event_data
                         ++ [("attendees",
                              PList (map (fun a => PDict [("email", a)])
                                         (email :: emails)))]))])
             (outside st)
           = (Done event, o) ->
           calendar_create_item summary start_time end_time description
             (PList (email :: emails)) st
           = (Done event, {| outside := o; client_log := client_log st |}))
    /\ (forall (attendees : pyval) (e : exn),
           py_truthy attendees = true ->
           py_iter attendees = Raise e ->
           calendar_create_item summary start_time end_time description
             attendees st
           = (Failed (Other e), st)).
Proof.
  intros summary start_time end_time description st start finish event_data.
  subst start finish event_data.
  repeat split.
  - intros attendees event o Hfalsy Hrun.
    unfold calendar_create_item. rewrite except_http_run.
    unfold andthen, date_after, done, run, set_if.
    rewrite Hfalsy.
    destruct (py_truthy start_time), (py_truthy end_time),
      (py_truthy description); simpl in *; rewrite Hrun; reflexivity.
  - intros email emails event o Hrun.
    unfold calendar_create_item. rewrite except_http_run.
    unfold andthen, date_after, done, run, set_if, of_outcome.
    destruct (py_truthy start_time), (py_truthy end_time),
      (py_truthy description); simpl in *; rewrite Hrun; reflexivity.
  - intros attendees e Htruthy Hiter.
    unfold calendar_create_item. rewrite except_http_run.
    unfold andthen, date_after, done, run, set_if, of_outcome.
    rewrite Htruthy, Hiter.
    destruct (py_truthy start_time), (py_truthy end_time),
      (py_truthy description); destruct st; reflexivity.
Qed.

(** X22. [SheetsClient.create_item] sends one create request whose body
    holds the title under "properties" and, when [sheets] is a non-empty
    list, every sheet configuration wrapped as [{'properties': sheet}], in
    order; a falsy [sheets] ([None], the empty list) adds nothing. *)
Theorem sheets_create_item_request :
  forall (title : pyval) (st : client_state),
    (forall (sheets spreadsheet : pyval) (o : Outside),
        py_truthy sheets = false ->
        execute (ApiRequest "sheets" "spreadsheets.create"
                   [("body",
                     PDict [("properties", PDict [("title", title)])])])
          (outside st)
        = (Done spreadsheet, o) ->
        sheets_create_item title sheets st
        = (Done spreadsheet, {| outside := o; client_log := client_log st |}))
    /\ (forall (sheet : pyval) (sheets : list pyval) (spreadsheet : pyval)
               (o : Outside),
           execute
             (ApiRequest "sheets" "spreadsheets.create"
                [("body",
                  PDict [("properties", PDict [("title", title)]);
                         ("sheets",
                          PList (map (fun s => PDict [("properties", s)])
                                     (sheet :: sheets)))])])
             (outside st)
           = (Done spreadsheet, o) ->
           sheets_create_item title (PList (sheet :: sheets)) st
           = (Done spreadsheet,
              {| outside := o; client_log := client_log st |})).
Proof.
  intros title st. split.
  - intros sheets spreadsheet o Hfalsy Hrun.
    unfold sheets_create_item. rewrite except_http_run.
    unfold andthen, done, run. rewrite Hfalsy. simpl. rewrite Hrun.
    reflexivity.
  - intros sheet sheets spreadsheet o Hrun.
    unfold sheets_create_item. rewrite except_http_run.
    unfold andthen, done, run, of_outcome. simpl in *. rewrite Hrun.
    reflexivity.
Qed.

End ClientBodies.

(* ================================================================== *)
(** ** The agent on its clients *)

Section AgentOnPlatform.

Context {P : Platform}.

Lemma route_raises_on_platform (depth : nat) (request : string)
  (st st1 st2 : @state platform_runtime) (intent : pyval) (e : exn)
  service h actions :
  In (service, h, actions) (handlers (R := platform_runtime)) ->
  _extract_intent (R := platform_runtime) request st = (Return intent, st1) ->
  py_getitem intent "service" = Return (PStr service) ->
  h intent st1 = (Raise e, st2) ->
  process_natural_language_request (R := platform_runtime) depth request st
  = (Return (PDict [("status", PStr "error"); ("message", PStr (exn_str e))]),
     {| world := world st2; context := context st2;
        log := log st2 ++ [("Error processing request: " ++ exn_str e)%string] |}).
Proof.
  intros Hh Hextract Hservice Hrun.
  rewrite process_unfold.
  apply (process_request_route_raises _ request st st1 st2 intent e Hextract).
  rewrite (route_dispatch (nested_call depth) service h); [exact Hrun | | exact Hservice].
  unfold dispatch_table. apply in_or_app. left.
  apply (in_map (fun entry => (fst (fst entry), snd (fst entry)))
           handlers (service, h, actions) Hh).
Qed.

(** X23. An upload without a name cannot succeed.  [upload_file] with a
    falsy [name] ([None], the empty string) raises [NameError] before it
    opens the file or sends anything, for want of [import os] in the
    module.  Through the agent: a drive intent with the action "upload"
    whose details have no truthy "name" gets the error result
    "name 'os' is not defined", and the outside is left as the extraction
    left it. *)
Theorem upload_without_name_fails :
  (forall (local_path name mime_type parent_id : pyval) (st : client_state),
      py_truthy name = false ->
      drive_upload_file local_path name mime_type parent_id st
      = (Failed (Other (Exn "NameError" "name 'os' is not defined")), st))
  /\ (forall (depth : nat) (request : string)
             (st st1 : @state platform_runtime)
             (intent : pyval) (details : list (string * pyval)),
         _extract_intent (R := platform_runtime) request st
         = (Return intent, st1) ->
         py_getitem intent "service" = Return (PStr "drive") ->
         py_get intent "action" (PStr "") = Return (PStr "upload") ->
         py_get intent "details" (PDict []) = Return (PDict details) ->
         py_truthy (match dict_lookup details "name" with
                    | Some name => name
                    | None => PNone
                    end) = false ->
         process_natural_language_request (R := platform_runtime)
           depth request st
         = (Return (PDict [("status", PStr "error");
                           ("message", PStr "name 'os' is not defined")]),
            {| world := world st1; context := context st1;
               log := log st1
                      ++ ["Error processing request: name 'os' is not defined"] |})).
Proof.
  assert (Hclient :
    forall (local_path name mime_type parent_id : pyval) (st : client_state),
      py_truthy name = false ->
      drive_upload_file local_path name mime_type parent_id st
      = (Failed (Other (Exn "NameError" "name 'os' is not defined")), st)).
  { intros local_path name mime_type parent_id st Hfalsy.
    unfold drive_upload_file. rewrite except_http_run.
    unfold andthen, fail. rewrite Hfalsy. reflexivity. }
  split; [exact Hclient|].
  intros depth request st st1 intent details
    Hextract Hservice Haction Hdetails Hfalsy.
  apply (route_raises_on_platform depth request st st1
           {| world := world st1; context := context st1; log := log st1 |}
           intent (Exn "NameError" "name 'os' is not defined")
           "drive" _ _
           (or_intror (or_intror (or_introl eq_refl)))
           Hextract Hservice).
  apply (handler_client_raises (R := platform_runtime) "drive" _ _
           (or_intror (or_intror (or_introl eq_refl)))
           "upload" DriveUploadFile _ (or_introl eq_refl)
           intent details st1 _ (world st1) Haction Hdetails).
  unfold kwargs_of. simpl.
  unfold client_method, andthen, argument, done. simpl.
  rewrite (Hclient _ _ _ _ _ Hfalsy). reflexivity.
Qed.

(** X24. Reading mail, from the intent to the API and back.  For an
    email intent with the action "read", the Gmail API receives one list
    request for the user "me" with "maxResults" taken from the details (10
    when absent) and with "q" only when the details hold a truthy "query";
    the handler returns status "success" with the "messages" of the
    answer, or the empty list when the answer holds none. *)
Theorem reading_mail_end_to_end :
  forall (intent : pyval) (details results : list (string * pyval))
         (st : @state platform_runtime) (o : Outside),
    py_get intent "action" (PStr "") = Return (PStr "read") ->
    py_get intent "details" (PDict []) = Return (PDict details) ->
    let max_results :=
      match dict_lookup details "max_results" with
      | Some n => n
      | None => PInt 10
      end in
    let query :=
      match dict_lookup details "query" with
      | Some q => q
      | None => PNone
      end in
    execute
      (ApiRequest "gmail" "users.messages.list"
         ([("userId", PStr "me"); ("maxResults", max_results)]
          ++ (if py_truthy query then [("q", query)] else [])))
      (outside (world st))
    = (Done (PDict results), o) ->
    _handle_email_request (R := platform_runtime) intent st
    = (Return
         (PDict [("status", PStr "success");
                 ("result",
                  match dict_lookup results "messages" with
                  | Some found => found
                  | None => PList []
                  end)]),
       @State platform_runtime
         {| outside := o; client_log := client_log (world st) |}
         (context st) (log st)).
Proof.
  intros intent details results st o Haction Hdetails max_results query Hrun.
  apply (handler_known_action (R := platform_runtime) "email" _ _
           (or_introl eq_refl)
           "read" GmailListItems _ (or_intror (or_introl eq_refl))
           intent details st _ _ Haction Hdetails).
  unfold kwargs_of. simpl.
  unfold client_method, andthen, argument, done. simpl.
  unfold gmail_list_items. rewrite except_http_run.
  unfold andthen, run, of_outcome, set_if. simpl.
  fold query. fold max_results.
  destruct (py_truthy query); simpl in *; rewrite Hrun; reflexivity.
Qed.

(** X25. A refused request, from the API to the caller.  When sending a
    mail is refused with an [HttpError], the client logs the error (with
    the warning for a status 403 or 404), the handler lets it through,
    and the entry point returns the error result carrying [str] of the
    error. *)
Theorem refused_mail_end_to_end :
  forall (depth : nat) (request : string) (st st1 : @state platform_runtime)
         (intent : pyval) (details : list (string * pyval))
         (raw : pyval) (h : http_error) (o : Outside),
    _extract_intent (R := platform_runtime) request st = (Return intent, st1) ->
    py_getitem intent "service" = Return (PStr "email") ->
    py_get intent "action" (PStr "") = Return (PStr "send") ->
    py_get intent "details" (PDict []) = Return (PDict details) ->
    encode_email
      (match dict_lookup details "to" with Some x => x | None => PStr "" end)
      (match dict_lookup details "subject" with Some x => x | None => PStr "" end)
      (match dict_lookup details "body" with Some x => x | None => PStr "" end)
      None
    = Return raw ->
    execute
      (ApiRequest "gmail" "users.messages.send"
         [("userId", PStr "me"); ("body", PDict [("raw", raw)])])
      (outside (world st1))
    = (Failed (Http h), o) ->
    process_natural_language_request (R := platform_runtime) depth request st
    = (Return (PDict [("status", PStr "error");
                      ("message", PStr (http_text h))]),
       @State platform_runtime
         {| outside := o;
            client_log := client_log (world st1) ++ error_lines h |}
         (context st1)
         (log st1 ++ [("Error processing request: " ++ http_text h)%string])).
Proof.
  intros depth request st st1 intent details raw h o
    Hextract Hservice Haction Hdetails Hencode Hrun.
  apply (route_raises_on_platform depth request st st1
           (@State platform_runtime
              {| outside := o;
                 client_log := client_log (world st1) ++ error_lines h |}
              (context st1) (log st1))
           intent (Exn "HttpError" (http_text h))
           "email" _ _ (or_introl eq_refl) Hextract Hservice).
  apply (handler_client_raises (R := platform_runtime) "email" _ _
           (or_introl eq_refl)
           "send" GmailCreateItem _ (or_introl eq_refl)
           intent details st1 _ _ Haction Hdetails).
  unfold kwargs_of. simpl.
  unfold client_method, andthen, argument, done. simpl.
  unfold gmail_create_item. rewrite except_http_run.
  unfold andthen, run, of_outcome. simpl.
  rewrite Hencode. simpl in *. rewrite Hrun. reflexivity.
Qed.

End AgentOnPlatform.

(* ================================================================== *)
(** ** Runs on the platform *)

(** Listing mail on a Google side that refuses everything. *)
Lemma http_errors_are_logged_witness :
  (exists earlier : list log_line,
      client_log
        (snd (client_method (P := Office.platform) GmailListItems
                [("max_results", PInt 10); ("query", PNone)]
                (Office.clients Office.forbidden)))
      = earlier ++ error_lines (P := Office.platform) Office.refusal)
  /\ client_log
       (snd (client_method (P := Office.platform) GmailListItems
               [("max_results", PInt 10); ("query", PNone)]
               (Office.clients Office.forbidden)))
     = [LogError "Google API Error: {'status': 403, 'reason': 'Forbidden', 'error_details': None}";
        LogWarning "Permission denied. Check OAuth scopes."].
Proof.
  split; [|vm_compute; reflexivity].
  apply (http_errors_are_logged (P := Office.platform) GmailListItems
           [("max_results", PInt 10); ("query", PNone)]
           (Office.clients Office.forbidden)
           (snd (client_method (P := Office.platform) GmailListItems
                   [("max_results", PInt 10); ("query", PNone)]
                   (Office.clients Office.forbidden)))
           Office.refusal).
  reflexivity.
Defined.


(** The length of the document of 41 characters. *)
Lemma document_length_is_total_witness :
  fst (_get_document_length (P := Office.platform) (PStr "doc1")
         (Office.clients Office.holding_document))
  = Done (PInt 42).
Proof.
  exact (f_equal fst
           (proj1 (proj2 (document_length_is_total (P := Office.platform)
                            (PStr "doc1")
                            (Office.clients Office.holding_document)))
              Office.document _ eq_refl)).
Defined.

(** Appending at index 0 to the document of 41 characters: the text goes
    to index 42. *)
Lemma append_text_position_witness :
  let st := Office.clients Office.holding_document in
  fst (docs_append_text (P := Office.platform)
         (PStr "doc1") (PStr "Project Objectives") (PInt 0) st)
  = Done (PDict [("documentId", PStr "doc1"); ("replies", PList [])])
  /\ Office.sent
       (outside (snd (docs_append_text (P := Office.platform)
                        (PStr "doc1") (PStr "Project Objectives") (PInt 0) st)))
     = [ApiRequest "docs" "documents.get" [("documentId", PStr "doc1")];
        ApiRequest "docs" "documents.batchUpdate"
          [("documentId", PStr "doc1");
           ("body",
            PDict [("requests",
                    PList [insert_text (PInt 42)
                             (PStr "Project Objectives")])])]].
Proof.
  intros st. split; [|vm_compute; reflexivity].
  exact (f_equal fst
           (proj2 (proj2 (append_text_position (P := Office.platform)
                            (PStr "doc1") (PStr "Project Objectives")
                            (PInt 0) st))
              eq_refl Office.document
              (PDict [("documentId", PStr "doc1"); ("replies", PList [])])
              _ _ eq_refl eq_refl)).
Defined.

(** A document created with one paragraph. *)
Lemma docs_create_item_requests_witness :
  fst (docs_create_item (P := Office.platform) (PStr "Q2 2025 Project Plan")
         (PList [PDict [("text", PStr "Project Objectives")]])
         (Office.clients Office.holding_document))
  = Done Office.document.
Proof.
  exact (f_equal fst
           (proj2 (docs_create_item_requests (P := Office.platform)
                     (PStr "Q2 2025 Project Plan")
                     (Office.clients Office.holding_document)
                     Office.document _ eq_refl)
              (PDict [("text", PStr "Project Objectives")]) []
              (PStr "doc1")
              (Done (PDict [("documentId", PStr "doc1"); ("replies", PList [])]))
              _ eq_refl eq_refl eq_refl)).
Defined.

(** An event with a summary only. *)
Lemma calendar_create_item_request_witness :
  let st := Office.clients (Office.always (PDict [("id", PStr "created_event_id")])) in
  fst (calendar_create_item (P := Office.platform)
         (PStr "Team Meeting") PNone PNone PNone PNone st)
  = Done (PDict [("id", PStr "created_event_id")])
  /\ Office.sent
       (outside (snd (calendar_create_item (P := Office.platform)
                        (PStr "Team Meeting") PNone PNone PNone PNone st)))
     = [ApiRequest "calendar" "events.insert"
          [("calendarId", PStr "primary");
           ("body",
            PDict [("summary", PStr "Team Meeting");
                   ("start", PDict [("date", PStr "2025-03-14")]);
                   ("end", PDict [("date", PStr "2025-03-14")])])]].
Proof.
  intros st. split; [|vm_compute; reflexivity].
  exact (f_equal fst
           (proj1 (calendar_create_item_request (P := Office.platform)
                     (PStr "Team Meeting") PNone PNone PNone st)
              PNone (PDict [("id", PStr "created_event_id")]) _
              eq_refl eq_refl)).
Defined.

(** A spreadsheet with a title only. *)
Lemma sheets_create_item_request_witness :
  fst (sheets_create_item (P := Office.platform)
         (PStr "Q2 2025 Project Tracking") PNone
         (Office.clients (Office.always (PDict [("spreadsheetId", PStr "sheet1")]))))
  = Done (PDict [("spreadsheetId", PStr "sheet1")]).
Proof.
  exact (f_equal fst
           (proj1 (sheets_create_item_request (P := Office.platform)
                     (PStr "Q2 2025 Project Tracking")
                     (Office.clients
                        (Office.always (PDict [("spreadsheetId", PStr "sheet1")]))))
              PNone (PDict [("spreadsheetId", PStr "sheet1")]) _
              eq_refl eq_refl)).
Defined.

(** "Upload report.pdf": the model extracts a drive upload with the path
    only. *)
Lemma upload_without_name_fails_witness :
  let intent := PDict [("service", PStr "drive");
                       ("action", PStr "upload");
                       ("details", PDict [("local_path", PStr "report.pdf")])] in
  let st := Office.agent [Scenario.Say (Scenario.dumps intent)]
              (Office.always (PDict [("id", PStr "file1")])) in
  fst (process_natural_language_request
         (R := platform_runtime (P := Office.platform)) 3
         "Upload report.pdf to my drive" st)
  = Return (PDict [("status", PStr "error");
                   ("message", PStr "name 'os' is not defined")])
  /\ Office.sent
       (outside (world (snd (process_natural_language_request
                               (R := platform_runtime (P := Office.platform)) 3
                               "Upload report.pdf to my drive" st))))
     = [].
Proof.
  intros intent st. split; [|vm_compute; reflexivity].
  exact (f_equal fst
           (proj2 (upload_without_name_fails (P := Office.platform))
              3%nat "Upload report.pdf to my drive" st _ intent
              [("local_path", PStr "report.pdf")]
              eq_refl eq_refl eq_refl eq_refl eq_refl)).
Defined.

(** "Show my mail": an email read with no details. *)
Lemma reading_mail_end_to_end_witness :
  let intent := PDict [("service", PStr "email"); ("action", PStr "read")] in
  let st := Office.agent []
              (Office.always (PDict [("messages", PList [PDict [("id", PStr "m1")]])])) in
  fst (_handle_email_request (R := platform_runtime (P := Office.platform))
         intent st)
  = Return (PDict [("status", PStr "success");
                   ("result", PList [PDict [("id", PStr "m1")]])])
  /\ Office.sent
       (outside (world (snd (_handle_email_request
                               (R := platform_runtime (P := Office.platform))
                               intent st))))
     = [ApiRequest "gmail" "users.messages.list"
          [("userId", PStr "me"); ("maxResults", PInt 10)]].
Proof.
  intros intent st. split; [|vm_compute; reflexivity].
  exact (f_equal fst
           (reading_mail_end_to_end (P := Office.platform) intent []
              [("messages", PList [PDict [("id", PStr "m1")]])] st _
              eq_refl eq_refl eq_refl)).
Defined.

(** [test_handle_email_request] on a Google side that refuses. *)
Lemma refused_mail_end_to_end_witness :
  fst (process_natural_language_request
         (R := platform_runtime (P := Office.platform)) 3
         "Send an email to test@example.com"
         (Office.agent [Scenario.Say (Scenario.dumps Scenario.email_intent)]
            Office.forbidden))
  = Return (PDict [("status", PStr "error");
                   ("message", PStr "<HttpError 403 Forbidden>")]).
Proof.
  exact (f_equal fst
           (refused_mail_end_to_end (P := Office.platform) 3
              "Send an email to test@example.com"
              (Office.agent [Scenario.Say (Scenario.dumps Scenario.email_intent)]
                 Office.forbidden)
              _ Scenario.email_intent
              [("to", PStr "test@example.com");
               ("subject", PStr "Test Subject");
               ("body", PStr "Test Body")]
              (PStr "cmF3IG1lc3NhZ2U=") Office.refusal _
              eq_refl eq_refl eq_refl eq_refl eq_refl eq_refl)).
Defined.

(* ================================================================== *)
(** ** Creating the completion provider *)

Section Creating.

Context {H : Host}.

Ltac open_init :=
  unfold groq_client_init, key_or_environment.

(** X26. [GroqLLMClient.__init__] takes the key from its argument when
    that is a non-empty string and from the environment variable
    GROQ_API_KEY otherwise, an empty argument counting as none.  When
    neither gives a non-empty key it raises [ValueError] and leaves the
    process as it was: no Groq handle is made and logging is not
    configured.  With a key, the Groq handle is made with that key; when
    this raises, the exception leaves the constructor and logging is not
    configured; otherwise logging is configured with the value of
    LOG_LEVEL read then, "INFO" when it is unset, and what this raises
    leaves the constructor too, key or no key.  A client is created only
    when both calls return: it has that key, that handle, the model, and
    an empty history with the bound 10. *)
Theorem groq_client_init_key :
  forall (key : option string) (model : string) (p : Process),
    (key = None \/ key = Some "" ->
     os_getenv "GROQ_API_KEY" p = None \/ os_getenv "GROQ_API_KEY" p = Some "" ->
     groq_client_init key model p
     = (Raise (Exn "ValueError"
                 "Groq API key is required. Set GROQ_API_KEY env var."),
        p))
    /\ (forall k : string,
           k <> "" ->
           key = Some k
           \/ ((key = None \/ key = Some "")
               /\ os_getenv "GROQ_API_KEY" p = Some k) ->
           (forall (e : exn) (p1 : Process),
               Groq k p = (Raise e, p1) ->
               groq_client_init key model p = (Raise e, p1))
           /\ (forall (handle : Handle) (p1 : Process),
                  Groq k p = (Return handle, p1) ->
                  (forall (e : exn) (p2 : Process),
                      logging_basicConfig
                        (os_getenv_or "LOG_LEVEL" "INFO" p1) log_format p1
                      = (Raise e, p2) ->
                      groq_client_init key model p = (Raise e, p2))
                  /\ (forall (u : unit) (p2 : Process),
                         logging_basicConfig
                           (os_getenv_or "LOG_LEVEL" "INFO" p1) log_format p1
                         = (Return u, p2) ->
                         groq_client_init key model p
                         = (Return {| api_key := k;
                                      client_handle := handle;
                                      model_name := model;
                                      client_context := new_context 10 |},
                            p2))))
    /\ (forall (client : groq_client) (p' : Process),
           groq_client_init key model p = (Return client, p') ->
           api_key client <> ""
           /\ (key = Some (api_key client)
               \/ os_getenv "GROQ_API_KEY" p = Some (api_key client))
           /\ model_name client = model
           /\ messages (client_context client) = []
           /\ max_context_length (client_context client) = 10
           /\ exists p1 : Process,
                Groq (api_key client) p = (Return (client_handle client), p1)
                /\ logging_basicConfig
                     (os_getenv_or "LOG_LEVEL" "INFO" p1) log_format p1
                   = (Return tt, p')).
Proof.
  intros key model p. split; [|split].
  - intros Hkey Henv. open_init.
    destruct Hkey as [Hkey | Hkey]; subst key; simpl;
      destruct Henv as [Henv | Henv]; rewrite Henv; reflexivity.
  - intros k Hne Hfrom.
    assert (Hchosen : key_or_environment key p = Some k).
    { unfold key_or_environment.
      destruct Hfrom as [Hkey | [[Hkey | Hkey] Henv]]; subst key.
      - apply String.eqb_neq in Hne. rewrite Hne. reflexivity.
      - exact Henv.
      - simpl. exact Henv. }
    apply String.eqb_neq in Hne. split.
    + intros e p1 Hgroq. unfold groq_client_init.
      rewrite Hchosen, Hne, Hgroq. reflexivity.
    + intros handle p1 Hgroq. split.
      * intros e p2 Hlog. unfold groq_client_init.
        rewrite Hchosen, Hne, Hgroq, Hlog. reflexivity.
      * intros u p2 Hlog. unfold groq_client_init.
        rewrite Hchosen, Hne, Hgroq, Hlog. reflexivity.
  - intros client p' Hrun. unfold groq_client_init in Hrun.
    destruct (key_or_environment key p) as [k |] eqn:Hchosen;
      [|discriminate].
    destruct (String.eqb k "") eqn:Hne; [discriminate|].
    destruct (Groq k p) as [[handle | e] p1] eqn:Hgroq; [|discriminate].
    destruct (logging_basicConfig (os_getenv_or "LOG_LEVEL" "INFO" p1)
                log_format p1) as [[[] | e] p2] eqn:Hlog; [|discriminate].
    inversion Hrun; subst; clear Hrun. simpl.
    split; [apply String.eqb_neq; exact Hne|].
    split.
    { unfold key_or_environment in Hchosen.
      destruct key as [k0 |]; [|right; exact Hchosen].
      destruct (String.eqb k0 ""); [right; exact Hchosen|].
      left. exact Hchosen. }
    repeat (split; [reflexivity|]).
    exists p1. split; [exact Hgroq | exact Hlog].
Qed.

End Creating.

(** [test_initialization]: no argument, GROQ_API_KEY set to
    "test_api_key"; the root logger gets its handler and the level INFO.
    And a key given as argument in a process where LOG_LEVEL is "debug":
    the handle is made, the handler is added, and the constructor
    raises. *)
Lemma groq_client_init_key_witness :
  groq_client_init (H := Machine.host) None "llama2-70b-4096"
    (Machine.started [("GROQ_API_KEY", "test_api_key")])
  = (Return (@GroqClient Machine.host "test_api_key" 0%nat
               "llama2-70b-4096" (new_context 10)),
     {| Machine.environ := [("GROQ_API_KEY", "test_api_key")];
        Machine.root_handlers := [log_format];
        Machine.root_level := 20;
        Machine.created := ["test_api_key"] |})
  /\ groq_client_init (H := Machine.host) (Some "custom_key")
       "llama2-70b-4096" (Machine.started [("LOG_LEVEL", "debug")])
     = (Raise (Exn "ValueError" "Unknown level: 'debug'"),
        {| Machine.environ := [("LOG_LEVEL", "debug")];
           Machine.root_handlers := [log_format];
           Machine.root_level := 30;
           Machine.created := ["custom_key"] |}).
Proof.
  split.
  - apply (proj2
             (proj2
                (proj1
                   (proj2
                      (groq_client_init_key (H := Machine.host) None
                         "llama2-70b-4096"
                         (Machine.started [("GROQ_API_KEY", "test_api_key")])))
                   "test_api_key" ltac:(discriminate)
                   (or_intror (conj (or_introl eq_refl) eq_refl)))
                0%nat _ eq_refl)
             tt _ eq_refl).
  - apply (proj1
             (proj2
                (proj1
                   (proj2
                      (groq_client_init_key (H := Machine.host)
                         (Some "custom_key") "llama2-70b-4096"
                         (Machine.started [("LOG_LEVEL", "debug")])))
                   "custom_key" ltac:(discriminate) (or_introl eq_refl))
                0%nat _ eq_refl)
             (Exn "ValueError" "Unknown level: 'debug'") _ eq_refl).
Defined.

(* ================================================================== *)
(** ** The service clients: sending mail and uploading *)

Section ClientSends.

Context {P : Platform}.

(** X27. [GmailClient.create_item] encodes the message (with the HTML
    part only when [html_body] is truthy) and sends it as the "raw" body
    of one request for the user "me"; the answer of the API is the result.
    An exception of the encoder leaves the method as it is, unlogged,
    before anything is sent; so does any exception of the API call that is
    not an [HttpError]. *)
Theorem gmail_create_item_request :
  forall (to subject body html_body : pyval) (st : client_state),
    let html := if py_truthy html_body then Some html_body else None in
    (forall (raw : pyval) (r : answer pyval) (o : Outside),
        encode_email to subject body html = Return raw ->
        execute (ApiRequest "gmail" "users.messages.send"
                   [("userId", PStr "me"); ("body", PDict [("raw", raw)])])
          (outside st)
        = (r, o) ->
        gmail_create_item to subject body html_body st
        = match r with
          | Failed (Http h) =>
              (Failed (Http h),
               {| outside := o; client_log := client_log st ++ error_lines h |})
          | _ => (r, {| outside := o; client_log := client_log st |})
          end)
    /\ (forall e : exn,
           encode_email to subject body html = Raise e ->
           gmail_create_item to subject body html_body st
           = (Failed (Other e), st)).
Proof.
  intros to subject body html_body st html. subst html. split.
  - intros raw r o Hencode Hrun.
    unfold gmail_create_item. rewrite except_http_run.
    unfold andthen, of_outcome, run. rewrite Hencode, Hrun.
    destruct r as [v | [h | e]]; reflexivity.
  - intros e Hencode.
    unfold gmail_create_item. rewrite except_http_run.
    unfold andthen, of_outcome. rewrite Hencode. reflexivity.
Qed.

(** X28. [DriveClient.upload_file] with a truthy [name] opens the local
    file and then sends one create request with the name (and the parent
    folder, as a one-element list, only when [parent_id] is truthy), the
    media and the fields to return.  When the file cannot be opened the
    exception leaves the method unlogged and nothing is sent. *)
Theorem upload_with_name_request :
  forall (local_path name mime_type parent_id : pyval) (st : client_state),
    py_truthy name = true ->
    (forall (media : pyval) (o1 : Outside) (r : answer pyval) (o2 : Outside),
        media_file_upload local_path mime_type (outside st)
        = (Return media, o1) ->
        execute
          (ApiRequest "drive" "files.create"
             [("body",
               PDict ([("name", name)]
                      ++ (if py_truthy parent_id
                          then [("parents", PList [parent_id])]
                          else [])));
              ("media_body", media);
              ("fields", PStr "id, name, mimeType, webViewLink")])
          o1
        = (r, o2) ->
        drive_upload_file local_path name mime_type parent_id st
        = match r with
          | Failed (Http h) =>
              (Failed (Http h),
               {| outside := o2; client_log := client_log st ++ error_lines h |})
          | _ => (r, {| outside := o2; client_log := client_log st |})
          end)
    /\ (forall (e : exn) (o1 : Outside),
           media_file_upload local_path mime_type (outside st)
           = (Raise e, o1) ->
           drive_upload_file local_path name mime_type parent_id st
           = (Failed (Other e),
              {| outside := o1; client_log := client_log st |})).
Proof.
  intros local_path name mime_type parent_id st Hname. split.
  - intros media o1 r o2 Hopen Hrun.
    unfold drive_upload_file. rewrite except_http_run.
    unfold andthen, done, open_media, run, set_if.
    rewrite Hname, Hopen.
    destruct (py_truthy parent_id); simpl in *; rewrite Hrun;
      destruct r as [v | [h | e]]; reflexivity.
  - intros e o1 Hopen.
    unfold drive_upload_file. rewrite except_http_run.
    unfold andthen, done, open_media. rewrite Hname, Hopen. reflexivity.
Qed.

End ClientSends.

(** [test_create_item] of the mail client: one message sent. *)
Lemma gmail_create_item_request_witness :
  let st := Office.clients (Office.always (PDict [("id", PStr "sent_email_id")])) in
  fst (gmail_create_item (P := Office.platform)
         (PStr "test@example.com") (PStr "Test Subject") (PStr "Test Body")
         PNone st)
  = Done (PDict [("id", PStr "sent_email_id")])
  /\ Office.sent
       (outside (snd (gmail_create_item (P := Office.platform)
                        (PStr "test@example.com") (PStr "Test Subject")
                        (PStr "Test Body") PNone st)))
     = [ApiRequest "gmail" "users.messages.send"
          [("userId", PStr "me");
           ("body", PDict [("raw", PStr "cmF3IG1lc3NhZ2U=")])]].
Proof.
  intros st. split; [|vm_compute; reflexivity].
  exact (f_equal fst
           (proj1 (gmail_create_item_request (P := Office.platform)
                     (PStr "test@example.com") (PStr "Test Subject")
                     (PStr "Test Body") PNone st)
              (PStr "cmF3IG1lc3NhZ2U=")
              (Done (PDict [("id", PStr "sent_email_id")])) _
              eq_refl eq_refl)).
Defined.

(** An upload with a name into a folder. *)
Lemma upload_with_name_request_witness :
  let st := Office.clients (Office.always (PDict [("id", PStr "uploaded_file1")])) in
  fst (drive_upload_file (P := Office.platform)
         (PStr "/path/to/test_upload.txt") (PStr "test_upload.txt")
         PNone (PStr "folder1") st)
  = Done (PDict [("id", PStr "uploaded_file1")])
  /\ Office.sent
       (outside (snd (drive_upload_file (P := Office.platform)
                        (PStr "/path/to/test_upload.txt")
                        (PStr "test_upload.txt") PNone (PStr "folder1") st)))
     = [ApiRequest "drive" "files.create"
          [("body",
            PDict [("name", PStr "test_upload.txt");
                   ("parents", PList [PStr "folder1"])]);
           ("media_body", PStr "/path/to/test_upload.txt");
           ("fields", PStr "id, name, mimeType, webViewLink")]].
Proof.
  intros st. split; [|vm_compute; reflexivity].
  exact (f_equal fst
           (proj1 (upload_with_name_request (P := Office.platform)
                     (PStr "/path/to/test_upload.txt")
                     (PStr "test_upload.txt") PNone (PStr "folder1") st
                     eq_refl)
              (PStr "/path/to/test_upload.txt") _
              (Done (PDict [("id", PStr "uploaded_file1")])) _
              eq_refl eq_refl)).
Defined.
